(** * Ferramentas de anatomia: the OCR covering and highlighting scripts

    Shallow embedding of the two OCR scripts of [src/1.py]:
    "Apaga todos os textos das imagens" ([detectar_e_cobrir_texto]) and
    "Destaca texto de imagem" ([detectar_e_destacar_palavras] with its batch
    driver [processar_imagens]).

    Python values are embedded as follows.
    - [str] is [string]; a character stands for one code point below 256
      (Latin-1), where [str.lower], [str.strip], [str.split] and [in] are
      written out as Python defines them on that range.
    - [int] is [Z]; counters and list indices are [nat]; the widths and
      heights Tesseract reports are sizes, of type [N].
    - An exception is a value of [Exc]; [try ... except Exception] is a
      match on it.
    - External collaborators (Pillow's [Image.open] and [save], the
      Tesseract calls, the font loader) are the fields of [Arquivo]: what
      each call answers for one image path; [save] answers per destination
      folder.
    - The drawing surface [ImageDraw.Draw(imagem)] is the list of drawing
      calls made so far, in order; [pintar] gives Pillow's rasterisation
      of a call.  [rectangle] is that of Pillow 9.5 and later: it raises
      [ValueError] when [x1 < x0] or [y1 < y0], and the [except] of the
      calling function turns that into a failure of the whole image.
    - A saved file is the buffer handed to [imagem.save] with its
      [quality]; the encoder's output (lossy for [.jpg] and [.jpeg]) is not
      modelled, so nothing is said of the pixels read back from a file. *)

From Stdlib Require Import ZArith NArith QArith Qround List Bool Lia Ascii String.
From Stdlib Require Import DecimalString Sorted.
Import ListNotations.

Open Scope string_scope.
Open Scope list_scope.
Open Scope Z_scope.

(** A size read as a Python [int]. *)
Coercion Z.of_N : N >-> Z.

(* ------------------------------------------------------------------ *)
(** ** Exceptions *)

Inductive Erro : Type :=
| IndexError
| ValueError
| IOError          (* Image.open, convert or save failed *)
| TesseractError.  (* an OCR call failed *)

Inductive Exc (A : Type) : Type :=
| Ret (a : A)
| Raise (e : Erro).

Arguments Ret {A} a.
Arguments Raise {A} e.

Definition bind {A B : Type} (m : Exc A) (k : A -> Exc B) : Exc B :=
  match m with
  | Ret a => k a
  | Raise e => Raise e
  end.

Notation "x <- m ;; k" := (bind m (fun x => k))
  (at level 61, m at next level, right associativity).

(** [for x in xs: st = body(st, x)], leaving the loop at the first
    exception. *)
Fixpoint for_each {A S : Type} (body : S -> A -> Exc S) (xs : list A) (st : S)
  : Exc S :=
  match xs with
  | [] => Ret st
  | x :: xs' => st' <- body st x ;; for_each body xs' st'
  end.

(** [xs[i]] for [i >= 0]. *)
Definition item {A : Type} (xs : list A) (i : nat) : Exc A :=
  match nth_error xs i with
  | Some a => Ret a
  | None => Raise IndexError
  end.

(** [[f(x) for x in xs]] where [f] may raise. *)
Fixpoint map_exc {A B : Type} (f : A -> Exc B) (xs : list A) : Exc (list B) :=
  match xs with
  | [] => Ret []
  | x :: xs' => b <- f x ;; bs <- map_exc f xs' ;; Ret (b :: bs)
  end.

(** [min(...)] and [max(...)] of a sequence: [ValueError] when empty. *)
Definition py_min (zs : list Z) : Exc Z :=
  match zs with
  | [] => Raise ValueError
  | z :: zs' => Ret (fold_left Z.min zs' z)
  end.

Definition py_max (zs : list Z) : Exc Z :=
  match zs with
  | [] => Raise ValueError
  | z :: zs' => Ret (fold_left Z.max zs' z)
  end.

(* ------------------------------------------------------------------ *)
(** ** Python strings *)

Module PyStr.

(** [str.isspace] on one code point below 256: TAB..CR, FS..US, space,
    NEL and NBSP. *)
Definition isspace (c : ascii) : bool :=
  let n := nat_of_ascii c in
  ((9 <=? n) && (n <=? 13) || (28 <=? n) && (n <=? 32)
   || (n =? 133) || (n =? 160))%nat.

(** [str.lower] on one code point below 256: A-Z and the Latin-1 capitals
    0xC0-0xDE, the multiplication sign 0xD7 apart, move up by 32. *)
Definition lower_char (c : ascii) : ascii :=
  let n := nat_of_ascii c in
  if ((65 <=? n) && (n <=? 90)
      || (192 <=? n) && (n <=? 222) && negb (n =? 215))%nat
  then ascii_of_nat (n + 32) else c.

Fixpoint lower (s : string) : string :=
  match s with
  | EmptyString => EmptyString
  | String c r => String (lower_char c) (lower r)
  end.

Fixpoint lstrip (s : string) : string :=
  match s with
  | EmptyString => EmptyString
  | String c r => if isspace c then lstrip r else s
  end.

Fixpoint rstrip (s : string) : string :=
  match s with
  | EmptyString => EmptyString
  | String c r =>
      match rstrip r with
      | EmptyString => if isspace c then EmptyString else String c EmptyString
      | r' => String c r'
      end
  end.

(** [s.strip()] *)
Definition strip (s : string) : string := rstrip (lstrip s).

(** Truth value of a string: non-empty. *)
Definition truthy (s : string) : bool :=
  match s with
  | EmptyString => false
  | String _ _ => true
  end.

Definition fecha (cur : string) (rest : list string) : list string :=
  if truthy cur then cur :: rest else rest.

Fixpoint split_aux (cur : string) (s : string) : list string :=
  match s with
  | EmptyString => fecha cur []
  | String c r =>
      if isspace c then fecha cur (split_aux EmptyString r)
      else split_aux (cur ++ String c EmptyString)%string r
  end.

(** [s.split()]: the maximal runs of non-whitespace. *)
Definition split (s : string) : list string := split_aux EmptyString s.

(** [sub in s] *)
Fixpoint contem (sub s : string) : bool :=
  match s with
  | EmptyString => prefix sub EmptyString
  | String _ r => prefix sub s || contem sub r
  end.

(** [str(n)] for [n >= 0]. *)
Definition str (n : nat) : string := NilZero.string_of_uint (Nat.to_uint n).

(** [len(s)] *)
Definition len (s : string) : Z := Z.of_nat (String.length s).

(** [" ".join(xs)] *)
Fixpoint join_espaco (xs : list string) : string :=
  match xs with
  | [] => EmptyString
  | [x] => x
  | x :: rest => (x ++ " " ++ join_espaco rest)%string
  end.

End PyStr.

(* ------------------------------------------------------------------ *)
(** ** Pillow: images, fonts and drawing calls *)

Module Pillow.

Definition Cor : Type := (Z * Z * Z)%type.

Definition branco : Cor := (255, 255, 255).
Definition vermelho : Cor := (255, 0, 0).
Definition azul : Cor := (0, 0, 255).

(** A decoded RGB image: [size] and the pixel at each position. *)
Record Imagem : Type := {
  img_width : Z;
  img_height : Z;
  getpixel : Z -> Z -> Cor
}.

(** A loaded font, through the two metric calls the script probes.
    [getsize = None]: the attribute is missing ([AttributeError]);
    [getbbox s = None]: the call raises. *)
Record Fonte : Type := {
  getsize : option (string -> Z * Z);
  getbbox : string -> option (Z * Z * Z * Z)
}.

(** One call on the [ImageDraw] object. *)
Inductive Chamada : Type :=
| rectangle (xy : Z * Z * Z * Z) (fill outline : option Cor) (width : Z)
| text (xy : Z * Z) (s : string) (fill : Cor) (font : option Fonte).

Definition na_imagem (img : Imagem) (px py : Z) : bool :=
  (0 <=? px) && (px <? img_width img) && (0 <=? py) && (py <? img_height img).

Definition na_caixa (xy : Z * Z * Z * Z) (px py : Z) : bool :=
  let '(x0, y0, x1, y1) := xy in
  (x0 <=? px) && (px <=? x1) && (y0 <=? py) && (py <=? y1).

(** The band of [w] pixels along the inside of the box's four edges. *)
Definition na_borda (xy : Z * Z * Z * Z) (w : Z) (px py : Z) : bool :=
  let '(x0, y0, x1, y1) := xy in
  na_caixa xy px py && negb (na_caixa (x0 + w, y0 + w, x1 - w, y1 - w) px py).

Definition pintar_se (img : Imagem) (mascara : Z -> Z -> bool) (c : Cor)
  : Imagem :=
  {| img_width := img_width img;
     img_height := img_height img;
     getpixel := fun px py =>
       if na_imagem img px py && mascara px py then c else getpixel img px py |}.

(** Pillow's rasterisation of one call, for boxes with [x0 <= x1] and
    [y0 <= y1]: both corners are inclusive, the fill goes first and the
    outline of width [w] is drawn inwards from the box, everything clipped
    to the image.  [tinta font s dx dy] tells whether the glyphs of [s]
    cover the pixel at offset [(dx, dy)] from the anchor. *)
Definition pintar (tinta : option Fonte -> string -> Z -> Z -> bool)
    (img : Imagem) (ch : Chamada) : Imagem :=
  match ch with
  | rectangle xy fill outline w =>
      let img1 :=
        match fill with
        | Some c => pintar_se img (na_caixa xy) c
        | None => img
        end in
      match outline with
      | Some c => pintar_se img1 (na_borda xy w) c
      | None => img1
      end
  | text (tx, ty) s c font =>
      pintar_se img (fun px py => tinta font s (px - tx) (py - ty)) c
  end.

(** The image after a sequence of calls. *)
Definition revelar (tinta : option Fonte -> string -> Z -> Z -> bool)
    (img : Imagem) (chamadas : list Chamada) : Imagem :=
  fold_left (pintar tinta) chamadas img.

(** [desenho.rectangle(xy, fill=..., outline=..., width=...)]:
    [ValueError] ("x1 must be greater than or equal to x0", and the same
    for y) on reversed corners, else the call is drawn. *)
Definition ImageDraw_rectangle (desenho : list Chamada) (xy : Z * Z * Z * Z)
    (fill outline : option Cor) (width : Z) : Exc (list Chamada) :=
  let '(x0, y0, x1, y1) := xy in
  if (x1 <? x0) || (y1 <? y0) then Raise ValueError
  else Ret (desenho ++ [rectangle xy fill outline width]).

(** The image buffer: the opened image and the calls drawn on it. *)
Record Figura : Type := {
  base : Imagem;
  chamadas : list Chamada
}.

(** What [imagem.save(caminho_saida, quality=...)] is called with.  The
    bytes written are the encoder's, in the format the file name asks
    for. *)
Record Salvo : Type := {
  figura : Figura;
  quality : Z
}.

End Pillow.

(* ------------------------------------------------------------------ *)
(** ** Tesseract output and the file system *)

(** [pytesseract.image_to_data(..., output_type=Output.DICT)]: parallel
    lists, one entry per detected token.  [width] and [height] are the
    sizes of the token's box, which Tesseract reports as non-negative
    integers. *)
Module Dados.
Record t : Type := {
  text : list string;
  conf : list Z;
  left : list Z;
  top : list Z;
  width : list N;
  height : list N
}.
End Dados.

(** One image path, with what each external call answers for it. *)
Record Arquivo : Type := {
  name : string;
  Image_open : Exc Pillow.Imagem;        (* Image.open, converted to RGB *)
  image_to_string : Exc string;          (* pytesseract.image_to_string *)
  image_to_data : Exc Dados.t;           (* pytesseract.image_to_data *)
  carregar_fonte : option Pillow.Fonte;  (* truetype, else load_default, else None *)
  save_ok : string -> bool               (* imagem.save succeeds in the folder at this path *)
}.

(** A destination folder: its path and its files, each a name with what
    was saved under it, newest first. *)
Record Pasta : Type := {
  caminho : string;
  arquivos : list (string * Pillow.Salvo)
}.

Definition exists_ (pasta : Pasta) (nome : string) : bool :=
  existsb (fun e => String.eqb (fst e) nome) (arquivos pasta).

Definition unlink (pasta : Pasta) (nome : string) : Pasta :=
  {| caminho := caminho pasta;
     arquivos := filter (fun e => negb (String.eqb (fst e) nome)) (arquivos pasta) |}.

(** The folder after a file was written under [nome], replacing an older
    file of that name. *)
Definition escrever (pasta : Pasta) (nome : string) (salvo : Pillow.Salvo)
  : Pasta :=
  {| caminho := caminho pasta;
     arquivos := (nome, salvo) :: arquivos (unlink pasta nome) |}.

(** [imagem.save(caminho_destino / nome_arquivo, quality=95)] *)
Definition save (arq : Arquivo) (fig : Pillow.Figura) (pasta : Pasta)
  : Exc Pasta :=
  if save_ok arq (caminho pasta)
  then Ret (escrever pasta (name arq)
              {| Pillow.figura := fig; Pillow.quality := 95 |})
  else Raise IOError.

(** The [logger.error] records (informational records are left out). *)
Inductive Registro : Type :=
| ErroAoProcessar (nome : string) (e : Erro)
| FalhaAoProcessar (nome : string).

(* ------------------------------------------------------------------ *)
(** ** "Apaga todos os textos das imagens" *)

Module Apagar.

(** Body of the loop of [detectar_e_cobrir_texto]: the state is the calls
    drawn so far and [total_blocos_cobertos]. *)
Definition cobrir_bloco (dados : Dados.t)
    (st : list Pillow.Chamada * nat) (i : nat)
  : Exc (list Pillow.Chamada * nat) :=
  let '(desenho, total_blocos_cobertos) := st in
  c <- item (Dados.conf dados) i ;;
  if 0 <? c then
    t <- item (Dados.text dados) i ;;
    if PyStr.truthy (PyStr.strip t) then
      x <- item (Dados.left dados) i ;;
      y <- item (Dados.top dados) i ;;
      largura <- item (Dados.width dados) i ;;
      altura <- item (Dados.height dados) i ;;
      desenho <- Pillow.ImageDraw_rectangle desenho
                   (x, y, x + largura, y + altura)
                   (Some Pillow.branco) None 1 ;;
      Ret (desenho, S total_blocos_cobertos)
    else Ret st
  else Ret st.

Definition corpo (arq : Arquivo) (caminho_destino : Pasta)
  : Exc (nat * Pasta) :=
  imagem <- Image_open arq ;;
  dados <- image_to_data arq ;;
  st <- for_each (cobrir_bloco dados)
          (seq 0 (List.length (Dados.text dados))) ([], 0%nat) ;;
  let '(desenho, total_blocos_cobertos) := st in
  pasta <- save arq {| Pillow.base := imagem; Pillow.chamadas := desenho |}
             caminho_destino ;;
  Ret (total_blocos_cobertos, pasta).

(** Returns the tuple, the destination folder and the error records. *)
Definition detectar_e_cobrir_texto (arq : Arquivo) (caminho_destino : Pasta)
  : (bool * nat) * Pasta * list Registro :=
  match corpo arq caminho_destino with
  | Ret (total, pasta) => ((true, total), pasta, [])
  | Raise e => ((false, 0%nat), caminho_destino, [ErroAoProcessar (name arq) e])
  end.

End Apagar.

(* ------------------------------------------------------------------ *)
(** ** "Destaca texto de imagem" *)

(** An entry of [coordenadas_palavras]. *)
Module Coord.
Record t : Type := {
  texto : string;
  x : Z;
  y : Z;
  largura : N;
  altura : N
}.
End Coord.

(** An entry of [destaques]. *)
Module Dest.
Record t : Type := {
  x : Z;
  y : Z;
  largura : Z;
  altura : Z
}.
End Dest.

Module Destacar.

(** The loop that fills [texto_reconstruido] and [coordenadas_palavras]. *)
Definition juntar_coordenada (dados : Dados.t)
    (st : string * list Coord.t) (i : nat) : Exc (string * list Coord.t) :=
  let '(texto_reconstruido, coordenadas_palavras) := st in
  c <- item (Dados.conf dados) i ;;
  if 30 <? c then
    t <- item (Dados.text dados) i ;;
    if PyStr.truthy (PyStr.strip t) then
      l <- item (Dados.left dados) i ;;
      tp <- item (Dados.top dados) i ;;
      w <- item (Dados.width dados) i ;;
      h <- item (Dados.height dados) i ;;
      Ret ((texto_reconstruido ++ PyStr.strip t ++ " ")%string,
           coordenadas_palavras ++
             [{| Coord.texto := PyStr.strip t; Coord.x := l; Coord.y := tp;
                 Coord.largura := w; Coord.altura := h |}])
    else Ret st
  else Ret st.

Definition juntar_coordenadas (dados : Dados.t) : Exc (string * list Coord.t) :=
  for_each (juntar_coordenada dados)
    (seq 0 (List.length (Dados.text dados))) (EmptyString, []).

(** The drawing state of one call: the [ImageDraw] calls so far,
    [destaques] and [palavras_encontradas]. *)
Record Estado : Type := {
  desenho : list Pillow.Chamada;
  destaques : list Dest.t;
  palavras_encontradas : nat
}.

Definition espessura : Z := 2.

(** The inner [for j] loop from position [j] on: [sequencia_encontrada]. *)
Fixpoint sequencia_encontrada (coordenadas_palavras : list Coord.t)
    (i : nat) (palavras_da_frase : list string) (j : nat) : bool :=
  match palavras_da_frase with
  | [] => true
  | palavra :: resto =>
      match nth_error coordenadas_palavras (i + j) with
      | None => false
      | Some c =>
          if PyStr.contem palavra (PyStr.lower (Coord.texto c))
          then sequencia_encontrada coordenadas_palavras i resto (S j)
          else false
      end
  end.

(** What follows [if sequencia_encontrada:] and [if palavra_chave in ...:]:
    cover, remember for numbering, outline, count.  Either [rectangle]
    call may raise. *)
Definition destacar (ocultar_palavras numerar_palavras : bool)
    (xy : Z * Z * Z * Z) (destaque : Dest.t) (st : Estado) : Exc Estado :=
  let '(x_min, y_min, x_max, y_max) := xy in
  coberto <-
    (if ocultar_palavras
     then Pillow.ImageDraw_rectangle (desenho st) xy (Some Pillow.branco) None 1
     else Ret (desenho st)) ;;
  contornado <-
    Pillow.ImageDraw_rectangle coberto
      (x_min - espessura, y_min - espessura,
       x_max + espessura, y_max + espessura)
      None (Some Pillow.vermelho) 3 ;;
  Ret {| desenho := contornado;
         destaques :=
           if ocultar_palavras && numerar_palavras
           then destaques st ++ [destaque] else destaques st;
         palavras_encontradas := S (palavras_encontradas st) |}.

(** "Calcular retângulo que abrange toda a frase": the rectangle of the
    [k] boxes from [i] on. *)
Definition abranger (coordenadas_palavras : list Coord.t) (i k : nat)
  : Exc (Z * Z * Z * Z) :=
  primeira <- item coordenadas_palavras i ;;
  let x_min := Coord.x primeira in
  topos <- map_exc (fun j => c <- item coordenadas_palavras (i + j) ;;
                             Ret (Coord.y c)) (seq 0 k) ;;
  y_min <- py_min topos ;;
  ultima <- item coordenadas_palavras (i + k - 1) ;;
  let x_max := Coord.x ultima + Coord.largura ultima in
  bases <- map_exc (fun j => c <- item coordenadas_palavras (i + j) ;;
                             Ret (Coord.y c + Coord.altura c)) (seq 0 k) ;;
  y_max <- py_max bases ;;
  Ret (x_min, y_min, x_max, y_max).

(** The [destaques] entry of a phrase rectangle. *)
Definition destaque_de (xy : Z * Z * Z * Z) : Dest.t :=
  let '(x_min, y_min, x_max, y_max) := xy in
  {| Dest.x := x_min + (x_max - x_min) / 2;
     Dest.y := y_min + (y_max - y_min) / 2;
     Dest.largura := x_max - x_min;
     Dest.altura := y_max - y_min |}.

(** Body of [for i in range(len(coordenadas_palavras) - len(palavras_da_frase) + 1)]. *)
Definition destacar_frase (ocultar_palavras numerar_palavras : bool)
    (coordenadas_palavras : list Coord.t) (palavras_da_frase : list string)
    (st : Estado) (i : nat) : Exc Estado :=
  if sequencia_encontrada coordenadas_palavras i palavras_da_frase 0 then
    xy <- abranger coordenadas_palavras i (List.length palavras_da_frase) ;;
    destacar ocultar_palavras numerar_palavras xy (destaque_de xy) st
  else Ret st.

(** Body of [for coord in coordenadas_palavras]. *)
Definition destacar_palavra (ocultar_palavras numerar_palavras : bool)
    (palavra_chave : string) (st : Estado) (coord : Coord.t) : Exc Estado :=
  if PyStr.contem palavra_chave (PyStr.lower (Coord.texto coord)) then
    let x := Coord.x coord in
    let y := Coord.y coord in
    let largura := Coord.largura coord in
    let altura := Coord.altura coord in
    destacar ocultar_palavras numerar_palavras
      (x, y, x + largura, y + altura)
      {| Dest.x := x + largura / 2;
         Dest.y := y + altura / 2;
         Dest.largura := largura;
         Dest.altura := altura |}
      st
  else Ret st.

(** Body of [for palavra_chave in palavras_chave_lower].  The range is
    empty when the phrase has more words than there are boxes. *)
Definition destacar_chave (ocultar_palavras numerar_palavras : bool)
    (coordenadas_palavras : list Coord.t) (st : Estado)
    (palavra_chave : string) : Exc Estado :=
  if PyStr.contem " " palavra_chave then
    let palavras_da_frase := PyStr.split palavra_chave in
    for_each
      (destacar_frase ocultar_palavras numerar_palavras
         coordenadas_palavras palavras_da_frase)
      (seq 0 (List.length coordenadas_palavras + 1 - List.length palavras_da_frase))
      st
  else
    for_each (destacar_palavra ocultar_palavras numerar_palavras palavra_chave)
      coordenadas_palavras st.

(** Text extent of the label: [getsize], else [getbbox], else the
    estimate [len(numero_str) * tamanho_fonte * 0.6] by [tamanho_fonte].
    Extents are rationals, so that the estimate (a float in the script,
    with 0.6 read as 3/5) and the integer metrics share one type. *)
Definition medir (fonte : Pillow.Fonte) (numero_str : string)
    (tamanho_fonte : Z) : Q * Q :=
  match Pillow.getsize fonte with
  | Some getsize =>
      let '(w, h) := getsize numero_str in (inject_Z w, inject_Z h)
  | None =>
      match Pillow.getbbox fonte numero_str with
      | Some (b0, b1, b2, b3) => (inject_Z (b2 - b0), inject_Z (b3 - b1))
      | None =>
          ((inject_Z (PyStr.len numero_str) * inject_Z tamanho_fonte * (6 # 10))%Q,
           inject_Z tamanho_fonte)
      end
  end.

(** [v // 2] on an extent. *)
Definition metade (v : Q) : Z := Qfloor (v / 2)%Q.

Definition tamanho_da_fonte (destaque : Dest.t) : Z :=
  let tamanho_fonte := Z.min (Dest.largura destaque) (Dest.altura destaque) / 2 in
  Z.max tamanho_fonte 12.

(** Where the label of [destaque] starts when a font is loaded. *)
Definition posicao (fonte : Pillow.Fonte) (numero_str : string)
    (destaque : Dest.t) : Z * Z :=
  let '(largura_texto, altura_texto) :=
    medir fonte numero_str (tamanho_da_fonte destaque) in
  let pos_x := Dest.x destaque - metade largura_texto in
  let pos_y := Dest.y destaque - metade altura_texto in
  let pos_x := Z.max pos_x (Dest.x destaque - Dest.largura destaque / 2 + 2) in
  let pos_y := Z.max pos_y (Dest.y destaque - Dest.altura destaque / 2 + 2) in
  (pos_x, pos_y).

(** Body of [for i, destaque in enumerate(destaques, 1)]. *)
Definition numerar (fonte : option Pillow.Fonte)
    (desenho : list Pillow.Chamada) (par : nat * Dest.t)
  : list Pillow.Chamada :=
  let '(i, destaque) := par in
  let numero_str := PyStr.str i in
  match fonte with
  | Some f =>
      desenho ++
        [Pillow.text (posicao f numero_str destaque) numero_str
           Pillow.azul (Some f)]
  | None =>
      desenho ++
        [Pillow.text (Dest.x destaque - 5, Dest.y destaque - 10) numero_str
           Pillow.azul None]
  end.

Definition enumerate1 {A : Type} (xs : list A) : list (nat * A) :=
  combine (seq 1 (List.length xs)) xs.

(** The numbering pass after the scan. *)
Definition numerar_destaques (numerar_palavras : bool)
    (fonte : option Pillow.Fonte) (st : Estado) : list Pillow.Chamada :=
  if numerar_palavras && negb (Nat.eqb (List.length (destaques st)) 0)
  then fold_left (numerar fonte) (enumerate1 (destaques st)) (desenho st)
  else desenho st.

Definition estado_inicial : Estado :=
  {| desenho := []; destaques := []; palavras_encontradas := 0%nat |}.

(** The full-text gate: some lower-cased key phrase occurs in
    [texto_completo]. *)
Definition texto_encontrado (palavras_chave_lower : list string)
    (texto_completo : string) : bool :=
  existsb (fun palavra => PyStr.contem palavra texto_completo)
    palavras_chave_lower.

(** The box-level scan: all key phrases over [coordenadas_palavras]. *)
Definition varrer (ocultar_palavras numerar_palavras : bool)
    (coordenadas_palavras : list Coord.t) (palavras_chave_lower : list string)
  : Exc Estado :=
  for_each (destacar_chave ocultar_palavras numerar_palavras coordenadas_palavras)
    palavras_chave_lower estado_inicial.

(** The [try] block of [detectar_e_destacar_palavras]: occurrences, the
    found flag and the folder after the save. *)
Definition corpo (arq : Arquivo) (caminho_destino : Pasta)
    (palavras_chave : list string) (ocultar_palavras numerar_palavras : bool)
  : Exc (nat * bool * Pasta) :=
  imagem <- Image_open arq ;;
  texto <- image_to_string arq ;;
  let texto_completo := PyStr.lower texto in
  dados <- image_to_data arq ;;
  let fonte := carregar_fonte arq in
  let palavras_chave_lower := map PyStr.lower palavras_chave in
  if negb (texto_encontrado palavras_chave_lower texto_completo) then
    pasta <- save arq {| Pillow.base := imagem; Pillow.chamadas := [] |}
               caminho_destino ;;
    Ret (0%nat, false, pasta)
  else
    tc <- juntar_coordenadas dados ;;
    let coordenadas_palavras := snd tc in
    st <- varrer ocultar_palavras numerar_palavras coordenadas_palavras
            palavras_chave_lower ;;
    let desenho_final := numerar_destaques numerar_palavras fonte st in
    pasta <- save arq {| Pillow.base := imagem; Pillow.chamadas := desenho_final |}
               caminho_destino ;;
    Ret (palavras_encontradas st, true, pasta).

(** Returns the tuple, the destination folder and the error records. *)
Definition detectar_e_destacar_palavras (arq : Arquivo) (caminho_destino : Pasta)
    (palavras_chave : list string) (ocultar_palavras numerar_palavras : bool)
  : (bool * nat * bool) * Pasta * list Registro :=
  match corpo arq caminho_destino palavras_chave ocultar_palavras numerar_palavras with
  | Ret (n, achou, pasta) => ((true, n, achou), pasta, [])
  | Raise e =>
      ((false, 0%nat, false), caminho_destino, [ErroAoProcessar (name arq) e])
  end.

(** ** The batch driver *)

Record Opcoes : Type := {
  deletar_sem_destaque : bool;
  modo_duplo : bool;
  ocultar_palavras : bool;
  numerar_palavras : bool
}.

Record Lote : Type := {
  imagens_processadas : nat;
  imagens_com_erro : nat;
  imagens_sem_palavras : nat;
  imagens_deletadas : nat;
  total_palavras_destacadas : nat;
  pasta_destino : Pasta;
  pasta_gabarito : Pasta;
  pasta_prova : Pasta;
  log : list Registro
}.

(** What one pass of the loop hands to the counting part. *)
Record Passo : Type := {
  sucesso : bool;
  palavras_destacadas : nat;
  encontrou_palavras : bool;
  destino : Pasta;
  gabarito : Pasta;
  prova : Pasta;
  deletadas : nat;
  erros : list Registro
}.

Definition unlink_se_existe (pasta : Pasta) (nome : string) : Pasta :=
  if exists_ pasta nome then unlink pasta nome else pasta.

(** First half of the loop body: the call or calls, then the deletion. *)
Definition chamar (palavras_chave : list string) (opcoes : Opcoes)
    (lote : Lote) (arq : Arquivo) : Passo :=
  if modo_duplo opcoes then
    let '(sucesso_gabarito, palavras_destacadas_gabarito,
          encontrou_palavras_gabarito, pg, lg) :=
      detectar_e_destacar_palavras arq (pasta_gabarito lote) palavras_chave
        false false in
    let '(sucesso_prova, _, _, pp, lp) :=
      detectar_e_destacar_palavras arq (pasta_prova lote) palavras_chave
        true (numerar_palavras opcoes) in
    let apagar := deletar_sem_destaque opcoes && negb encontrou_palavras_gabarito in
    {| sucesso := sucesso_gabarito && sucesso_prova;
       palavras_destacadas := palavras_destacadas_gabarito;
       encontrou_palavras := encontrou_palavras_gabarito;
       destino := pasta_destino lote;
       gabarito := if apagar then unlink_se_existe pg (name arq) else pg;
       prova := if apagar then unlink_se_existe pp (name arq) else pp;
       deletadas := if apagar then S (imagens_deletadas lote)
                    else imagens_deletadas lote;
       erros := lg ++ lp |}
  else
    let '(sucesso, palavras_destacadas, encontrou_palavras, pd, ld) :=
      detectar_e_destacar_palavras arq (pasta_destino lote) palavras_chave
        (ocultar_palavras opcoes)
        (ocultar_palavras opcoes && numerar_palavras opcoes) in
    let apagar :=
      negb encontrou_palavras && deletar_sem_destaque opcoes
      && exists_ pd (name arq) in
    {| sucesso := sucesso;
       palavras_destacadas := palavras_destacadas;
       encontrou_palavras := encontrou_palavras;
       destino := if apagar then unlink pd (name arq) else pd;
       gabarito := pasta_gabarito lote;
       prova := pasta_prova lote;
       deletadas := if apagar then S (imagens_deletadas lote)
                    else imagens_deletadas lote;
       erros := ld |}.

(** Body of [for imagem_path in tqdm(imagens)]. *)
Definition processar_imagem (palavras_chave : list string) (opcoes : Opcoes)
    (lote : Lote) (arq : Arquivo) : Lote :=
  let p := chamar palavras_chave opcoes lote arq in
  {| imagens_processadas :=
       if sucesso p then S (imagens_processadas lote)
       else imagens_processadas lote;
     imagens_com_erro :=
       if sucesso p then imagens_com_erro lote
       else S (imagens_com_erro lote);
     imagens_sem_palavras :=
       if sucesso p && negb (encontrou_palavras p)
       then S (imagens_sem_palavras lote) else imagens_sem_palavras lote;
     imagens_deletadas := deletadas p;
     total_palavras_destacadas :=
       if sucesso p
       then (total_palavras_destacadas lote + palavras_destacadas p)%nat
       else total_palavras_destacadas lote;
     pasta_destino := destino p;
     pasta_gabarito := gabarito p;
     pasta_prova := prova p;
     log := log lote ++ erros p ++
            (if sucesso p then [] else [FalhaAoProcessar (name arq)]) |}.

(** The folders as [criar_pasta_destino] finds or creates them, all
    counters at zero. *)
Definition lote_inicial (pd pg pp : Pasta) : Lote :=
  {| imagens_processadas := 0; imagens_com_erro := 0;
     imagens_sem_palavras := 0; imagens_deletadas := 0;
     total_palavras_destacadas := 0;
     pasta_destino := pd; pasta_gabarito := pg; pasta_prova := pp;
     log := [] |}%nat.

(** [processar_imagens] on an existing folder whose images are [imagens]:
    nothing is processed without key phrases. *)
Definition processar_imagens (imagens : list Arquivo)
    (palavras_chave : list string) (opcoes : Opcoes) (inicio : Lote) : Lote :=
  match palavras_chave with
  | [] => inicio
  | _ => fold_left (processar_imagem palavras_chave opcoes) imagens inicio
  end.

End Destacar.

(* ------------------------------------------------------------------ *)
(** ** Vocabulary of the statements *)

Module Espec.

Import Destacar.

(** A region: [(x_min, y_min, x_max, y_max)]. *)
Definition Regiao : Type := (Z * Z * Z * Z)%type.

(** The rectangle of one box. *)
Definition retangulo (c : Coord.t) : Regiao :=
  (Coord.x c, Coord.y c,
   Coord.x c + Coord.largura c, Coord.y c + Coord.altura c).

Definition cobertura (xy : Regiao) : Pillow.Chamada :=
  Pillow.rectangle xy (Some Pillow.branco) None 1.

Definition contorno (xy : Regiao) : Pillow.Chamada :=
  let '(x_min, y_min, x_max, y_max) := xy in
  Pillow.rectangle (x_min - 2, y_min - 2, x_max + 2, y_max + 2)
    None (Some Pillow.vermelho) 3.

(** A box [rectangle] accepts: [x0 <= x1] and [y0 <= y1]. *)
Definition ordenado (xy : Z * Z * Z * Z) : bool :=
  let '(x0, y0, x1, y1) := xy in
  (x0 <=? x1) && (y0 <=? y1).

(** Both [rectangle] calls made for a region go through: the fill of the
    region itself, made under the cover flag only, and the outline of the
    region moved outward by 2 px. *)
Definition desenhavel (ocultar_palavras : bool) (xy : Regiao) : bool :=
  let '(x_min, y_min, x_max, y_max) := xy in
  (negb ocultar_palavras || ordenado xy)
  && ordenado (x_min - 2, y_min - 2, x_max + 2, y_max + 2).

(** The calls drawn for one region. *)
Definition tracos (ocultar_palavras : bool) (xy : Regiao)
  : list Pillow.Chamada :=
  (if ocultar_palavras then [cobertura xy] else []) ++ [contorno xy].

(** [st'] is [st] after the regions [regs] were emitted, in this order. *)
Definition emitiu (ocultar_palavras numerar_palavras : bool)
    (st st' : Estado) (regs : list Regiao) : Prop :=
  desenho st' = desenho st ++ flat_map (tracos ocultar_palavras) regs
  /\ destaques st' =
       destaques st ++
         (if ocultar_palavras && numerar_palavras
          then map destaque_de regs else [])
  /\ palavras_encontradas st' = (palavras_encontradas st + List.length regs)%nat.

(** The shape of both scanning loops: the body emits the region [ab x]
    whenever [b x] holds. *)
Definition corpo_do_laco {A : Type} (ocultar_palavras numerar_palavras : bool)
    (b : A -> bool) (ab : A -> Exc Regiao) (st : Estado) (x : A) : Exc Estado :=
  if b x then
    xy <- ab x ;;
    destacar ocultar_palavras numerar_palavras xy (destaque_de xy) st
  else Ret st.

Definition regioes_do_laco {A : Type} (b : A -> bool) (ab : A -> Exc Regiao)
    (xs : list A) : list Regiao :=
  flat_map (fun x => if b x then
                       match ab x with Ret xy => [xy] | Raise _ => [] end
                     else []) xs.

(** The [k] boxes from index [i] on. *)
Definition janela (coords : list Coord.t) (i k : nat) : list Coord.t :=
  firstn k (skipn i coords).

(** Every token of the phrase has its box, and is a substring of that
    box's lower-cased text. *)
Definition janela_casa (coords : list Coord.t) (frase : list string)
    (i : nat) : Prop :=
  forall j palavra, nth_error frase j = Some palavra ->
    exists c, nth_error coords (i + j) = Some c
              /\ PyStr.contem palavra (PyStr.lower (Coord.texto c)) = true.

(** The regions of a multi-word phrase with the index each starts at. *)
Definition emitidas_frase (coords : list Coord.t) (frase : list string)
  : list (nat * Regiao) :=
  flat_map
    (fun i =>
       if sequencia_encontrada coords i frase 0 then
         match abranger coords i (List.length frase) with
         | Ret xy => [(i, xy)]
         | Raise _ => []
         end
       else [])
    (seq 0 (List.length coords + 1 - List.length frase)).

(** The regions of one key phrase, in emission order. *)
Definition regioes_da_chave (coords : list Coord.t) (palavra_chave : string)
  : list Regiao :=
  if PyStr.contem " " palavra_chave
  then map snd (emitidas_frase coords (PyStr.split palavra_chave))
  else map retangulo
         (filter (fun c => PyStr.contem palavra_chave (PyStr.lower (Coord.texto c)))
            coords).

(** A key phrase that is not blanks only: one with a blank in it has at
    least one word. *)
Definition chave_com_palavras (palavra_chave : string) : Prop :=
  PyStr.contem " " palavra_chave = true -> PyStr.split palavra_chave <> [].

(** The tokens of the OCR output, index-aligned. *)
Record Token : Type := {
  tk_text : string;
  tk_conf : Z;
  tk_left : Z;
  tk_top : Z;
  tk_width : N;
  tk_height : N
}.

Definition dados_de (tokens : list Token) : Dados.t :=
  {| Dados.text := map tk_text tokens;
     Dados.conf := map tk_conf tokens;
     Dados.left := map tk_left tokens;
     Dados.top := map tk_top tokens;
     Dados.width := map tk_width tokens;
     Dados.height := map tk_height tokens |}.

(** The filtering rule with threshold [limiar]: dropped when the trimmed
    text is empty or the confidence is at or below the threshold. *)
Definition descartado (limiar : Z) (t : Token) : bool :=
  negb (PyStr.truthy (PyStr.strip (tk_text t))) || (tk_conf t <=? limiar).

Definition caixa_de (t : Token) : Coord.t :=
  {| Coord.texto := PyStr.strip (tk_text t);
     Coord.x := tk_left t; Coord.y := tk_top t;
     Coord.largura := tk_width t; Coord.altura := tk_height t |}.

(** [coordenadas_palavras] of a token list. *)
Definition coords_de (tokens : list Token) : list Coord.t :=
  map caixa_de (filter (fun t => negb (descartado 30 t)) tokens).

Definition retangulo_do_token (t : Token) : Regiao :=
  (tk_left t, tk_top t, tk_left t + tk_width t, tk_top t + tk_height t).

(** A box inside an image of [w] by [h] pixels. *)
Definition caixa_na_imagem (w h : Z) (c : Coord.t) : Prop :=
  0 <= Coord.x c /\ 0 <= Coord.largura c /\ Coord.x c + Coord.largura c <= w
  /\ 0 <= Coord.y c /\ 0 <= Coord.altura c /\ Coord.y c + Coord.altura c <= h.

(** The label of the [i]-th covered region. *)
Definition rotulo (fonte : option Pillow.Fonte) (i : nat) (xy : Regiao)
  : Pillow.Chamada :=
  match fonte with
  | Some f =>
      Pillow.text (posicao f (PyStr.str i) (destaque_de xy)) (PyStr.str i)
        Pillow.azul (Some f)
  | None =>
      Pillow.text (Dest.x (destaque_de xy) - 5, Dest.y (destaque_de xy) - 10)
        (PyStr.str i) Pillow.azul None
  end.

(** Half the extent of the label [numero] across and down, in integer
    arithmetic: from [getsize] where the font has it, else from [getbbox]
    where that answers, else from the estimate of [0.6] glyph sizes a
    character across and one glyph size down. *)
Definition meia_extensao (f : Pillow.Fonte) (numero : string) (tamanho : Z)
  : Z * Z :=
  match Pillow.getsize f with
  | Some getsize => (fst (getsize numero) / 2, snd (getsize numero) / 2)
  | None =>
      match Pillow.getbbox f numero with
      | Some (b0, b1, b2, b3) => ((b2 - b0) / 2, (b3 - b1) / 2)
      | None => (PyStr.len numero * tamanho * 3 / 10, tamanho / 2)
      end
  end.

(** The image cannot be loaded or decoded, or one of the two OCR calls
    fails, with exception [e]. *)
Definition falha_externa (arq : Arquivo) (e : Erro) : Prop :=
  Image_open arq = Raise e
  \/ (exists img, Image_open arq = Ret img /\ image_to_string arq = Raise e)
  \/ (exists img texto,
        Image_open arq = Ret img /\ image_to_string arq = Ret texto
        /\ image_to_data arq = Raise e).

Definition eh_texto (ch : Pillow.Chamada) : bool :=
  match ch with
  | Pillow.text _ _ _ _ => true
  | Pillow.rectangle _ _ _ _ => false
  end.

End Espec.

(* ------------------------------------------------------------------ *)
(** ** Sample inputs *)

Module Exemplos.

Import Espec.

Definition tk (s : string) (c l t : Z) (w h : N) : Token :=
  {| tk_text := s; tk_conf := c; tk_left := l; tk_top := t;
     tk_width := w; tk_height := h |}.

(** Two words on one line, with a noise token between them. *)
Definition tokens_linha : list Token :=
  [tk "Femur" 80 10 10 50 20; tk "  " 95 62 10 4 20; tk "tibia," 80 70 12 50 20].

(** The second word is read with low confidence. *)
Definition tokens_duvidosos : list Token :=
  [tk "Femur" 80 10 10 50 20; tk "tibia" 20 70 12 50 20].

Definition nova_linha : string := String (ascii_of_nat 10) EmptyString.

(** Two lines of text, "osso femur" at the right of the first one and
    "tibia e femur tibia" at the left of the second: the phrase
    "femur tibia" is read once across the line break and once within the
    second line. *)
Definition texto_quebra : string :=
  ("osso femur" ++ nova_linha ++ "tibia e femur tibia" ++ nova_linha)%string.

Definition tokens_quebra : list Token :=
  [tk "osso" 80 430 10 50 20; tk "femur" 80 500 10 50 20;
   tk "tibia" 80 10 40 50 20; tk "e" 80 70 40 10 20;
   tk "femur" 80 90 40 50 20; tk "tibia" 80 150 40 50 20].

(** The same two lines in a narrow column: the first "tibia" ends 2 px
    left of where the first "femur" starts. *)
Definition tokens_recuo : list Token :=
  [tk "osso" 80 40 10 50 20; tk "femur" 80 100 10 50 20;
   tk "tibia" 80 48 40 50 20; tk "e" 80 104 40 10 20;
   tk "femur" 80 120 40 50 20; tk "tibia" 80 176 40 50 20].

(** An empty folder. *)
Definition pasta_vazia (caminho : string) : Pasta :=
  {| caminho := caminho; arquivos := [] |}.

Definition saida : Pasta := pasta_vazia "saida".

(** The driver's counters at zero, with the three folders empty. *)
Definition lote_vazio : Destacar.Lote :=
  Destacar.lote_inicial saida (pasta_vazia "saida/Gabarito")
    (pasta_vazia "saida/Prova").

Definition preto : Pillow.Cor := (0, 0, 0).

Definition imagem_preta (w h : Z) : Pillow.Imagem :=
  {| Pillow.img_width := w; Pillow.img_height := h;
     Pillow.getpixel := fun _ _ => preto |}.

(** A font with [getsize] only: ten pixels a character, fourteen high. *)
Definition fonte_fixa : Pillow.Fonte :=
  {| Pillow.getsize := Some (fun s => (10 * PyStr.len s, 14));
     Pillow.getbbox := fun _ => None |}.

(** A font with [getbbox] only: the glyphs start 1 px right of and 3 px
    below the anchor. *)
Definition fonte_bbox : Pillow.Fonte :=
  {| Pillow.getsize := None;
     Pillow.getbbox := fun s => Some (1, 3, 1 + 9 * PyStr.len s, 16) |}.

(** A font neither metric call works on. *)
Definition fonte_muda : Pillow.Fonte :=
  {| Pillow.getsize := None; Pillow.getbbox := fun _ => None |}.

(** A readable image file. *)
Definition arquivo (nome : string) (img : Pillow.Imagem) (texto : string)
    (tokens : list Token) : Arquivo :=
  {| name := nome;
     Image_open := Ret img;
     image_to_string := Ret texto;
     image_to_data := Ret (dados_de tokens);
     carregar_fonte := Some fonte_fixa;
     save_ok := fun _ => true |}.

(** A readable image file that cannot be saved in the folder
    ["somente_leitura"]. *)
Definition arquivo_protegido (nome : string) (img : Pillow.Imagem)
    (texto : string) (tokens : list Token) : Arquivo :=
  {| name := nome;
     Image_open := Ret img;
     image_to_string := Ret texto;
     image_to_data := Ret (dados_de tokens);
     carregar_fonte := Some fonte_fixa;
     save_ok := fun pasta => negb (String.eqb pasta "somente_leitura") |}.

(** A file that cannot be opened. *)
Definition arquivo_corrompido (nome : string) : Arquivo :=
  {| name := nome;
     Image_open := Raise IOError;
     image_to_string := Raise TesseractError;
     image_to_data := Raise TesseractError;
     carregar_fonte := None;
     save_ok := fun _ => true |}.

(** Labels that leave no ink: enough to look at rectangles only. *)
Definition sem_tinta (_ : option Pillow.Fonte) (_ : string) (_ _ : Z) : bool :=
  false.

Definition opcoes_deletar : Destacar.Opcoes :=
  {| Destacar.deletar_sem_destaque := true; Destacar.modo_duplo := false;
     Destacar.ocultar_palavras := true; Destacar.numerar_palavras := true |}.

End Exemplos.

(* ------------------------------------------------------------------ *)
(** ** The batch driver of "Apaga todos os textos das imagens" *)

Module ApagarLote.

Record Lote : Type := {
  imagens_processadas : nat;
  imagens_com_erro : nat;
  total_blocos_texto : nat;
  pasta_destino : Pasta;
  log : list Registro
}.

(** Body of [for imagem_path in tqdm(imagens)]. *)
Definition processar_imagem (lote : Lote) (arq : Arquivo) : Lote :=
  let '(sucesso, blocos_cobertos, pasta, erros) :=
    Apagar.detectar_e_cobrir_texto arq (pasta_destino lote) in
  if sucesso then
    {| imagens_processadas := S (imagens_processadas lote);
       imagens_com_erro := imagens_com_erro lote;
       total_blocos_texto := (total_blocos_texto lote + blocos_cobertos)%nat;
       pasta_destino := pasta;
       log := log lote ++ erros |}
  else
    {| imagens_processadas := imagens_processadas lote;
       imagens_com_erro := S (imagens_com_erro lote);
       total_blocos_texto := total_blocos_texto lote;
       pasta_destino := pasta;
       log := log lote ++ erros ++ [FalhaAoProcessar (name arq)] |}.

(** [processar_imagens] on an existing folder whose images are [imagens]. *)
Definition processar_imagens (imagens : list Arquivo) (inicio : Lote) : Lote :=
  fold_left processar_imagem imagens inicio.

Definition lote_inicial (pasta : Pasta) : Lote :=
  {| imagens_processadas := 0; imagens_com_erro := 0; total_blocos_texto := 0;
     pasta_destino := pasta; log := [] |}%nat.

End ApagarLote.

(* ------------------------------------------------------------------ *)
(** ** The console prompts of "Destaca texto de imagem" *)

Module Prompt.

(** [input()] on the lines still to be typed: [None] at end of input
    ([EOFError]). *)
Definition input_ (entrada : list string) : option (string * list string) :=
  match entrada with
  | [] => None
  | linha :: resto => Some (linha, resto)
  end.

(** The [while True] loop of [solicitar_palavras_chave], with the list
    [palavras_chave] gathered so far. *)
Fixpoint ler_palavras (entrada : list string) (palavras_chave : list string)
  : option (list string * list string) :=
  match entrada with
  | [] => None
  | linha :: resto =>
      let palavra := PyStr.strip linha in
      if negb (PyStr.truthy palavra) then Some (palavras_chave, resto)
      else ler_palavras resto (palavras_chave ++ [palavra])
  end.

(** Returns the key phrases and the lines left. *)
Definition solicitar_palavras_chave (entrada : list string)
  : option (list string * list string) :=
  ler_palavras entrada [].

(** Returns the options and the lines left. *)
Definition obter_opcoes_usuario (entrada : list string)
  : option (Destacar.Opcoes * list string) :=
  match input_ entrada with
  | None => None
  | Some (l1, entrada1) =>
      let deletar := String.eqb (PyStr.lower (PyStr.strip l1)) "s" in
      match input_ entrada1 with
      | None => None
      | Some (l2, entrada2) =>
          let resposta := PyStr.lower (PyStr.strip l2) in
          let duplo := String.eqb resposta "t" in
          let ocultar := if duplo then false else String.eqb resposta "s" in
          if String.eqb resposta "s" || String.eqb resposta "t" then
            match input_ entrada2 with
            | None => None
            | Some (l3, entrada3) =>
                Some ({| Destacar.deletar_sem_destaque := deletar;
                         Destacar.modo_duplo := duplo;
                         Destacar.ocultar_palavras := ocultar;
                         Destacar.numerar_palavras :=
                           String.eqb (PyStr.lower (PyStr.strip l3)) "s" |},
                      entrada3)
            end
          else
            Some ({| Destacar.deletar_sem_destaque := deletar;
                     Destacar.modo_duplo := duplo;
                     Destacar.ocultar_palavras := ocultar;
                     Destacar.numerar_palavras := false |},
                  entrada2)
      end
  end.

End Prompt.

(* ------------------------------------------------------------------ *)
(** ** "Extrai imagens de pdfs (código)" *)

Module ExtrairCodigo.

(** One embedded image of a page: what [extract_image], [Image.open] with
    the conversion to RGB, and [image.save] answer for it. *)
Record Embutida : Type := {
  extrair : Exc unit;
  abrir : Exc unit;
  salvar : Exc unit
}.

(** [img_count], the files written so far (oldest first) and the exception
    that ended the run, if any: nothing is caught in this script. *)
Record Estado : Type := {
  img_count : nat;
  escritos : list string;
  excecao : option Erro
}.

Definition output_filename (img_count : nat) : string :=
  (PyStr.str img_count ++ ".png")%string.

(** Body of [for image_index, img in enumerate(image_list, start=1)]; once
    an exception is raised nothing more runs. *)
Definition extrair_imagem (st : Estado) (img : Embutida) : Estado :=
  match excecao st with
  | Some _ => st
  | None =>
      match extrair img with
      | Raise e =>
          {| img_count := img_count st; escritos := escritos st;
             excecao := Some e |}
      | Ret _ =>
          let contagem := S (img_count st) in
          match abrir img with
          | Raise e =>
              {| img_count := contagem; escritos := escritos st;
                 excecao := Some e |}
          | Ret _ =>
              match salvar img with
              | Raise e =>
                  {| img_count := contagem; escritos := escritos st;
                     excecao := Some e |}
              | Ret _ =>
                  {| img_count := contagem;
                     escritos := escritos st ++ [output_filename contagem];
                     excecao := None |}
              end
          end
      end
  end.

(** On the pages of the opened document, each given by its [get_images]
    list. *)
Definition extract_images_from_pdf (paginas : list (list Embutida)) : Estado :=
  fold_left (fun st image_list => fold_left extrair_imagem image_list st)
    paginas
    {| img_count := 0%nat; escritos := []; excecao := None |}.

End ExtrairCodigo.

(* ------------------------------------------------------------------ *)
(** ** "Extrai imagens de pdfs (por print)": the crop around a contour *)

Module ExtrairPrint.

Definition margem_horizontal : Z := 300.
Definition margem_vertical : Z := 100.

(** [x_com_margem, y_com_margem, w_com_margem, h_com_margem] for the
    bounding rectangle [(x, y, w, h)] of a contour in an image of
    [shape = (shape0, shape1, 3)]. *)
Definition com_margem (shape0 shape1 : Z) (x y w h : Z) : Z * Z * Z * Z :=
  let x_com_margem := Z.max 0 (x - margem_horizontal) in
  let y_com_margem := Z.max 0 (y - margem_vertical) in
  let w_com_margem := Z.min (shape1 - x_com_margem) (w + 2 * margem_horizontal) in
  let h_com_margem := Z.min (shape0 - y_com_margem) (h + 2 * margem_vertical) in
  (x_com_margem, y_com_margem, w_com_margem, h_com_margem).

(** Where a slice bound lands on an axis of length [n]: a negative bound
    counts from the end, and the result is clipped to [0 .. n]. *)
Definition limite (n v : Z) : Z :=
  let v' := if v <? 0 then v + n else v in
  Z.max 0 (Z.min n v').

(** Number of indices of [a[inicio:fim]] on an axis of length [n]. *)
Definition fatia (n inicio fim : Z) : Z :=
  Z.max 0 (limite n fim - limite n inicio).

(** [recorte.size] for [img_np[y:y+h, x:x+w]] on a three-channel image. *)
Definition recorte_size (shape0 shape1 : Z) (c : Z * Z * Z * Z) : Z :=
  let '(x, y, w, h) := c in
  fatia shape0 y (y + h) * fatia shape1 x (x + w) * 3.

End ExtrairPrint.

(* ------------------------------------------------------------------ *)
(** ** Further vocabulary *)

Module Espec2.

(** The tuple a call returns. *)
Definition tupla {A B : Type} (r : (bool * nat * bool) * A * B) : bool * nat * bool :=
  fst (fst r).

(** An outline call. *)
Definition eh_contorno (ch : Pillow.Chamada) : bool :=
  match ch with
  | Pillow.rectangle _ None (Some _) _ => true
  | _ => false
  end.

(** A key phrase that has a blank and no word. *)
Definition so_brancos (palavra_chave : string) : Prop :=
  PyStr.contem " " palavra_chave = true /\ PyStr.split palavra_chave = [].

(** Two states of the batch whose three folders are at the same paths. *)
Definition mesmos_caminhos (l1 l2 : Destacar.Lote) : Prop :=
  caminho (Destacar.pasta_destino l1) = caminho (Destacar.pasta_destino l2)
  /\ caminho (Destacar.pasta_gabarito l1) = caminho (Destacar.pasta_gabarito l2)
  /\ caminho (Destacar.pasta_prova l1) = caminho (Destacar.pasta_prova l2).

(** A region with its corners in order. *)
Definition bem_formada (xy : Espec.Regiao) : Prop :=
  let '(x_min, y_min, x_max, y_max) := xy in
  x_min <= x_max /\ y_min <= y_max.

(** The box of a region moved outward by 2 px. *)
Definition alargada (xy : Espec.Regiao) : Z * Z * Z * Z :=
  let '(x_min, y_min, x_max, y_max) := xy in
  (x_min - 2, y_min - 2, x_max + 2, y_max + 2).

End Espec2.

(* ------------------------------------------------------------------ *)
(** * Properties *)

(** ** Exceptions and loops *)

Lemma bind_ret_inv {A B : Type} (m : Exc A) (k : A -> Exc B) (b : B) :
  bind m k = Ret b -> exists a, m = Ret a /\ k a = Ret b.
Proof.
  destruct m as [a | e]; simpl; intros H.
  - exists a. split; [reflexivity | exact H].
  - discriminate.
Qed.

Lemma for_each_app {A S : Type} (body : S -> A -> Exc S) (xs ys : list A) (st : S) :
  for_each body (xs ++ ys) st = (st' <- for_each body xs st ;; for_each body ys st').
Proof.
  revert st. induction xs as [| x xs IH]; intros st; simpl.
  - reflexivity.
  - destruct (body st x) as [st1 | e]; simpl; [apply IH | reflexivity].
Qed.

Lemma for_each_total {A S : Type} (body : S -> A -> Exc S) (g : S -> A -> S)
    (xs : list A) :
  (forall x, In x xs -> forall st, body st x = Ret (g st x)) ->
  forall st, for_each body xs st = Ret (fold_left g xs st).
Proof.
  induction xs as [| x xs IH]; intros Hb st; simpl.
  - reflexivity.
  - rewrite (Hb x (or_introl eq_refl) st). simpl.
    apply IH. intros y Hy. apply Hb. right. exact Hy.
Qed.

Lemma for_each_ext {A S : Type} (f g : S -> A -> Exc S) :
  (forall st x, f st x = g st x) ->
  forall xs st, for_each f xs st = for_each g xs st.
Proof.
  intros E xs. induction xs as [| x xs IH]; intros st; simpl.
  - reflexivity.
  - rewrite E. destruct (g st x); simpl; [apply IH | reflexivity].
Qed.

Lemma item_ret {A : Type} (xs : list A) (i : nat) (a : A) :
  item xs i = Ret a <-> nth_error xs i = Some a.
Proof.
  unfold item. destruct (nth_error xs i); split; intros H;
    try discriminate; inversion H; reflexivity.
Qed.

Lemma fold_min_le (zs : list Z) (z : Z) :
  fold_left Z.min zs z <= z /\ Forall (fun v => fold_left Z.min zs z <= v) zs.
Proof.
  revert z. induction zs as [| v zs IH]; intros z; simpl.
  - split; [lia | constructor].
  - destruct (IH (Z.min z v)) as [H1 H2]. split; [lia |].
    constructor; [lia | exact H2].
Qed.

Lemma fold_min_in (zs : list Z) (z : Z) : In (fold_left Z.min zs z) (z :: zs).
Proof.
  revert z. induction zs as [| v zs IH]; intros z; simpl.
  - left. reflexivity.
  - destruct (IH (Z.min z v)) as [H | H].
    + destruct (Z.min_spec z v) as [[_ E] | [_ E]].
      * left. rewrite <- H. symmetry. exact E.
      * right. left. rewrite <- H. symmetry. exact E.
    + right. right. exact H.
Qed.

Lemma fold_max_ge (zs : list Z) (z : Z) :
  z <= fold_left Z.max zs z /\ Forall (fun v => v <= fold_left Z.max zs z) zs.
Proof.
  revert z. induction zs as [| v zs IH]; intros z; simpl.
  - split; [lia | constructor].
  - destruct (IH (Z.max z v)) as [H1 H2]. split; [lia |].
    constructor; [lia | exact H2].
Qed.

Lemma fold_max_in (zs : list Z) (z : Z) : In (fold_left Z.max zs z) (z :: zs).
Proof.
  revert z. induction zs as [| v zs IH]; intros z; simpl.
  - left. reflexivity.
  - destruct (IH (Z.max z v)) as [H | H].
    + destruct (Z.max_spec z v) as [[_ E] | [_ E]].
      * right. left. rewrite <- H. symmetry. exact E.
      * left. rewrite <- H. symmetry. exact E.
    + right. right. exact H.
Qed.

Lemma py_min_spec (zs : list Z) (m : Z) :
  py_min zs = Ret m -> In m zs /\ Forall (fun v => m <= v) zs.
Proof.
  destruct zs as [| z zs]; simpl; intros H; [discriminate |].
  inversion H; subst. split.
  - apply fold_min_in.
  - constructor; apply fold_min_le.
Qed.

Lemma py_max_spec (zs : list Z) (m : Z) :
  py_max zs = Ret m -> In m zs /\ Forall (fun v => v <= m) zs.
Proof.
  destruct zs as [| z zs]; simpl; intros H; [discriminate |].
  inversion H; subst. split.
  - apply fold_max_in.
  - constructor; apply fold_max_ge.
Qed.

(** ** Strings *)

Lemma prefix_app (sub s : string) :
  prefix sub s = true <-> exists b, s = (sub ++ b)%string.
Proof.
  revert s. induction sub as [| c sub IH]; intros s; simpl.
  - destruct s; split; intros _; try reflexivity; eexists; reflexivity.
  - destruct s as [| d s]; simpl.
    + split; [discriminate | intros [b Hb]; discriminate].
    + destruct (Ascii.ascii_dec c d) as [E | N].
      * subst d. rewrite IH. split; intros [b Hb]; exists b.
        -- rewrite Hb. reflexivity.
        -- inversion Hb. reflexivity.
      * split; [discriminate | intros [b Hb]; congruence].
Qed.

(** [contem] is Python's [in]: [sub] occurs somewhere in [s]. *)
Lemma contem_spec (sub s : string) :
  PyStr.contem sub s = true <-> exists a b, s = (a ++ sub ++ b)%string.
Proof.
  induction s as [| c s IH].
  - change (PyStr.contem sub EmptyString) with (prefix sub EmptyString).
    rewrite prefix_app. split.
    + intros [b Hb]. exists EmptyString, b. exact Hb.
    + intros [a [b H]]. destruct a; simpl in H; [| discriminate].
      exists b. exact H.
  - change (PyStr.contem sub (String c s))
      with (prefix sub (String c s) || PyStr.contem sub s).
    rewrite orb_true_iff, prefix_app, IH. split.
    + intros [[b Hb] | [a [b H]]].
      * exists EmptyString, b. exact Hb.
      * exists (String c a), b. simpl. rewrite H. reflexivity.
    + intros [a [b H]]. destruct a as [| d a]; simpl in H.
      * left. exists b. exact H.
      * right. inversion H. exists a, b. reflexivity.
Qed.

(** ** The phrase matcher *)

Section Matcher.

Import Destacar Espec.

Variable coords : list Coord.t.

Lemma sequencia_encontrada_spec (frase : list string) (i j : nat) :
  sequencia_encontrada coords i frase j = true <->
  (forall m palavra, nth_error frase m = Some palavra ->
     exists c, nth_error coords (i + (j + m)) = Some c
               /\ PyStr.contem palavra (PyStr.lower (Coord.texto c)) = true).
Proof.
  revert j. induction frase as [| p frase IH]; intros j; simpl.
  - split; [| reflexivity]. intros _ m palavra H.
    destruct m; discriminate.
  - destruct (nth_error coords (i + j)) as [c |] eqn:Ec.
    + destruct (PyStr.contem p (PyStr.lower (Coord.texto c))) eqn:Ep.
      * rewrite IH. split; intros H m palavra Hm.
        -- destruct m as [| m]; simpl in Hm.
           ++ inversion Hm; subst. exists c.
              rewrite Nat.add_0_r. split; assumption.
           ++ destruct (H m palavra Hm) as [c' [H1 H2]]. exists c'.
              split; [| exact H2].
              replace (i + (j + S m))%nat with (i + (S j + m))%nat by lia.
              exact H1.
        -- destruct (H (S m) palavra Hm) as [c' [H1 H2]]. exists c'.
           split; [| exact H2].
           replace (i + (S j + m))%nat with (i + (j + S m))%nat by lia.
           exact H1.
      * split; [discriminate |]. intros H.
        destruct (H 0%nat p eq_refl) as [c' [H1 H2]].
        rewrite Nat.add_0_r, Ec in H1. inversion H1; subst. congruence.
    + split; [discriminate |]. intros H.
      destruct (H 0%nat p eq_refl) as [c' [H1 _]].
      rewrite Nat.add_0_r, Ec in H1. discriminate.
Qed.

Lemma sequencia_encontrada_janela (frase : list string) (i : nat) :
  sequencia_encontrada coords i frase 0 = true <-> janela_casa coords frase i.
Proof.
  rewrite sequencia_encontrada_spec. unfold janela_casa. simpl. tauto.
Qed.

(** A matching window lies inside the sequence. *)
Lemma janela_casa_dentro (frase : list string) (i : nat) :
  frase <> [] -> janela_casa coords frase i ->
  (i + List.length frase <= List.length coords)%nat.
Proof.
  intros Hne H.
  destruct (nth_error frase (List.length frase - 1)) as [p |] eqn:E.
  - destruct (H _ _ E) as [c [Hc _]].
    assert (i + (List.length frase - 1) < List.length coords)%nat
      by (apply nth_error_Some; congruence).
    destruct frase; [congruence | simpl in *; lia].
  - apply nth_error_None in E. destruct frase; [congruence | simpl in E; lia].
Qed.

(** The comprehension over [range(k)] reads the boxes of the window. *)
Lemma map_exc_janela (f : Coord.t -> Z) (i k a : nat) :
  (i + a + k <= List.length coords)%nat ->
  map_exc (fun j => c <- item coords (i + j) ;; Ret (f c)) (seq a k)
  = Ret (map f (janela coords (i + a) k)).
Proof.
  unfold janela. revert a. induction k as [| k IH]; intros a Hle; simpl.
  - reflexivity.
  - destruct (nth_error coords (i + a)) as [c |] eqn:Ec.
    2:{ apply nth_error_None in Ec. lia. }
    rewrite (proj2 (item_ret _ _ _) Ec). simpl.
    rewrite IH by lia. simpl.
    destruct (nth_error_split coords (i + a) Ec) as [l1 [l2 [Hs Hl]]].
    rewrite Hs.
    replace (skipn (i + a) (l1 ++ c :: l2)) with (c :: l2)
      by (rewrite <- Hl, skipn_app, skipn_all, Nat.sub_diag; reflexivity).
    replace (skipn (i + S a) (l1 ++ c :: l2)) with l2.
    2:{ replace (i + S a)%nat with (List.length l1 + 1)%nat by lia.
        rewrite skipn_app, skipn_all2 by lia.
        replace (List.length l1 + 1 - List.length l1)%nat with 1%nat by lia.
        reflexivity. }
    reflexivity.
Qed.

(** Inside the sequence the rectangle of a window is computed, and its
    bounds are those of the window's boxes. *)
Lemma abranger_spec (i k : nat) :
  (0 < k)%nat -> (i + k <= List.length coords)%nat ->
  exists primeira ultima y_min y_max,
    abranger coords i k
    = Ret (Coord.x primeira, y_min,
           Coord.x ultima + Coord.largura ultima, y_max)
    /\ nth_error coords i = Some primeira
    /\ nth_error coords (i + k - 1) = Some ultima
    /\ In y_min (map Coord.y (janela coords i k))
    /\ Forall (fun c => y_min <= Coord.y c) (janela coords i k)
    /\ In y_max (map (fun c => Coord.y c + Coord.altura c) (janela coords i k))
    /\ Forall (fun c => Coord.y c + Coord.altura c <= y_max) (janela coords i k).
Proof.
  intros Hk Hle. unfold abranger.
  destruct (nth_error coords i) as [primeira |] eqn:E1.
  2:{ apply nth_error_None in E1. lia. }
  destruct (nth_error coords (i + k - 1)) as [ultima |] eqn:E2.
  2:{ apply nth_error_None in E2. lia. }
  rewrite (proj2 (item_ret _ _ _) E1). simpl.
  pose proof (map_exc_janela Coord.y i k 0) as M1.
  pose proof (map_exc_janela (fun c => Coord.y c + Coord.altura c) i k 0) as M2.
  rewrite Nat.add_0_r in M1, M2.
  rewrite M1 by lia. simpl.
  assert (Hj : janela coords i k <> []).
  { unfold janela. intros Hn.
    apply (f_equal (@List.length _)) in Hn.
    rewrite length_firstn, length_skipn in Hn. simpl in Hn. lia. }
  destruct (py_min (map Coord.y (janela coords i k))) as [y_min | e] eqn:Emin.
  2:{ destruct (janela coords i k); [congruence | discriminate]. }
  simpl. rewrite (proj2 (item_ret _ _ _) E2). simpl. rewrite M2 by lia. simpl.
  destruct (py_max (map (fun c => Coord.y c + Coord.altura c) (janela coords i k)))
    as [y_max | e] eqn:Emax.
  2:{ destruct (janela coords i k); [congruence | discriminate]. }
  simpl. exists primeira, ultima, y_min, y_max.
  destruct (py_min_spec _ _ Emin) as [Hin1 Hall1].
  destruct (py_max_spec _ _ Emax) as [Hin2 Hall2].
  rewrite Forall_map in Hall1, Hall2.
  repeat split; assumption.
Qed.

End Matcher.

(** ** Emission of regions *)

Lemma ImageDraw_rectangle_ret (desenho : list Pillow.Chamada)
    (xy : Z * Z * Z * Z) (fill outline : option Pillow.Cor) (w : Z) :
  Espec.ordenado xy = true ->
  Pillow.ImageDraw_rectangle desenho xy fill outline w
  = Ret (desenho ++ [Pillow.rectangle xy fill outline w]).
Proof.
  destruct xy as [[[x0 y0] x1] y1]. unfold Espec.ordenado, Pillow.ImageDraw_rectangle.
  rewrite (Z.ltb_antisym x0 x1), (Z.ltb_antisym y0 y1).
  intros H. apply andb_prop in H. destruct H as [-> ->]. reflexivity.
Qed.

Lemma ImageDraw_rectangle_raise (desenho : list Pillow.Chamada)
    (xy : Z * Z * Z * Z) (fill outline : option Pillow.Cor) (w : Z) :
  Espec.ordenado xy = false ->
  Pillow.ImageDraw_rectangle desenho xy fill outline w = Raise ValueError.
Proof.
  destruct xy as [[[x0 y0] x1] y1]. unfold Espec.ordenado, Pillow.ImageDraw_rectangle.
  rewrite (Z.ltb_antisym x0 x1), (Z.ltb_antisym y0 y1).
  intros H. apply andb_false_iff in H. destruct H as [-> | ->]; simpl.
  - reflexivity.
  - rewrite orb_true_r. reflexivity.
Qed.

(** The rectangle of a box can always be covered and outlined. *)
Lemma retangulo_desenhavel (o : bool) (c : Coord.t) :
  Espec.desenhavel o (Espec.retangulo c) = true.
Proof.
  unfold Espec.desenhavel, Espec.retangulo, Espec.ordenado.
  apply andb_true_iff. split.
  - destruct o; simpl; [| reflexivity].
    apply andb_true_iff. split; apply Z.leb_le; lia.
  - apply andb_true_iff. split; apply Z.leb_le; lia.
Qed.

Section Emissao.

Import Destacar Espec.

Variables ocultar numerar : bool.

Lemma emitiu_nada (st : Estado) : emitiu ocultar numerar st st [].
Proof.
  unfold emitiu. simpl. rewrite !app_nil_r, Nat.add_0_r.
  destruct (ocultar && numerar); simpl; rewrite ?app_nil_r; auto.
Qed.

(** The two ways out of [destacar]. *)
Lemma destacar_ret (st : Estado) (xy : Regiao) (d : Dest.t) :
  desenhavel ocultar xy = true ->
  destacar ocultar numerar xy d st
  = Ret {| desenho := desenho st ++ tracos ocultar xy;
           destaques := if ocultar && numerar
                        then destaques st ++ [d] else destaques st;
           palavras_encontradas := S (palavras_encontradas st) |}.
Proof.
  destruct xy as [[[x_min y_min] x_max] y_max].
  unfold desenhavel, destacar, tracos, cobertura, contorno, espessura.
  intros H. apply andb_prop in H. destruct H as [H1 H2].
  destruct ocultar; cbn [negb orb] in H1; cbv iota beta.
  - rewrite (ImageDraw_rectangle_ret _ _ _ _ _ H1). cbn [bind].
    rewrite (ImageDraw_rectangle_ret _ _ _ _ _ H2). cbn [bind].
    rewrite <- app_assoc. reflexivity.
  - cbn [bind]. rewrite (ImageDraw_rectangle_ret _ _ _ _ _ H2). cbn [bind].
    reflexivity.
Qed.

Lemma destacar_raise (st : Estado) (xy : Regiao) (d : Dest.t) :
  desenhavel ocultar xy = false ->
  destacar ocultar numerar xy d st = Raise ValueError.
Proof.
  destruct xy as [[[x_min y_min] x_max] y_max].
  unfold desenhavel, destacar, espessura.
  intros H. apply andb_false_iff in H.
  destruct ocultar; cbn [negb orb] in H; cbv iota beta.
  - destruct (ordenado (x_min, y_min, x_max, y_max)) eqn:E1.
    + destruct H as [H | H]; [discriminate |].
      rewrite (ImageDraw_rectangle_ret _ _ _ _ _ E1). cbn [bind].
      rewrite (ImageDraw_rectangle_raise _ _ _ _ _ H). reflexivity.
    + rewrite (ImageDraw_rectangle_raise _ _ _ _ _ E1). reflexivity.
  - destruct H as [H | H]; [discriminate |]. cbn [bind].
    rewrite (ImageDraw_rectangle_raise _ _ _ _ _ H). reflexivity.
Qed.

Lemma destacar_inv (st st' : Estado) (xy : Regiao) (d : Dest.t) :
  destacar ocultar numerar xy d st = Ret st' ->
  desenhavel ocultar xy = true
  /\ st' = {| desenho := desenho st ++ tracos ocultar xy;
              destaques := if ocultar && numerar
                           then destaques st ++ [d] else destaques st;
              palavras_encontradas := S (palavras_encontradas st) |}.
Proof.
  intros H. destruct (desenhavel ocultar xy) eqn:E.
  - rewrite (destacar_ret st xy d E) in H. inversion H. split; reflexivity.
  - rewrite (destacar_raise st xy d E) in H. discriminate.
Qed.

Lemma emitiu_destacar (st st' : Estado) (xy : Regiao) :
  destacar ocultar numerar xy (destaque_de xy) st = Ret st' ->
  emitiu ocultar numerar st st' [xy].
Proof.
  intros H. apply destacar_inv in H. destruct H as [_ ->].
  unfold emitiu. simpl. rewrite app_nil_r. repeat split.
  - destruct (ocultar && numerar); simpl; rewrite ?app_nil_r; reflexivity.
  - lia.
Qed.

Lemma emitiu_depois (st1 st2 st3 : Estado) (r1 r2 : list Regiao) :
  emitiu ocultar numerar st1 st2 r1 -> emitiu ocultar numerar st2 st3 r2 ->
  emitiu ocultar numerar st1 st3 (r1 ++ r2).
Proof.
  unfold emitiu. intros [A1 [B1 C1]] [A2 [B2 C2]].
  rewrite A2, A1, B2, B1, C2, C1, flat_map_app, length_app, map_app.
  repeat split.
  - rewrite app_assoc. reflexivity.
  - destruct (ocultar && numerar); rewrite <- app_assoc; reflexivity.
  - lia.
Qed.

Lemma laco_emitiu {A : Type} (b : A -> bool) (ab : A -> Exc Regiao)
    (xs : list A) (st st' : Estado) :
  for_each (corpo_do_laco ocultar numerar b ab) xs st = Ret st' ->
  emitiu ocultar numerar st st' (regioes_do_laco b ab xs).
Proof.
  revert st. induction xs as [| x xs IH]; intros st H; simpl in H.
  - inversion H; subst. apply emitiu_nada.
  - apply bind_ret_inv in H. destruct H as [st1 [H1 H2]].
    unfold regioes_do_laco. simpl. unfold corpo_do_laco in H1.
    destruct (b x).
    + apply bind_ret_inv in H1. destruct H1 as [xy [Hxy Hst]].
      rewrite Hxy.
      apply (emitiu_depois st st1 st' [xy]);
        [apply emitiu_destacar, Hst | apply IH, H2].
    + inversion H1; subst. apply IH, H2.
Qed.

(** A loop that returns has drawn every region it met. *)
Lemma laco_desenhavel {A : Type} (b : A -> bool) (ab : A -> Exc Regiao)
    (xs : list A) (st st' : Estado) :
  for_each (corpo_do_laco ocultar numerar b ab) xs st = Ret st' ->
  Forall (fun xy => desenhavel ocultar xy = true) (regioes_do_laco b ab xs).
Proof.
  revert st. induction xs as [| x xs IH]; intros st H; simpl in H.
  - constructor.
  - apply bind_ret_inv in H. destruct H as [st1 [H1 H2]].
    unfold regioes_do_laco. simpl. unfold corpo_do_laco in H1.
    apply Forall_app. split; [| apply (IH st1), H2].
    destruct (b x); [| constructor].
    apply bind_ret_inv in H1. destruct H1 as [xy [Hxy Hst]].
    rewrite Hxy. apply destacar_inv in Hst.
    constructor; [apply Hst | constructor].
Qed.

Lemma laco_termina {A : Type} (b : A -> bool) (ab : A -> Exc Regiao)
    (xs : list A) :
  (forall x, In x xs -> b x = true -> exists xy, ab x = Ret xy) ->
  Forall (fun xy => desenhavel ocultar xy = true) (regioes_do_laco b ab xs) ->
  forall st, exists st', for_each (corpo_do_laco ocultar numerar b ab) xs st = Ret st'.
Proof.
  induction xs as [| x xs IH]; intros Hok Hd st; simpl.
  - eexists. reflexivity.
  - unfold regioes_do_laco in Hd. simpl in Hd.
    apply Forall_app in Hd. destruct Hd as [Hx Hd].
    assert (Hst : exists st1, corpo_do_laco ocultar numerar b ab st x = Ret st1).
    { unfold corpo_do_laco. destruct (b x) eqn:Eb.
      - destruct (Hok x (or_introl eq_refl) Eb) as [xy Hxy].
        rewrite Hxy in Hx |- *. cbn [bind].
        rewrite destacar_ret; [eexists; reflexivity |].
        inversion Hx; assumption.
      - eexists. reflexivity. }
    destruct Hst as [st1 Hst1]. rewrite Hst1. cbn [bind].
    apply IH; [| exact Hd]. intros y Hy. apply Hok. right. exact Hy.
Qed.

Lemma destacar_palavra_laco (palavra_chave : string) (st : Estado) (c : Coord.t) :
  destacar_palavra ocultar numerar palavra_chave st c
  = corpo_do_laco ocultar numerar
      (fun c => PyStr.contem palavra_chave (PyStr.lower (Coord.texto c)))
      (fun c => Ret (retangulo c)) st c.
Proof.
  unfold destacar_palavra, corpo_do_laco, retangulo, destaque_de.
  destruct (PyStr.contem palavra_chave (PyStr.lower (Coord.texto c))); [| reflexivity].
  cbn [bind].
  replace (Coord.x c + Coord.largura c - Coord.x c) with (Z.of_N (Coord.largura c)) by lia.
  replace (Coord.y c + Coord.altura c - Coord.y c) with (Z.of_N (Coord.altura c)) by lia.
  reflexivity.
Qed.

Lemma regioes_do_laco_filtro (b : Coord.t -> bool) (cs : list Coord.t) :
  regioes_do_laco b (fun c => Ret (retangulo c)) cs = map retangulo (filter b cs).
Proof.
  unfold regioes_do_laco. induction cs as [| c cs IH]; simpl.
  - reflexivity.
  - destruct (b c); simpl; rewrite IH; reflexivity.
Qed.

Lemma regioes_do_laco_frase (coords : list Coord.t) (frase : list string) :
  regioes_do_laco (fun i => sequencia_encontrada coords i frase 0)
    (fun i => abranger coords i (List.length frase))
    (seq 0 (List.length coords + 1 - List.length frase))
  = map snd (emitidas_frase coords frase).
Proof.
  unfold regioes_do_laco, emitidas_frase.
  induction (seq 0 (List.length coords + 1 - List.length frase)) as [| i l IH]; simpl.
  - reflexivity.
  - rewrite map_app, IH. f_equal.
    destruct (sequencia_encontrada coords i frase 0); [| reflexivity].
    destruct (abranger coords i (List.length frase)); reflexivity.
Qed.

(** Whatever one key phrase leaves behind, it is its regions, in order. *)
Lemma destacar_chave_emitiu (coords : list Coord.t) (st st' : Estado)
    (palavra_chave : string) :
  destacar_chave ocultar numerar coords st palavra_chave = Ret st' ->
  emitiu ocultar numerar st st' (regioes_da_chave coords palavra_chave).
Proof.
  unfold destacar_chave, regioes_da_chave.
  destruct (PyStr.contem " " palavra_chave); intros H.
  - rewrite <- regioes_do_laco_frase. apply laco_emitiu. exact H.
  - rewrite <- regioes_do_laco_filtro. apply laco_emitiu.
    rewrite <- H. symmetry. apply for_each_ext. apply destacar_palavra_laco.
Qed.

(** A key phrase whose scan returns had every region drawn. *)
Lemma destacar_chave_desenhavel (coords : list Coord.t) (st st' : Estado)
    (palavra_chave : string) :
  destacar_chave ocultar numerar coords st palavra_chave = Ret st' ->
  Forall (fun xy => desenhavel ocultar xy = true)
    (regioes_da_chave coords palavra_chave).
Proof.
  unfold destacar_chave, regioes_da_chave.
  destruct (PyStr.contem " " palavra_chave); intros H.
  - rewrite <- regioes_do_laco_frase. apply (laco_desenhavel _ _ _ st st'). exact H.
  - rewrite <- regioes_do_laco_filtro. apply (laco_desenhavel _ _ _ st st').
    rewrite <- H. symmetry. apply for_each_ext. apply destacar_palavra_laco.
Qed.

(** The scan of a key phrase returns when the phrase is not blanks only
    and each of its regions can be drawn. *)
Lemma destacar_chave_termina (coords : list Coord.t) (st : Estado)
    (palavra_chave : string) :
  chave_com_palavras palavra_chave ->
  Forall (fun xy => desenhavel ocultar xy = true)
    (regioes_da_chave coords palavra_chave) ->
  exists st', destacar_chave ocultar numerar coords st palavra_chave = Ret st'.
Proof.
  unfold chave_com_palavras, destacar_chave, regioes_da_chave. intros Hc Hd.
  destruct (PyStr.contem " " palavra_chave).
  - specialize (Hc eq_refl). rewrite <- regioes_do_laco_frase in Hd.
    apply (laco_termina (fun i => sequencia_encontrada coords i (PyStr.split palavra_chave) 0)
             (fun i => abranger coords i (List.length (PyStr.split palavra_chave))));
      [| exact Hd].
    intros i Hi _. apply in_seq in Hi.
    assert (Hk : (0 < List.length (PyStr.split palavra_chave))%nat).
    { destruct (PyStr.split palavra_chave); [congruence | simpl; lia]. }
    destruct (abranger_spec coords i _ Hk) as (p & u & a & b & E & _); [lia |].
    eexists. exact E.
  - rewrite (for_each_ext _ _ (destacar_palavra_laco palavra_chave)).
    apply laco_termina.
    + intros c _ _. eexists. reflexivity.
    + rewrite regioes_do_laco_filtro. apply Forall_forall. intros xy Hin.
      apply in_map_iff in Hin. destruct Hin as [c [<- _]].
      apply retangulo_desenhavel.
Qed.

(** A single word is always scanned to the end. *)
Lemma destacar_chave_palavra_termina (coords : list Coord.t) (st : Estado)
    (palavra_chave : string) :
  PyStr.contem " " palavra_chave = false ->
  exists st', destacar_chave ocultar numerar coords st palavra_chave = Ret st'.
Proof.
  intros Hsp. apply destacar_chave_termina.
  - intros H. congruence.
  - unfold regioes_da_chave. rewrite Hsp. apply Forall_forall. intros xy Hin.
    apply in_map_iff in Hin. destruct Hin as [c [<- _]].
    apply retangulo_desenhavel.
Qed.

Lemma varrer_emitiu (coords : list Coord.t) (chaves : list string) (st : Estado) :
  varrer ocultar numerar coords chaves = Ret st ->
  emitiu ocultar numerar estado_inicial st
    (flat_map (regioes_da_chave coords) chaves).
Proof.
  unfold varrer. generalize estado_inicial.
  induction chaves as [| p chaves IH]; intros st0 H; simpl in H.
  - inversion H; subst. apply emitiu_nada.
  - apply bind_ret_inv in H. destruct H as [st1 [H1 H2]]. simpl.
    eapply emitiu_depois; [apply destacar_chave_emitiu, H1 | apply IH, H2].
Qed.

Lemma varrer_desenhavel (coords : list Coord.t) (chaves : list string) (st : Estado) :
  varrer ocultar numerar coords chaves = Ret st ->
  Forall (fun xy => desenhavel ocultar xy = true)
    (flat_map (regioes_da_chave coords) chaves).
Proof.
  unfold varrer. generalize estado_inicial.
  induction chaves as [| p chaves IH]; intros st0 H; simpl in H |- *.
  - constructor.
  - apply bind_ret_inv in H. destruct H as [st1 [H1 H2]].
    apply Forall_app. split;
      [apply (destacar_chave_desenhavel _ st0 st1), H1 | apply (IH st1), H2].
Qed.

Lemma varrer_termina (coords : list Coord.t) (chaves : list string) :
  Forall chave_com_palavras chaves ->
  Forall (fun xy => desenhavel ocultar xy = true)
    (flat_map (regioes_da_chave coords) chaves) ->
  exists st, varrer ocultar numerar coords chaves = Ret st.
Proof.
  unfold varrer. generalize estado_inicial.
  induction chaves as [| p chaves IH]; intros st0 H Hd; simpl in Hd |- *.
  - eexists. reflexivity.
  - inversion H; subst. apply Forall_app in Hd. destruct Hd as [Hp Hd].
    destruct (destacar_chave_termina coords st0 p) as [st1 E]; [assumption .. |].
    rewrite E. cbn [bind]. apply IH; assumption.
Qed.

End Emissao.
(** ** Multi-word and single-word key phrases *)

Lemma in_emitidas_frase (coords : list Coord.t) (frase : list string)
    (i : nat) (xy : Espec.Regiao) :
  In (i, xy) (Espec.emitidas_frase coords frase) <->
  (i < List.length coords + 1 - List.length frase)%nat
  /\ Destacar.sequencia_encontrada coords i frase 0 = true
  /\ Destacar.abranger coords i (List.length frase) = Ret xy.
Proof.
  unfold Espec.emitidas_frase. rewrite in_flat_map. split.
  - intros [i' [Hi' Hin]]. apply in_seq in Hi'.
    destruct (Destacar.sequencia_encontrada coords i' frase 0) eqn:Es;
      [| contradiction].
    destruct (Destacar.abranger coords i' (List.length frase)) as [xy' | e] eqn:Ea;
      [| contradiction].
    destruct Hin as [Hin | []]. inversion Hin; subst.
    repeat split; try assumption; lia.
  - intros (Hi & Es & Ea). exists i. split; [apply in_seq; lia |].
    rewrite Es, Ea. left. reflexivity.
Qed.

Lemma flat_map_ordenado {B : Type} (g : nat -> list (nat * B)) :
  (forall i, g i = [] \/ exists b, g i = [(i, b)]) ->
  forall n a, StronglySorted lt (map fst (flat_map g (seq a n))).
Proof.
  intros Hg. induction n as [| n IH]; intros a; simpl.
  - constructor.
  - rewrite map_app.
    destruct (Hg a) as [E | [b E]]; rewrite E; simpl; [apply IH |].
    constructor; [apply IH |].
    apply Forall_forall. intros j Hj. apply in_map_iff in Hj.
    destruct Hj as [[j' xy] [Ej Hj]]. simpl in Ej. subst j'.
    apply in_flat_map in Hj. destruct Hj as [i [Hi Hin]]. apply in_seq in Hi.
    destruct (Hg i) as [E' | [b' E']]; rewrite E' in Hin; [contradiction |].
    destruct Hin as [Hin | []]. inversion Hin; subst. lia.
Qed.

Lemma emitidas_frase_ordenadas (coords : list Coord.t) (frase : list string) :
  StronglySorted lt (map fst (Espec.emitidas_frase coords frase)).
Proof.
  unfold Espec.emitidas_frase. apply flat_map_ordenado. intros i.
  destruct (Destacar.sequencia_encontrada coords i frase 0); [| left; reflexivity].
  destruct (Destacar.abranger coords i (List.length frase)) as [xy | e].
  - right. exists xy. reflexivity.
  - left. reflexivity.
Qed.

(** C1: on the two lines "osso femur" / "tibia e femur tibia" the key phrase
    "femur tibia" has its two words in the boxes 1, 2 and in the boxes 4, 5,
    so two regions are due.  The rectangle computed for the first window
    runs from the left edge of "femur" (500) to the right edge of "tibia"
    (60): [rectangle] raises on it, with or without the cover flag, the scan
    stops there and no region is drawn or counted, neither this one nor the
    one at index 4; the call reports the image as failed. *)
Theorem line_broken_phrase_emits_no_region :
  let coords := Espec.coords_de Exemplos.tokens_quebra in
  let arq := Exemplos.arquivo "prancha.png" (Exemplos.imagem_preta 600 100)
               Exemplos.texto_quebra Exemplos.tokens_quebra in
  PyStr.contem " " "femur tibia" = true
  /\ PyStr.split "femur tibia" = ["femur"; "tibia"]
  /\ (forall i, Espec.janela_casa coords ["femur"; "tibia"] i <-> i = 1%nat \/ i = 4%nat)
  /\ Destacar.abranger coords 1 2 = Ret (500, 10, 60, 60)
  /\ Destacar.abranger coords 4 2 = Ret (90, 40, 200, 60)
  /\ (forall ocultar numerar st,
        Destacar.destacar_chave ocultar numerar coords st "femur tibia"
        = Raise ValueError)
  /\ (forall ocultar numerar pasta,
        Destacar.detectar_e_destacar_palavras arq pasta ["femur tibia"]
          ocultar numerar
        = ((false, 0%nat, false), pasta,
           [ErroAoProcessar "prancha.png" ValueError])).
Proof.
  intros coords arq.
  split; [reflexivity | split; [reflexivity | split; [| split; [| split; [| split]]]]].
  - intros i. split.
    + intros H.
      pose proof (janela_casa_dentro coords ["femur"; "tibia"] i
                    ltac:(discriminate) H) as Hle.
      apply sequencia_encontrada_janela in H.
      destruct i as [| [| [| [| [| i]]]]];
        [discriminate H | left; reflexivity | discriminate H | discriminate H
        | right; reflexivity | simpl in Hle; lia].
    + intros [-> | ->]; apply sequencia_encontrada_janela; reflexivity.
  - reflexivity.
  - reflexivity.
  - intros o n st. destruct o; reflexivity.
  - intros o n pasta. destruct o; reflexivity.
Qed.

(** C2: for a single-word key phrase (one without a blank) the scan ends
    having emitted one region per box whose lower-cased text contains the
    phrase, in box order; the region is that box's rectangle, and the count
    of occurrences grows by the number of such boxes. *)
Theorem single_word_regions :
  forall (ocultar numerar : bool) (coords : list Coord.t)
         (palavra_chave : string) (st : Destacar.Estado),
    PyStr.contem " " palavra_chave = false ->
    let casam :=
      filter (fun c => PyStr.contem palavra_chave (PyStr.lower (Coord.texto c)))
        coords in
    exists st',
      Destacar.destacar_chave ocultar numerar coords st palavra_chave = Ret st'
      /\ Espec.emitiu ocultar numerar st st' (map Espec.retangulo casam)
      /\ Destacar.palavras_encontradas st'
         = (Destacar.palavras_encontradas st + List.length casam)%nat.
Proof.
  intros ocultar numerar coords palavra_chave st Hsp casam.
  destruct (destacar_chave_palavra_termina ocultar numerar coords st palavra_chave Hsp)
    as [st' E].
  exists st'. split; [exact E |].
  pose proof (destacar_chave_emitiu ocultar numerar coords st st' palavra_chave E) as H.
  unfold Espec.regioes_da_chave in H. rewrite Hsp in H. fold casam in H.
  split; [exact H |].
  destruct H as (_ & _ & Hc). rewrite Hc, length_map. reflexivity.
Qed.

Lemma single_word_regions_witness :
  PyStr.contem " " "tibia" = false
  /\ exists st',
       Destacar.destacar_chave true true (Espec.coords_de Exemplos.tokens_linha)
         Destacar.estado_inicial "tibia" = Ret st'
       /\ Destacar.palavras_encontradas st' = 1%nat.
Proof.
  assert (H1 : PyStr.contem " " "tibia" = false) by reflexivity.
  split; [exact H1 |].
  destruct (single_word_regions true true (Espec.coords_de Exemplos.tokens_linha)
              "tibia" Destacar.estado_inicial H1) as [st' [E [_ C]]].
  exists st'. split; [exact E |]. rewrite C. reflexivity.
Defined.

(** ** The confidence filter *)

Lemma for_each_indices {St T : Type} (body : St -> nat -> Exc St) (g : St -> T -> St)
    (tokens : list T) :
  (forall done t rest st,
      tokens = done ++ t :: rest -> body st (List.length done) = Ret (g st t)) ->
  forall st,
    for_each body (seq 0 (List.length tokens)) st = Ret (fold_left g tokens st).
Proof.
  intros Hb.
  assert (G : forall rest done st,
             tokens = done ++ rest ->
             for_each body (seq (List.length done) (List.length rest)) st
             = Ret (fold_left g rest st)).
  { induction rest as [| t rest IH]; intros done st E; simpl.
    - reflexivity.
    - rewrite (Hb done t rest st E). simpl.
      replace (S (List.length done)) with (List.length (done ++ [t]))
        by (rewrite length_app; simpl; lia).
      apply IH. rewrite <- app_assoc. exact E. }
  intros st. apply (G tokens [] st). reflexivity.
Qed.

Lemma item_coluna {T B : Type} (f : T -> B) (done : list T) (t : T) (rest : list T) :
  item (map f (done ++ t :: rest)) (List.length done) = Ret (f t).
Proof.
  apply item_ret. rewrite nth_error_map, nth_error_app2 by lia.
  rewrite Nat.sub_diag. reflexivity.
Qed.

Lemma descartado_spec (limiar : Z) (t : Espec.Token) :
  Espec.descartado limiar t = true <->
  PyStr.strip (Espec.tk_text t) = EmptyString \/ Espec.tk_conf t <= limiar.
Proof.
  unfold Espec.descartado. rewrite orb_true_iff, Z.leb_le, negb_true_iff.
  destruct (PyStr.strip (Espec.tk_text t)); simpl; split; intros [H | H];
    auto; discriminate.
Qed.

Lemma juntar_coordenada_token (done : list Espec.Token) (t : Espec.Token)
    (rest : list Espec.Token) (st : string * list Coord.t) :
  Destacar.juntar_coordenada (Espec.dados_de (done ++ t :: rest)) st (List.length done)
  = Ret (if Espec.descartado 30 t then st
         else ((fst st ++ PyStr.strip (Espec.tk_text t) ++ " ")%string,
               snd st ++ [Espec.caixa_de t])).
Proof.
  destruct st as [r cs].
  unfold Destacar.juntar_coordenada, Espec.dados_de, Espec.descartado. simpl.
  rewrite !item_coluna. simpl.
  rewrite (Z.leb_antisym 30 (Espec.tk_conf t)).
  destruct (30 <? Espec.tk_conf t); simpl.
  - destruct (PyStr.truthy (PyStr.strip (Espec.tk_text t))); reflexivity.
  - rewrite orb_true_r. reflexivity.
Qed.

(** The rectangle of a token has its corners in order. *)
Lemma retangulo_do_token_ordenado (t : Espec.Token) :
  Espec.ordenado (Espec.retangulo_do_token t) = true.
Proof.
  unfold Espec.ordenado, Espec.retangulo_do_token.
  apply andb_true_iff. split; apply Z.leb_le; lia.
Qed.

Lemma cobrir_bloco_token (done : list Espec.Token) (t : Espec.Token)
    (rest : list Espec.Token) (st : list Pillow.Chamada * nat) :
  Apagar.cobrir_bloco (Espec.dados_de (done ++ t :: rest)) st (List.length done)
  = Ret (if Espec.descartado 0 t then st
         else (fst st ++ [Espec.cobertura (Espec.retangulo_do_token t)],
               S (snd st))).
Proof.
  destruct st as [d n].
  unfold Apagar.cobrir_bloco, Espec.dados_de, Espec.descartado.
  cbn [Dados.conf Dados.text Dados.left Dados.top Dados.width Dados.height].
  rewrite !item_coluna. cbn [bind].
  rewrite (Z.leb_antisym 0 (Espec.tk_conf t)).
  destruct (0 <? Espec.tk_conf t); cbn [negb orb].
  - destruct (PyStr.truthy (PyStr.strip (Espec.tk_text t))); cbn [negb orb];
      [| reflexivity].
    cbn [bind].
    pose proof (retangulo_do_token_ordenado t) as Ho.
    unfold Espec.retangulo_do_token in Ho.
    rewrite (ImageDraw_rectangle_ret _ _ _ _ _ Ho). reflexivity.
  - rewrite orb_true_r. reflexivity.
Qed.

Lemma juntar_coordenadas_tokens (tokens : list Espec.Token) :
  exists r,
    Destacar.juntar_coordenadas (Espec.dados_de tokens)
    = Ret (r, map Espec.caixa_de
                (filter (fun t => negb (Espec.descartado 30 t)) tokens)).
Proof.
  unfold Destacar.juntar_coordenadas.
  replace (List.length (Dados.text (Espec.dados_de tokens)))
    with (List.length tokens) by (simpl; rewrite length_map; reflexivity).
  rewrite (for_each_indices _
             (fun st t => if Espec.descartado 30 t then st
                          else ((fst st ++ PyStr.strip (Espec.tk_text t) ++ " ")%string,
                                snd st ++ [Espec.caixa_de t]))).
  2:{ intros done t rest st E. rewrite E. apply juntar_coordenada_token. }
  assert (G : forall ts st,
             snd (fold_left
                    (fun st t => if Espec.descartado 30 t then st
                                 else ((fst st ++ PyStr.strip (Espec.tk_text t) ++ " ")%string,
                                       snd st ++ [Espec.caixa_de t])) ts st)
             = snd st ++ map Espec.caixa_de
                           (filter (fun t => negb (Espec.descartado 30 t)) ts)).
  { induction ts as [| t ts IH]; intros st; simpl.
    - rewrite app_nil_r. reflexivity.
    - rewrite IH. destruct (Espec.descartado 30 t); simpl; [reflexivity |].
      rewrite <- app_assoc. reflexivity. }
  specialize (G tokens (EmptyString, [])). simpl in G.
  destruct (fold_left _ tokens (EmptyString, [])) as [r cs]. simpl in G.
  exists r. rewrite G. reflexivity.
Qed.

(** C9: on index-aligned OCR output both loops drop exactly the tokens whose
    trimmed text is empty or whose confidence is at or below the threshold,
    and keep the others in order: threshold 0 in the covering script, 30 in
    the highlighting script. *)
Theorem confidence_filters :
  forall tokens : list Espec.Token,
    (forall limiar t,
        Espec.descartado limiar t = true <->
        PyStr.strip (Espec.tk_text t) = EmptyString \/ Espec.tk_conf t <= limiar)
    /\ (let mantidos := filter (fun t => negb (Espec.descartado 0 t)) tokens in
        for_each (Apagar.cobrir_bloco (Espec.dados_de tokens))
          (seq 0 (List.length (Dados.text (Espec.dados_de tokens)))) ([], 0%nat)
        = Ret (map (fun t => Espec.cobertura (Espec.retangulo_do_token t)) mantidos,
               List.length mantidos))
    /\ (let mantidos := filter (fun t => negb (Espec.descartado 30 t)) tokens in
        exists texto_reconstruido,
          Destacar.juntar_coordenadas (Espec.dados_de tokens)
          = Ret (texto_reconstruido, map Espec.caixa_de mantidos)).
Proof.
  intros tokens. split; [| split].
  - intros limiar t. apply descartado_spec.
  - intros mantidos.
    replace (List.length (Dados.text (Espec.dados_de tokens)))
      with (List.length tokens) by (simpl; rewrite length_map; reflexivity).
    rewrite (for_each_indices _
               (fun st t => if Espec.descartado 0 t then st
                            else (fst st ++ [Espec.cobertura (Espec.retangulo_do_token t)],
                                  S (snd st)))).
    2:{ intros done t rest st E. rewrite E. apply cobrir_bloco_token. }
    f_equal. unfold mantidos.
    assert (G : forall ts d n,
               fold_left
                 (fun st t => if Espec.descartado 0 t then st
                              else (fst st ++ [Espec.cobertura (Espec.retangulo_do_token t)],
                                    S (snd st))) ts (d, n)
               = (d ++ map (fun t => Espec.cobertura (Espec.retangulo_do_token t))
                         (filter (fun t => negb (Espec.descartado 0 t)) ts),
                  (n + List.length (filter (fun t => negb (Espec.descartado 0 t)) ts))%nat)).
    { induction ts as [| t ts IH]; intros d n; simpl.
      - rewrite app_nil_r, Nat.add_0_r. reflexivity.
      - destruct (Espec.descartado 0 t); simpl; rewrite IH; [reflexivity |].
        rewrite <- app_assoc. simpl. f_equal. lia. }
    rewrite G. reflexivity.
  - intros mantidos. apply juntar_coordenadas_tokens.
Qed.
(** ** The numbering pass *)

Section Numeracao.

Import Destacar Espec.

Variable fonte : option Pillow.Fonte.

Lemma numerar_rotulo (d : list Pillow.Chamada) (i : nat) (xy : Regiao) :
  numerar fonte d (i, destaque_de xy) = d ++ [rotulo fonte i xy].
Proof.
  unfold numerar, rotulo. destruct fonte; reflexivity.
Qed.

Lemma numerar_todos (regs : list Regiao) :
  forall (a : nat) (d : list Pillow.Chamada),
    fold_left (numerar fonte)
      (combine (seq a (List.length (map destaque_de regs))) (map destaque_de regs)) d
    = d ++ map (fun p => rotulo fonte (fst p) (snd p))
               (combine (seq a (List.length regs)) regs).
Proof.
  induction regs as [| xy regs IH]; intros a d.
  - simpl. rewrite app_nil_r. reflexivity.
  - cbn [List.length map seq combine fold_left].
    rewrite numerar_rotulo, IH, <- app_assoc. reflexivity.
Qed.

Lemma tracos_sem_texto (ocultar : bool) (regs : list Regiao) :
  filter eh_texto (flat_map (tracos ocultar) regs) = []
  /\ filter (fun ch => negb (eh_texto ch)) (flat_map (tracos ocultar) regs)
     = flat_map (tracos ocultar) regs.
Proof.
  induction regs as [| xy regs [IH1 IH2]]; simpl; [split; reflexivity |].
  rewrite !filter_app, IH1, IH2.
  destruct xy as [[[a b] c] e]. destruct ocultar; split; reflexivity.
Qed.

Lemma eh_texto_rotulo (i : nat) (xy : Regiao) :
  eh_texto (rotulo fonte i xy) = true.
Proof.
  unfold rotulo. destruct fonte; reflexivity.
Qed.

Lemma rotulos_so_texto {A : Type} (f : A -> nat * Regiao) (l : list A) :
  let rs := map (fun x => rotulo fonte (fst (f x)) (snd (f x))) l in
  filter eh_texto rs = rs /\ filter (fun ch => negb (eh_texto ch)) rs = [].
Proof.
  induction l as [| x l [IH1 IH2]]; simpl; [split; reflexivity |].
  rewrite eh_texto_rotulo. simpl. rewrite IH1, IH2. split; reflexivity.
Qed.

Lemma nth_error_enumerate {A : Type} (l : list A) :
  forall (a i : nat) (x : A),
    nth_error l i = Some x ->
    nth_error (combine (seq a (List.length l)) l) i = Some ((a + i)%nat, x).
Proof.
  induction l as [| y l IH]; intros a i x H.
  - destruct i; discriminate.
  - destruct i as [| i]; simpl in *.
    + inversion H; subst. rewrite Nat.add_0_r. reflexivity.
    + rewrite (IH (S a) i x H). f_equal. f_equal. lia.
Qed.

End Numeracao.

(** The drawing that is saved: the rectangles of the emitted regions, then
    the labels. *)
Lemma desenho_final (ocultar numerar : bool) (fonte : option Pillow.Fonte)
    (coords : list Coord.t) (chaves : list string) (st : Destacar.Estado) :
  Destacar.varrer ocultar numerar coords chaves = Ret st ->
  let regs := flat_map (Espec.regioes_da_chave coords) chaves in
  Destacar.numerar_destaques numerar fonte st
  = flat_map (Espec.tracos ocultar) regs ++
    (if ocultar && numerar
     then map (fun p => Espec.rotulo fonte (fst p) (snd p))
            (Destacar.enumerate1 regs)
     else []).
Proof.
  intros Hv regs.
  destruct (varrer_emitiu ocultar numerar coords chaves st Hv) as (Hd & Hq & _).
  fold regs in Hd, Hq. simpl in Hd, Hq.
  unfold Destacar.numerar_destaques. rewrite Hd, Hq.
  destruct ocultar, numerar; cbn [andb app];
    try (simpl; rewrite ?app_nil_r; reflexivity).
  destruct regs as [| xy regs']; [reflexivity |].
  cbn [List.length map Nat.eqb negb].
  unfold Destacar.enumerate1.
  apply (numerar_todos fonte (xy :: regs') 1%nat).
Qed.

(** The labels of a covered and numbered drawing, one per region. *)
Lemma rotulos_do_desenho (fonte : option Pillow.Fonte)
    (coords : list Coord.t) (chaves : list string) (st : Destacar.Estado) :
  Destacar.varrer true true coords chaves = Ret st ->
  forall i xy,
    nth_error (flat_map (Espec.regioes_da_chave coords) chaves) i = Some xy ->
    nth_error (filter Espec.eh_texto (Destacar.numerar_destaques true fonte st)) i
    = Some (Espec.rotulo fonte (S i) xy).
Proof.
  intros Hv i xy Hi.
  rewrite (desenho_final true true fonte coords chaves st Hv). cbn [andb].
  rewrite filter_app.
  rewrite (proj1 (tracos_sem_texto true _)). cbn [app].
  destruct (rotulos_so_texto fonte (fun p => p)
              (Destacar.enumerate1 (flat_map (Espec.regioes_da_chave coords) chaves)))
    as [R1 _].
  simpl in R1. rewrite R1. unfold Destacar.enumerate1.
  rewrite nth_error_map, (nth_error_enumerate _ 1 i xy Hi). reflexivity.
Qed.

(** C5: after a scan that returned, the drawing holds the rectangles of the
    emitted regions followed by the labels.  Without covering there is no
    label at all, whatever the numbering flag; with covering and numbering
    there is one label per region, and the region emitted in position [i]
    (from 0, phrases in list order and boxes in sequence order within a
    phrase) carries the text [str(i + 1)]. *)
Theorem numbering_labels_covered_regions :
  forall (ocultar numerar : bool) (fonte : option Pillow.Fonte)
         (coords : list Coord.t) (chaves : list string) (st : Destacar.Estado),
    Destacar.varrer ocultar numerar coords chaves = Ret st ->
    let regs := flat_map (Espec.regioes_da_chave coords) chaves in
    let final := Destacar.numerar_destaques numerar fonte st in
    let rotulos := filter Espec.eh_texto final in
    Destacar.palavras_encontradas st = List.length regs
    /\ filter (fun ch => negb (Espec.eh_texto ch)) final
       = flat_map (Espec.tracos ocultar) regs
    /\ (ocultar = false -> rotulos = [])
    /\ (numerar = false -> rotulos = [])
    /\ (ocultar = true -> numerar = true ->
        List.length rotulos = List.length regs
        /\ forall i xy,
             nth_error regs i = Some xy ->
             nth_error rotulos i = Some (Espec.rotulo fonte (S i) xy)
             /\ exists pos,
                  Espec.rotulo fonte (S i) xy
                  = Pillow.text pos (PyStr.str (S i)) Pillow.azul fonte).
Proof.
  intros ocultar numerar fonte coords chaves st Hv regs final rotulos.
  destruct (varrer_emitiu ocultar numerar coords chaves st Hv) as (_ & _ & Hc).
  fold regs in Hc. simpl in Hc.
  assert (Hfinal :
    final = flat_map (Espec.tracos ocultar) regs ++
            (if ocultar && numerar
             then map (fun p => Espec.rotulo fonte (fst p) (snd p))
                    (Destacar.enumerate1 regs)
             else [])) by (apply desenho_final; exact Hv).
  destruct (tracos_sem_texto ocultar regs) as [T1 T2].
  destruct (rotulos_so_texto fonte (fun p => p) (Destacar.enumerate1 regs)) as [R1 R2].
  simpl in R1, R2.
  split; [exact Hc | split; [| split; [| split]]].
  - rewrite Hfinal, filter_app, T2.
    destruct (ocultar && numerar); [rewrite R2 |]; simpl; apply app_nil_r.
  - intros ->. unfold rotulos. rewrite Hfinal, filter_app, T1. reflexivity.
  - intros ->. unfold rotulos. rewrite Hfinal, filter_app, T1, andb_false_r.
    reflexivity.
  - intros -> ->. unfold rotulos. rewrite Hfinal, filter_app, T1. simpl.
    rewrite R1. split.
    + unfold Destacar.enumerate1.
      rewrite length_map, length_combine, length_seq. lia.
    + intros i xy Hi. split.
      * unfold Destacar.enumerate1.
        rewrite nth_error_map, (nth_error_enumerate regs 1 i xy Hi). reflexivity.
      * unfold Espec.rotulo. destruct fonte; eexists; reflexivity.
Qed.

(** The scan of the sample line with its two key phrases. *)
Lemma varredura_da_linha (ocultar numerar : bool) :
  exists st,
    Destacar.varrer ocultar numerar (Espec.coords_de Exemplos.tokens_linha)
      ["femur tibia"; "tibia"] = Ret st.
Proof.
  apply varrer_termina.
  - repeat constructor; intros _; vm_compute; discriminate.
  - destruct ocultar; vm_compute; repeat constructor.
Qed.

Lemma numbering_labels_covered_regions_witness :
  exists st,
    Destacar.varrer true true (Espec.coords_de Exemplos.tokens_linha)
      ["femur tibia"; "tibia"] = Ret st
    /\ map (fun ch => match ch with
                      | Pillow.text _ s _ _ => s
                      | Pillow.rectangle _ _ _ _ => EmptyString
                      end)
         (filter Espec.eh_texto
            (Destacar.numerar_destaques true (Some Exemplos.fonte_fixa) st))
       = ["1"; "2"].
Proof.
  destruct (varredura_da_linha true true) as [st E].
  exists st. split; [exact E |].
  destruct (numbering_labels_covered_regions true true (Some Exemplos.fonte_fixa)
              _ _ st E) as (_ & _ & _ & _ & H).
  destruct (H eq_refl eq_refl) as [Hlen Hn].
  destruct (Hn 0%nat _ eq_refl) as [H0 _].
  destruct (Hn 1%nat _ eq_refl) as [H1 _].
  remember (filter Espec.eh_texto
              (Destacar.numerar_destaques true (Some Exemplos.fonte_fixa) st)) as rs.
  destruct rs as [| r0 [| r1 [| r2 rs]]]; try discriminate.
  simpl in H0, H1. inversion H0. inversion H1. reflexivity.
Defined.

(** ** Where a label starts *)

(** [v // 2] on an integer extent. *)
Lemma metade_inteiro (w : Z) : Destacar.metade (inject_Z w) = w / 2.
Proof.
  unfold Destacar.metade, Qfloor, Qdiv, Qmult, Qinv, inject_Z. simpl.
  rewrite Z.mul_1_r. reflexivity.
Qed.

(** [(n * t * 0.6) // 2] on integers [n] and [t]. *)
Lemma metade_estimativa (n t : Z) :
  Destacar.metade (inject_Z n * inject_Z t * (6 # 10))%Q = n * t * 3 / 10.
Proof.
  unfold Destacar.metade, Qfloor, Qdiv, Qmult, Qinv, inject_Z. simpl.
  replace (n * t * 6 * 1) with (n * t * 3 * 2) by lia.
  change 20 with (10 * 2).
  apply Z.div_mul_cancel_r; lia.
Qed.

(** The extents of the three tiers, halved. *)
Lemma metade_medir (f : Pillow.Fonte) (numero : string) (tamanho : Z) :
  (Destacar.metade (fst (Destacar.medir f numero tamanho)),
   Destacar.metade (snd (Destacar.medir f numero tamanho)))
  = Espec.meia_extensao f numero tamanho.
Proof.
  unfold Destacar.medir, Espec.meia_extensao.
  destruct (Pillow.getsize f) as [g |].
  - destruct (g numero) as [w h]. cbn [fst snd].
    rewrite !metade_inteiro. reflexivity.
  - destruct (Pillow.getbbox f numero) as [[[[b0 b1] b2] b3] |]; cbn [fst snd].
    + rewrite !metade_inteiro. reflexivity.
    + rewrite metade_estimativa, metade_inteiro. reflexivity.
Qed.

(** The label of a region, written out. *)
Lemma rotulo_posicao (fonte : option Pillow.Fonte) (i : nat)
    (x_min y_min x_max y_max : Z) :
  let numero := PyStr.str i in
  let cx := x_min + (x_max - x_min) / 2 in
  let cy := y_min + (y_max - y_min) / 2 in
  let tamanho := Z.max 12 (Z.min (x_max - x_min) (y_max - y_min) / 2) in
  Espec.rotulo fonte i (x_min, y_min, x_max, y_max)
  = Pillow.text
      match fonte with
      | Some f =>
          (Z.max (cx - fst (Espec.meia_extensao f numero tamanho)) (x_min + 2),
           Z.max (cy - snd (Espec.meia_extensao f numero tamanho)) (y_min + 2))
      | None => (cx - 5, cy - 10)
      end
      numero Pillow.azul fonte.
Proof.
  intros numero cx cy tamanho. unfold Espec.rotulo.
  destruct fonte as [f |]; [| reflexivity].
  f_equal. unfold Destacar.posicao.
  rewrite <- (metade_medir f numero tamanho).
  unfold Destacar.tamanho_da_fonte, Destacar.destaque_de.
  cbn [Dest.x Dest.y Dest.largura Dest.altura fst snd].
  fold numero. rewrite (Z.max_comm _ 12). fold tamanho.
  destruct (Destacar.medir f numero tamanho) as [largura_texto altura_texto].
  cbn [fst snd].
  replace (x_min + (x_max - x_min) / 2 - (x_max - x_min) / 2 + 2)
    with (x_min + 2) by lia.
  replace (y_min + (y_max - y_min) / 2 - (y_max - y_min) / 2 + 2)
    with (y_min + 2) by lia.
  reflexivity.
Qed.

(** C8: in a covered and numbered drawing the label of the region emitted in
    position [i] (from 0) is the text [str(i + 1)], in blue.  With a font it
    starts at the region's centre minus half the extent of that text, per
    axis, or 2 px inside the region's top-left corner where that is further
    right or down.  Half the extent is [w // 2] and [h // 2] of [getsize],
    else of the [getbbox] box, else of the estimate
    [len(text) * size * 0.6] by [size], with the glyph size
    [size = max(12, min(width, height) // 2)] of the region.  Without a font
    the label starts 5 px left of and 10 px above the centre, whatever the
    size. *)
Theorem numbering_label_placement :
  forall (fonte : option Pillow.Fonte) (coords : list Coord.t)
         (chaves : list string) (st : Destacar.Estado) (i : nat)
         (x_min y_min x_max y_max : Z),
    Destacar.varrer true true coords chaves = Ret st ->
    nth_error (flat_map (Espec.regioes_da_chave coords) chaves) i
    = Some (x_min, y_min, x_max, y_max) ->
    let numero := PyStr.str (S i) in
    let cx := x_min + (x_max - x_min) / 2 in
    let cy := y_min + (y_max - y_min) / 2 in
    let tamanho := Z.max 12 (Z.min (x_max - x_min) (y_max - y_min) / 2) in
    exists px py,
      nth_error
        (filter Espec.eh_texto (Destacar.numerar_destaques true fonte st)) i
      = Some (Pillow.text (px, py) numero Pillow.azul fonte)
      /\ match fonte with
         | Some f =>
             match Pillow.getsize f with
             | Some getsize =>
                 px = Z.max (cx - fst (getsize numero) / 2) (x_min + 2)
                 /\ py = Z.max (cy - snd (getsize numero) / 2) (y_min + 2)
             | None =>
                 match Pillow.getbbox f numero with
                 | Some (b0, b1, b2, b3) =>
                     px = Z.max (cx - (b2 - b0) / 2) (x_min + 2)
                     /\ py = Z.max (cy - (b3 - b1) / 2) (y_min + 2)
                 | None =>
                     px = Z.max (cx - PyStr.len numero * tamanho * 3 / 10)
                            (x_min + 2)
                     /\ py = Z.max (cy - tamanho / 2) (y_min + 2)
                 end
             end
             /\ x_min + 2 <= px /\ y_min + 2 <= py
         | None => px = cx - 5 /\ py = cy - 10
         end.
Proof.
  intros fonte coords chaves st i x_min y_min x_max y_max Hv Hi numero cx cy tamanho.
  pose proof (rotulos_do_desenho fonte coords chaves st Hv i _ Hi) as Hr.
  rewrite rotulo_posicao in Hr. fold numero cx cy tamanho in Hr.
  destruct fonte as [f |].
  - eexists _, _. split; [exact Hr |].
    unfold Espec.meia_extensao.
    destruct (Pillow.getsize f) as [g |].
    + cbn [fst snd]. repeat split; lia.
    + destruct (Pillow.getbbox f numero) as [[[[b0 b1] b2] b3] |]; cbn [fst snd];
        repeat split; lia.
  - eexists _, _. split; [exact Hr |]. split; reflexivity.
Qed.

Lemma numbering_label_placement_witness :
  exists st,
    Destacar.varrer true true (Espec.coords_de Exemplos.tokens_linha)
      ["femur tibia"; "tibia"] = Ret st
    /\ nth_error
         (filter Espec.eh_texto
            (Destacar.numerar_destaques true (Some Exemplos.fonte_fixa) st)) 0
       = Some (Pillow.text (60, 14) "1" Pillow.azul (Some Exemplos.fonte_fixa))
    /\ nth_error
         (filter Espec.eh_texto
            (Destacar.numerar_destaques true (Some Exemplos.fonte_muda) st)) 1
       = Some (Pillow.text (92, 16) "2" Pillow.azul (Some Exemplos.fonte_muda)).
Proof.
  destruct (varredura_da_linha true true) as [st E].
  exists st. split; [exact E |]. split.
  - destruct (numbering_label_placement (Some Exemplos.fonte_fixa) _ _ st 0
                10 10 120 32 E eq_refl) as (px & py & Hn & (Hx & Hy) & _).
    rewrite Hn, Hx, Hy. reflexivity.
  - destruct (numbering_label_placement (Some Exemplos.fonte_muda) _ _ st 1
                70 12 120 32 E eq_refl) as (px & py & Hn & (Hx & Hy) & _).
    rewrite Hn, Hx, Hy. reflexivity.
Defined.
(** ** Region bounds and the image *)

Lemma in_janela (coords : list Coord.t) (i k : nat) (c : Coord.t) :
  In c (Espec.janela coords i k) -> In c coords.
Proof.
  unfold Espec.janela. intros H.
  apply In_nth_error in H. destruct H as [n Hn].
  destruct (Nat.lt_ge_cases n k) as [Hlt | Hge].
  - rewrite nth_error_firstn in Hn.
    destruct (Nat.ltb_spec n k); [| lia].
    rewrite nth_error_skipn in Hn. apply nth_error_In in Hn. exact Hn.
  - assert (Hnone : nth_error (firstn k (skipn i coords)) n = None).
    { apply nth_error_None. rewrite length_firstn. lia. }
    congruence.
Qed.

Lemma abranger_sem_palavras (coords : list Coord.t) (i : nat) (xy : Espec.Regiao) :
  Destacar.abranger coords i 0 <> Ret xy.
Proof.
  unfold Destacar.abranger. destruct (item coords i); simpl; discriminate.
Qed.

(** C6: on the two lines "osso femur" / "tibia e femur tibia" set in a narrow
    column, every box lies inside the 300 by 100 image, and the rectangle
    computed for the key phrase "femur tibia" read across the line break
    runs from the left edge of "femur" (100) to the right edge of "tibia"
    (98).  Without the cover flag the call succeeds, counts this region and
    outlines it, so a region with [x_min > x_max] is emitted; with the cover
    flag [rectangle] raises on the fill and the call reports the image as
    failed. *)
Theorem reversed_region_is_outlined :
  let coords := Espec.coords_de Exemplos.tokens_recuo in
  let img := Exemplos.imagem_preta 300 100 in
  let arq := Exemplos.arquivo "prancha.png" img Exemplos.texto_quebra
               Exemplos.tokens_recuo in
  Forall (Espec.caixa_na_imagem 300 100) coords
  /\ Destacar.abranger coords 1 2 = Ret (100, 10, 98, 60)
  /\ ~ (0 <= 100 <= 98)
  /\ (forall numerar pasta,
        Destacar.detectar_e_destacar_palavras arq pasta ["femur tibia"]
          false numerar
        = ((true, 2%nat, true),
           escrever pasta "prancha.png"
             {| Pillow.figura :=
                  {| Pillow.base := img;
                     Pillow.chamadas := [Espec.contorno (100, 10, 98, 60);
                                         Espec.contorno (120, 40, 226, 60)] |};
                Pillow.quality := 95 |},
           []))
  /\ (forall numerar pasta,
        Destacar.detectar_e_destacar_palavras arq pasta ["femur tibia"]
          true numerar
        = ((false, 0%nat, false), pasta,
           [ErroAoProcessar "prancha.png" ValueError])).
Proof.
  intros coords img arq.
  split; [| split; [| split; [| split]]].
  - repeat constructor; vm_compute; discriminate.
  - reflexivity.
  - lia.
  - intros n pasta. destruct n; reflexivity.
  - intros n pasta. reflexivity.
Qed.

(** ** Covering and outlining *)

Lemma pintar_tamanho (tinta : option Pillow.Fonte -> string -> Z -> Z -> bool)
    (img : Pillow.Imagem) (ch : Pillow.Chamada) :
  Pillow.img_width (Pillow.pintar tinta img ch) = Pillow.img_width img
  /\ Pillow.img_height (Pillow.pintar tinta img ch) = Pillow.img_height img.
Proof.
  destruct ch as [xy [c |] [c' |] w | [tx ty] s c font]; simpl; split; reflexivity.
Qed.

Lemma revelar_tamanho (tinta : option Pillow.Fonte -> string -> Z -> Z -> bool)
    (chs : list Pillow.Chamada) (img : Pillow.Imagem) :
  Pillow.img_width (Pillow.revelar tinta img chs) = Pillow.img_width img
  /\ Pillow.img_height (Pillow.revelar tinta img chs) = Pillow.img_height img.
Proof.
  unfold Pillow.revelar. revert img.
  induction chs as [| ch chs IH]; intros img; simpl.
  - split; reflexivity.
  - destruct (IH (Pillow.pintar tinta img ch)) as [H1 H2].
    destruct (pintar_tamanho tinta img ch) as [H3 H4].
    split; congruence.
Qed.

Lemma na_imagem_revelar (tinta : option Pillow.Fonte -> string -> Z -> Z -> bool)
    (chs : list Pillow.Chamada) (img : Pillow.Imagem) (px py : Z) :
  Pillow.na_imagem (Pillow.revelar tinta img chs) px py = Pillow.na_imagem img px py.
Proof.
  unfold Pillow.na_imagem.
  destruct (revelar_tamanho tinta chs img) as [H1 H2]. rewrite H1, H2. reflexivity.
Qed.

Ltac comparar :=
  repeat match goal with
         | |- context [?a <=? ?b] => destruct (Z.leb_spec a b)
         | |- context [?a <? ?b] => destruct (Z.ltb_spec a b)
         end;
  simpl; try reflexivity; try lia; try discriminate.

(** Right after a cover and its outline, the inside is white and the band
    around it is red. *)
Lemma cobrir_e_contornar (tinta : option Pillow.Fonte -> string -> Z -> Z -> bool)
    (img : Pillow.Imagem) (x_min y_min x_max y_max px py : Z) :
  let xy := (x_min, y_min, x_max, y_max) in
  let img' := Pillow.revelar tinta img [Espec.cobertura xy; Espec.contorno xy] in
  Pillow.na_imagem img px py = true ->
  (x_min < px < x_max -> y_min < py < y_max ->
   Pillow.getpixel img' px py = Pillow.branco)
  /\ (Pillow.na_borda (x_min - 2, y_min - 2, x_max + 2, y_max + 2) 3 px py = true ->
      Pillow.getpixel img' px py = Pillow.vermelho).
Proof.
  intros xy img' Hin. unfold img', xy. simpl.
  assert (Hin' : Pillow.na_imagem
                   (Pillow.pintar_se img (Pillow.na_caixa (x_min, y_min, x_max, y_max))
                      Pillow.branco) px py = true) by exact Hin.
  rewrite Hin', Hin. simpl. split.
  - intros Hx Hy. comparar.
  - intros Hb. unfold Pillow.na_borda, Pillow.na_caixa in Hb.
    rewrite Hb. reflexivity.
Qed.

Lemma cover_then_outline_counterexample :
  let arq := Exemplos.arquivo "prancha.png" (Exemplos.imagem_preta 200 100)
               "Femur tibia," Exemplos.tokens_linha in
  exists fig,
    Destacar.detectar_e_destacar_palavras arq Exemplos.saida
      ["femur tibia"; "tibia"] true false
    = ((true, 2%nat, true),
       escrever Exemplos.saida "prancha.png"
         {| Pillow.figura := fig; Pillow.quality := 95 |},
       [])
    /\ In (Espec.cobertura (10, 10, 120, 32)) (Pillow.chamadas fig)
    /\ (10 < 69 < 120 /\ 10 < 20 < 32)
    /\ Pillow.getpixel
         (Pillow.revelar Exemplos.sem_tinta (Pillow.base fig) (Pillow.chamadas fig))
         69 20 = Pillow.vermelho
    /\ Pillow.vermelho <> Pillow.branco.
Proof.
  eexists. split; [vm_compute; reflexivity |].
  split; [left; reflexivity |].
  split; [lia |].
  split; [vm_compute; reflexivity | discriminate].
Qed.

(** C4 as the code has it: with the cover flag set, each emitted region is
    painted by two consecutive calls, the white fill of its bounds and then
    the red outline, 3 px wide, of the bounds moved outward by 2 px.  Right
    after these two calls, for a region with [x_min <= x_max] and
    [y_min <= y_max], every pixel of the image strictly inside the bounds is
    white and every pixel of the image on the outline band is red.  (Calls
    that come later, outlines of other regions and the labels, may repaint
    them.) *)
Theorem cover_precedes_outline :
  forall (numerar : bool) (fonte : option Pillow.Fonte)
         (coords : list Coord.t) (chaves : list string) (st : Destacar.Estado)
         (tinta : option Pillow.Fonte -> string -> Z -> Z -> bool)
         (img : Pillow.Imagem) (x_min y_min x_max y_max : Z),
    Destacar.varrer true numerar coords chaves = Ret st ->
    In (x_min, y_min, x_max, y_max)
       (flat_map (Espec.regioes_da_chave coords) chaves) ->
    x_min <= x_max -> y_min <= y_max ->
    let xy := (x_min, y_min, x_max, y_max) in
    exists antes depois,
      Destacar.numerar_destaques numerar fonte st
      = antes ++ [Pillow.rectangle xy (Some Pillow.branco) None 1;
                  Pillow.rectangle (x_min - 2, y_min - 2, x_max + 2, y_max + 2)
                    None (Some Pillow.vermelho) 3] ++ depois
      /\ forall px py,
           Pillow.na_imagem img px py = true ->
           let img' :=
             Pillow.revelar tinta img
               (antes ++ [Espec.cobertura xy; Espec.contorno xy]) in
           (x_min < px < x_max -> y_min < py < y_max ->
            Pillow.getpixel img' px py = Pillow.branco)
           /\ (Pillow.na_borda (x_min - 2, y_min - 2, x_max + 2, y_max + 2) 3 px py
               = true ->
               Pillow.getpixel img' px py = Pillow.vermelho).
Proof.
  intros numerar fonte coords chaves st tinta img x_min y_min x_max y_max
         Hv Hin _ _ xy.
  apply in_split in Hin. destruct Hin as [r1 [r2 Hr]].
  pose proof (desenho_final true numerar fonte coords chaves st Hv) as Hf.
  simpl in Hf. rewrite Hr in Hf. rewrite flat_map_app in Hf. simpl in Hf.
  exists (flat_map (Espec.tracos true) r1). eexists. split.
  - rewrite Hf. rewrite <- app_assoc. simpl. reflexivity.
  - intros px py Hpx img'. unfold img', Pillow.revelar.
    rewrite fold_left_app.
    apply (cobrir_e_contornar tinta
             (Pillow.revelar tinta img (flat_map (Espec.tracos true) r1))).
    rewrite na_imagem_revelar. exact Hpx.
Qed.

Lemma cover_precedes_outline_witness :
  exists st antes depois,
    Destacar.varrer true false (Espec.coords_de Exemplos.tokens_linha)
      ["femur tibia"; "tibia"] = Ret st
    /\ Destacar.numerar_destaques false None st
       = antes ++ [Espec.cobertura (70, 12, 120, 32);
                   Espec.contorno (70, 12, 120, 32)] ++ depois
    /\ Pillow.getpixel
         (Pillow.revelar Exemplos.sem_tinta (Exemplos.imagem_preta 200 100)
            (antes ++ [Espec.cobertura (70, 12, 120, 32);
                       Espec.contorno (70, 12, 120, 32)]))
         100 20 = Pillow.branco.
Proof.
  destruct (varredura_da_linha true false) as [st E].
  assert (Hin : In (70, 12, 120, 32)
                  (flat_map (Espec.regioes_da_chave
                               (Espec.coords_de Exemplos.tokens_linha))
                     ["femur tibia"; "tibia"])).
  { vm_compute. right. left. reflexivity. }
  assert (Hx : 70 <= 120) by lia.
  assert (Hy : 12 <= 32) by lia.
  destruct (cover_precedes_outline false None _ _ st Exemplos.sem_tinta
              (Exemplos.imagem_preta 200 100) 70 12 120 32 E Hin Hx Hy)
    as [antes [depois [Hd Hp]]].
  exists st, antes, depois. split; [exact E |]. split; [exact Hd |].
  destruct (Hp 100 20 eq_refl) as [Hw _].
  apply Hw; lia.
Defined.

(** ** The full-text gate *)

Lemma texto_encontrado_false (chaves : list string) (texto_completo : string) :
  Destacar.texto_encontrado (map PyStr.lower chaves) texto_completo = false <->
  (forall chave, In chave chaves ->
     PyStr.contem (PyStr.lower chave) texto_completo = false).
Proof.
  unfold Destacar.texto_encontrado.
  induction chaves as [| c chaves IH]; simpl.
  - split; [intros _ chave [] | reflexivity].
  - rewrite orb_false_iff, IH. split.
    + intros [H1 H2] chave [E | H]; [subst; exact H1 | apply H2; exact H].
    + intros H. split; [apply H; left; reflexivity |].
      intros chave Hc. apply H. right. exact Hc.
Qed.

Lemma full_text_gate_counterexample :
  let arq := Exemplos.arquivo "prancha.png" (Exemplos.imagem_preta 200 100)
               "Femur tibia" Exemplos.tokens_duvidosos in
  let chaves := ["tibia"] in
  exists texto_reconstruido coordenadas_palavras,
    Destacar.juntar_coordenadas (Espec.dados_de Exemplos.tokens_duvidosos)
    = Ret (texto_reconstruido, coordenadas_palavras)
    /\ Destacar.texto_encontrado (map PyStr.lower chaves)
         (PyStr.lower (PyStr.join_espaco (map Coord.texto coordenadas_palavras)))
       = false
    /\ Destacar.texto_encontrado (map PyStr.lower chaves)
         (PyStr.lower texto_reconstruido) = false
    /\ fst (fst (Destacar.detectar_e_destacar_palavras arq Exemplos.saida
                   chaves true true))
       = (true, 0%nat, true).
Proof.
  eexists. eexists. split; [vm_compute; reflexivity |].
  repeat split; vm_compute; reflexivity.
Qed.

(** C3 as the code has it: the gate reads the text of the OCR engine's own
    full-text pass ([image_to_string]), lower-cased.  When the image opens,
    both OCR calls answer and the save succeeds, and no lower-cased key
    phrase occurs in that text, the call returns [(True, 0, False)] and saves
    the image with no drawing call on it, whatever the boxes are. *)
Theorem full_text_gate_blocks_scan :
  forall (arq : Arquivo) (pasta : Pasta) (chaves : list string)
         (ocultar numerar : bool) (imagem : Pillow.Imagem) (texto : string)
         (dados : Dados.t),
    Image_open arq = Ret imagem ->
    image_to_string arq = Ret texto ->
    image_to_data arq = Ret dados ->
    save_ok arq (caminho pasta) = true ->
    (forall chave, In chave chaves ->
       PyStr.contem (PyStr.lower chave) (PyStr.lower texto) = false) ->
    Destacar.detectar_e_destacar_palavras arq pasta chaves ocultar numerar
    = ((true, 0%nat, false),
       escrever pasta (name arq)
         {| Pillow.figura := {| Pillow.base := imagem; Pillow.chamadas := [] |};
            Pillow.quality := 95 |},
       []).
Proof.
  intros arq pasta chaves ocultar numerar imagem texto dados Ho Hs Hd Hsave Hno.
  apply texto_encontrado_false in Hno.
  unfold Destacar.detectar_e_destacar_palavras, Destacar.corpo.
  rewrite Ho, Hs, Hd. simpl. rewrite Hno. simpl.
  unfold save. rewrite Hsave. reflexivity.
Qed.

Lemma full_text_gate_blocks_scan_witness :
  Destacar.detectar_e_destacar_palavras
    (Exemplos.arquivo "prancha.png" (Exemplos.imagem_preta 200 100)
       "Femur tibia" Exemplos.tokens_linha)
    Exemplos.saida ["patela"] true true
  = ((true, 0%nat, false),
     escrever Exemplos.saida "prancha.png"
       {| Pillow.figura :=
            {| Pillow.base := Exemplos.imagem_preta 200 100;
               Pillow.chamadas := [] |};
          Pillow.quality := 95 |},
     []).
Proof.
  apply (full_text_gate_blocks_scan
           (Exemplos.arquivo "prancha.png" (Exemplos.imagem_preta 200 100)
              "Femur tibia" Exemplos.tokens_linha)
           Exemplos.saida ["patela"] true true (Exemplos.imagem_preta 200 100)
           "Femur tibia" (Espec.dados_de Exemplos.tokens_linha)).
  - reflexivity.
  - reflexivity.
  - reflexivity.
  - reflexivity.
  - intros chave [E | []]. subst chave. reflexivity.
Defined.

(** ** Outcomes of one call *)

Lemma exists_escrever (pasta : Pasta) (nome : string) (salvo : Pillow.Salvo) :
  exists_ (escrever pasta nome salvo) nome = true.
Proof.
  unfold exists_, escrever. simpl. rewrite String.eqb_refl. reflexivity.
Qed.

(** The three ways out of the [try] block. *)
Lemma corpo_casos (arq : Arquivo) (pasta : Pasta) (chaves : list string)
    (o n : bool) :
  (exists e, Destacar.corpo arq pasta chaves o n = Raise e)
  \/ (exists img texto,
         Image_open arq = Ret img
         /\ image_to_string arq = Ret texto
         /\ Destacar.texto_encontrado (map PyStr.lower chaves) (PyStr.lower texto)
            = false
         /\ Destacar.corpo arq pasta chaves o n
            = Ret (0%nat, false,
                   escrever pasta (name arq)
                     {| Pillow.figura :=
                          {| Pillow.base := img; Pillow.chamadas := [] |};
                        Pillow.quality := 95 |}))
  \/ (exists texto k fig,
         image_to_string arq = Ret texto
         /\ Destacar.texto_encontrado (map PyStr.lower chaves) (PyStr.lower texto)
            = true
         /\ Destacar.corpo arq pasta chaves o n
            = Ret (k, true,
                   escrever pasta (name arq)
                     {| Pillow.figura := fig; Pillow.quality := 95 |})).
Proof.
  unfold Destacar.corpo.
  destruct (Image_open arq) as [img | e]; cbn [bind]; [| left; eexists; reflexivity].
  destruct (image_to_string arq) as [texto | e]; cbn [bind];
    [| left; eexists; reflexivity].
  destruct (image_to_data arq) as [dados | e]; cbn [bind];
    [| left; eexists; reflexivity].
  unfold save.
  destruct (Destacar.texto_encontrado (map PyStr.lower chaves) (PyStr.lower texto))
    eqn:Eg; cbn [negb].
  - destruct (Destacar.juntar_coordenadas dados) as [tc | e]; cbn [bind];
      [| left; eexists; reflexivity].
    destruct (Destacar.varrer o n (snd tc) (map PyStr.lower chaves)) as [st | e];
      cbn [bind]; [| left; eexists; reflexivity].
    destruct (save_ok arq (caminho pasta)); cbn [bind].
    + right. right. exists texto. eexists. eexists.
      split; [reflexivity | split; [exact Eg | reflexivity]].
    + left. eexists. reflexivity.
  - destruct (save_ok arq (caminho pasta)); cbn [bind].
    + right. left. exists img, texto.
      split; [reflexivity | split; [reflexivity | split; [exact Eg | reflexivity]]].
    + left. eexists. reflexivity.
Qed.

(** Past the gate a call either fails or reports the key phrases as found,
    with the image saved. *)
Lemma detectar_com_portao (arq : Arquivo) (pasta : Pasta) (chaves : list string)
    (o n : bool) (texto : string) :
  image_to_string arq = Ret texto ->
  Destacar.texto_encontrado (map PyStr.lower chaves) (PyStr.lower texto) = true ->
  let r := Destacar.detectar_e_destacar_palavras arq pasta chaves o n in
  (exists e, r = ((false, 0%nat, false), pasta, [ErroAoProcessar (name arq) e]))
  \/ (exists k fig,
         r = ((true, k, true),
              escrever pasta (name arq)
                {| Pillow.figura := fig; Pillow.quality := 95 |},
              [])).
Proof.
  intros Hs Hg r. unfold r, Destacar.detectar_e_destacar_palavras.
  destruct (corpo_casos arq pasta chaves o n)
    as [[e H] | [(img & t & _ & Ht & Hn & H) | (t & k & fig & _ & _ & H)]];
    rewrite H.
  - left. exists e. reflexivity.
  - rewrite Hs in Ht. inversion Ht; subst. congruence.
  - right. exists k, fig. reflexivity.
Qed.

(** When the gate lets the image through and nothing raises, the call
    reports the keyword as present. *)
Lemma detectar_apos_portao (arq : Arquivo) (pasta : Pasta) (chaves : list string)
    (ocultar numerar : bool) (imagem : Pillow.Imagem) (texto : string)
    (tokens : list Espec.Token) (st : Destacar.Estado) :
  Image_open arq = Ret imagem ->
  image_to_string arq = Ret texto ->
  image_to_data arq = Ret (Espec.dados_de tokens) ->
  save_ok arq (caminho pasta) = true ->
  Destacar.texto_encontrado (map PyStr.lower chaves) (PyStr.lower texto) = true ->
  Destacar.varrer ocultar numerar (Espec.coords_de tokens) (map PyStr.lower chaves)
  = Ret st ->
  Destacar.detectar_e_destacar_palavras arq pasta chaves ocultar numerar
  = ((true, Destacar.palavras_encontradas st, true),
     escrever pasta (name arq)
       {| Pillow.figura :=
            {| Pillow.base := imagem;
               Pillow.chamadas :=
                 Destacar.numerar_destaques numerar (carregar_fonte arq) st |};
          Pillow.quality := 95 |},
     []).
Proof.
  intros Ho Hs Hd Hsave Hgate Hst.
  unfold Destacar.detectar_e_destacar_palavras, Destacar.corpo.
  rewrite Ho, Hs, Hd. simpl. rewrite Hgate. simpl.
  destruct (juntar_coordenadas_tokens tokens) as [r Hj]. rewrite Hj. simpl.
  unfold Espec.coords_de in Hst. rewrite Hst. simpl.
  unfold save. rewrite Hsave. reflexivity.
Qed.

(** ** The batch driver *)

Lemma gate_pass_counterexample :
  let arq := Exemplos.arquivo_protegido "prancha.png"
               (Exemplos.imagem_preta 200 100) "Femur tibia"
               Exemplos.tokens_duvidosos in
  let pasta := Exemplos.pasta_vazia "somente_leitura" in
  Destacar.texto_encontrado (map PyStr.lower ["tibia"]) (PyStr.lower "Femur tibia")
  = true
  /\ Destacar.varrer true true (Espec.coords_de Exemplos.tokens_duvidosos)
       (map PyStr.lower ["tibia"])
     = Ret Destacar.estado_inicial
  /\ Destacar.detectar_e_destacar_palavras arq pasta ["tibia"] true true
     = ((false, 0%nat, false), pasta, [ErroAoProcessar "prancha.png" IOError]).
Proof.
  repeat split.
Qed.

(** C7 as the code has it: past the gate the call can still fail, and then
    it reports nothing as found.  When the image opens, both OCR calls
    answer (index-aligned) and some lower-cased key phrase occurs in the
    lower-cased full text, a call in which nothing raises (no key phrase is
    blanks only, every region can be drawn, the save succeeds) returns
    [(True, n, True)], [n] the number of regions, with the image saved,
    also when there is no region at all; and when the driver's call (both
    calls in the double mode) succeeds, the driver deletes nothing and the
    file is kept in its folder (both folders in the double mode), also
    under the delete-non-matching option.  The result [(True, 0, True)]
    does occur. *)
Theorem gate_pass_keeps_image :
  forall (arq : Arquivo) (chaves : list string) (imagem : Pillow.Imagem)
         (texto : string) (tokens : list Espec.Token),
    Image_open arq = Ret imagem ->
    image_to_string arq = Ret texto ->
    image_to_data arq = Ret (Espec.dados_de tokens) ->
    Destacar.texto_encontrado (map PyStr.lower chaves) (PyStr.lower texto) = true ->
    let regs :=
      flat_map (Espec.regioes_da_chave (Espec.coords_de tokens))
        (map PyStr.lower chaves) in
    (forall pasta ocultar numerar,
        save_ok arq (caminho pasta) = true ->
        Forall Espec.chave_com_palavras (map PyStr.lower chaves) ->
        Forall (fun xy => Espec.desenhavel ocultar xy = true) regs ->
        exists fig,
          Destacar.detectar_e_destacar_palavras arq pasta chaves ocultar numerar
          = ((true, List.length regs, true),
             escrever pasta (name arq)
               {| Pillow.figura := fig; Pillow.quality := 95 |},
             []))
    /\ (forall opcoes lote,
          Destacar.sucesso (Destacar.chamar chaves opcoes lote arq) = true ->
          let lote' := Destacar.processar_imagem chaves opcoes lote arq in
          Destacar.imagens_deletadas lote' = Destacar.imagens_deletadas lote
          /\ Destacar.imagens_sem_palavras lote' = Destacar.imagens_sem_palavras lote
          /\ Destacar.imagens_processadas lote'
             = S (Destacar.imagens_processadas lote)
          /\ if Destacar.modo_duplo opcoes
             then exists_ (Destacar.pasta_gabarito lote') (name arq) = true
                  /\ exists_ (Destacar.pasta_prova lote') (name arq) = true
             else exists_ (Destacar.pasta_destino lote') (name arq) = true)
    /\ (exists arq0 chaves0 pasta0 pasta1,
          Destacar.detectar_e_destacar_palavras arq0 pasta0 chaves0 true true
          = ((true, 0%nat, true), pasta1, [])).
Proof.
  intros arq chaves imagem texto tokens Ho Hs Hd Hgate regs.
  split; [| split].
  - intros pasta ocultar numerar Hsave Hch Hdr.
    destruct (varrer_termina ocultar numerar (Espec.coords_de tokens)
                (map PyStr.lower chaves) Hch Hdr) as [st Hst].
    eexists.
    rewrite (detectar_apos_portao arq pasta chaves ocultar numerar imagem texto
               tokens st Ho Hs Hd Hsave Hgate Hst).
    destruct (varrer_emitiu ocultar numerar _ _ st Hst) as (_ & _ & Hc).
    fold regs in Hc. simpl in Hc. rewrite Hc. reflexivity.
  - intros opcoes lote Hsuc lote'. revert Hsuc.
    unfold lote', Destacar.processar_imagem, Destacar.chamar.
    destruct (Destacar.modo_duplo opcoes).
    + destruct (detectar_com_portao arq (Destacar.pasta_gabarito lote) chaves
                  false false texto Hs Hgate) as [[e Eg] | [kg [fg Eg]]];
        rewrite Eg;
        destruct (detectar_com_portao arq (Destacar.pasta_prova lote) chaves
                    true (Destacar.numerar_palavras opcoes) texto Hs Hgate)
          as [[e' Ep] | [kp [fp Ep]]];
        rewrite Ep; cbn [Destacar.sucesso andb]; intros Hsuc;
        try discriminate Hsuc.
      cbn [negb andb Destacar.sucesso Destacar.encontrou_palavras
           Destacar.deletadas Destacar.gabarito Destacar.prova
           Destacar.imagens_deletadas Destacar.imagens_sem_palavras
           Destacar.imagens_processadas Destacar.pasta_gabarito
           Destacar.pasta_prova].
      rewrite andb_false_r. rewrite !exists_escrever. repeat split.
    + destruct (detectar_com_portao arq (Destacar.pasta_destino lote) chaves
                  (Destacar.ocultar_palavras opcoes)
                  (Destacar.ocultar_palavras opcoes && Destacar.numerar_palavras opcoes)
                  texto Hs Hgate) as [[e Ed] | [kd [fd Ed]]];
        rewrite Ed; cbn [Destacar.sucesso]; intros Hsuc; try discriminate Hsuc.
      cbn [negb andb Destacar.sucesso Destacar.encontrou_palavras
           Destacar.deletadas Destacar.destino
           Destacar.imagens_deletadas Destacar.imagens_sem_palavras
           Destacar.imagens_processadas Destacar.pasta_destino].
      rewrite !exists_escrever. repeat split.
  - exists (Exemplos.arquivo "prancha.png" (Exemplos.imagem_preta 200 100)
              "Femur tibia" Exemplos.tokens_duvidosos), ["tibia"], Exemplos.saida.
    eexists. vm_compute. reflexivity.
Qed.

Lemma gate_pass_keeps_image_witness :
  let arq := Exemplos.arquivo "prancha.png" (Exemplos.imagem_preta 200 100)
               "Femur tibia" Exemplos.tokens_duvidosos in
  let lote' := Destacar.processar_imagem ["tibia"] Exemplos.opcoes_deletar
                 Exemplos.lote_vazio arq in
  fst (fst (Destacar.detectar_e_destacar_palavras arq Exemplos.saida ["tibia"]
              true true))
  = (true, 0%nat, true)
  /\ Destacar.imagens_deletadas lote' = 0%nat
  /\ exists_ (Destacar.pasta_destino lote') "prancha.png" = true.
Proof.
  intros arq lote'.
  destruct (gate_pass_keeps_image arq ["tibia"] (Exemplos.imagem_preta 200 100)
              "Femur tibia" Exemplos.tokens_duvidosos) as (Hc & H & _).
  - reflexivity.
  - reflexivity.
  - reflexivity.
  - reflexivity.
  - split; [| split].
    + destruct (Hc Exemplos.saida true true) as [fig E].
      * reflexivity.
      * repeat constructor. intros _. vm_compute. discriminate.
      * vm_compute. constructor.
      * rewrite E. reflexivity.
    + destruct (H Exemplos.opcoes_deletar Exemplos.lote_vazio)
        as (H1 & _ & _ & H2); [reflexivity | exact H1].
    + destruct (H Exemplos.opcoes_deletar Exemplos.lote_vazio)
        as (H1 & _ & _ & H2); [reflexivity | exact H2].
Defined.

Lemma detectar_falha (arq : Arquivo) (e : Erro) :
  Espec.falha_externa arq e ->
  forall (pasta : Pasta) (chaves : list string) (ocultar numerar : bool),
    Destacar.detectar_e_destacar_palavras arq pasta chaves ocultar numerar
    = ((false, 0%nat, false), pasta, [ErroAoProcessar (name arq) e]).
Proof.
  intros [H | [[img [H1 H2]] | [img [texto [H1 [H2 H3]]]]]] pasta chaves ocultar numerar;
    unfold Destacar.detectar_e_destacar_palavras, Destacar.corpo.
  - rewrite H. reflexivity.
  - rewrite H1, H2. reflexivity.
  - rewrite H1, H2, H3. reflexivity.
Qed.

Lemma processar_imagens_laco (imagens : list Arquivo) (chaves : list string)
    (opcoes : Destacar.Opcoes) (inicio : Destacar.Lote) :
  chaves <> [] ->
  Destacar.processar_imagens imagens chaves opcoes inicio
  = fold_left (Destacar.processar_imagem chaves opcoes) imagens inicio.
Proof.
  intros H. unfold Destacar.processar_imagens.
  destruct chaves; [congruence | reflexivity].
Qed.

Lemma toda_imagem_contada (chaves : list string) (opcoes : Destacar.Opcoes)
    (imagens : list Arquivo) :
  forall lote,
    let fim := fold_left (Destacar.processar_imagem chaves opcoes) imagens lote in
    (Destacar.imagens_processadas fim + Destacar.imagens_com_erro fim
     = Destacar.imagens_processadas lote + Destacar.imagens_com_erro lote
       + List.length imagens)%nat.
Proof.
  induction imagens as [| arq imagens IH]; intros lote; simpl.
  - lia.
  - rewrite IH. unfold Destacar.processar_imagem. cbv zeta.
    cbn [Destacar.imagens_com_erro Destacar.imagens_processadas].
    destruct (Destacar.sucesso (Destacar.chamar chaves opcoes lote arq)); lia.
Qed.

(** C10: an image that cannot be loaded or decoded, or on which an OCR call
    fails, makes its own call return [(False, 0, False)] with the error
    logged and the destination folder untouched by the call; the driver
    counts it as an error, adds no occurrence, logs the failure and goes on
    with the images that follow; every image of the batch is counted once,
    as processed or as failed. *)
Theorem image_failure_is_isolated :
  forall (chaves : list string) (opcoes : Destacar.Opcoes)
         (antes depois : list Arquivo) (arq : Arquivo)
         (inicio : Destacar.Lote) (e : Erro),
    chaves <> [] ->
    Espec.falha_externa arq e ->
    (forall pasta ocultar numerar,
        Destacar.detectar_e_destacar_palavras arq pasta chaves ocultar numerar
        = ((false, 0%nat, false), pasta, [ErroAoProcessar (name arq) e]))
    /\ (let lote := Destacar.processar_imagens antes chaves opcoes inicio in
        let lote' := Destacar.processar_imagem chaves opcoes lote arq in
        Destacar.imagens_com_erro lote' = S (Destacar.imagens_com_erro lote)
        /\ Destacar.imagens_processadas lote' = Destacar.imagens_processadas lote
        /\ Destacar.total_palavras_destacadas lote'
           = Destacar.total_palavras_destacadas lote
        /\ In (ErroAoProcessar (name arq) e) (Destacar.log lote')
        /\ In (FalhaAoProcessar (name arq)) (Destacar.log lote')
        /\ Destacar.processar_imagens (antes ++ arq :: depois) chaves opcoes inicio
           = Destacar.processar_imagens depois chaves opcoes lote')
    /\ (let fim :=
          Destacar.processar_imagens (antes ++ arq :: depois) chaves opcoes inicio in
        (Destacar.imagens_processadas fim + Destacar.imagens_com_erro fim
         = Destacar.imagens_processadas inicio + Destacar.imagens_com_erro inicio
           + List.length (antes ++ arq :: depois))%nat).
Proof.
  intros chaves opcoes antes depois arq inicio e Hch Hf.
  pose proof (detectar_falha arq e Hf) as Hcall.
  split; [| split].
  - intros pasta ocultar numerar. apply Hcall.
  - intros lote lote'.
    assert (Hs : Destacar.sucesso (Destacar.chamar chaves opcoes lote arq) = false
                 /\ In (ErroAoProcessar (name arq) e)
                      (Destacar.erros (Destacar.chamar chaves opcoes lote arq))).
    { unfold Destacar.chamar. destruct (Destacar.modo_duplo opcoes).
      - rewrite !Hcall. simpl. split; [reflexivity | left; reflexivity].
      - rewrite Hcall. simpl. split; [reflexivity | left; reflexivity]. }
    destruct Hs as [Hs He].
    assert (Hcont :
      Destacar.processar_imagens (antes ++ arq :: depois) chaves opcoes inicio
      = Destacar.processar_imagens depois chaves opcoes lote').
    { unfold lote', lote. rewrite !processar_imagens_laco by exact Hch.
      rewrite fold_left_app. reflexivity. }
    revert Hcont. generalize
      (Destacar.processar_imagens (antes ++ arq :: depois) chaves opcoes inicio).
    intros fim Hcont.
    unfold lote', Destacar.processar_imagem in *. cbv zeta in *. rewrite Hs in *.
    cbn [Destacar.imagens_com_erro Destacar.imagens_processadas
         Destacar.total_palavras_destacadas Destacar.log].
    repeat split.
    + apply in_or_app. right. apply in_or_app. left. exact He.
    + apply in_or_app. right. apply in_or_app. right. left. reflexivity.
    + exact Hcont.
  - intros fim. unfold fim. rewrite processar_imagens_laco by exact Hch.
    apply toda_imagem_contada.
Qed.

Lemma image_failure_is_isolated_witness :
  let boa := Exemplos.arquivo "prancha.png" (Exemplos.imagem_preta 200 100)
               "Femur tibia" Exemplos.tokens_linha in
  let fim := Destacar.processar_imagens
               ([] ++ Exemplos.arquivo_corrompido "ruim.png" :: [boa])
               ["tibia"] Exemplos.opcoes_deletar Exemplos.lote_vazio in
  (Destacar.imagens_processadas fim + Destacar.imagens_com_erro fim = 2)%nat
  /\ Destacar.imagens_com_erro fim = 1%nat
  /\ exists_ (Destacar.pasta_destino fim) "prancha.png" = true.
Proof.
  intros boa fim.
  assert (Hch : ["tibia"] <> []) by discriminate.
  assert (Hf : Espec.falha_externa (Exemplos.arquivo_corrompido "ruim.png") IOError)
    by (left; reflexivity).
  destruct (image_failure_is_isolated ["tibia"] Exemplos.opcoes_deletar [] [boa]
              (Exemplos.arquivo_corrompido "ruim.png")
              Exemplos.lote_vazio IOError Hch Hf) as (_ & _ & H).
  split; [exact H |]. split; reflexivity.
Defined.

(** ** Worked examples *)

Example lower_ex : PyStr.lower "Sutura LACRIMAL" = "sutura lacrimal".
Proof. reflexivity. Qed.

Example split_ex : PyStr.split "  sutura   lacrimal " = ["sutura"; "lacrimal"].
Proof. reflexivity. Qed.

Example strip_ex : PyStr.strip "  osso nasal  " = "osso nasal".
Proof. reflexivity. Qed.

Example contem_ex :
  PyStr.contem "bia" "tibia," = true /\ PyStr.contem "x" "tibia" = false.
Proof. split; reflexivity. Qed.

Example str_ex : PyStr.str 12 = "12".
Proof. reflexivity. Qed.

(** One key word, covered and numbered: the second box is whited out,
    outlined and labelled "1"; the first box is left alone. *)
Example exemplo_tibia :
  Destacar.detectar_e_destacar_palavras
    (Exemplos.arquivo "prancha.png" (Exemplos.imagem_preta 200 100)
       "Femur tibia," Exemplos.tokens_linha)
    Exemplos.saida ["Tibia"] true true
  = ((true, 1%nat, true),
     escrever Exemplos.saida "prancha.png"
       {| Pillow.figura :=
            {| Pillow.base := Exemplos.imagem_preta 200 100;
               Pillow.chamadas :=
                 [Espec.cobertura (70, 12, 120, 32);
                  Espec.contorno (70, 12, 120, 32);
                  Pillow.text (90, 15) "1" Pillow.azul (Some Exemplos.fonte_fixa)] |};
          Pillow.quality := 95 |},
     []).
Proof. vm_compute. reflexivity. Qed.

(** A two-word phrase: one region from the first box's left edge to the
    second box's right edge. *)
Example exemplo_frase :
  Espec.regioes_da_chave (Espec.coords_de Exemplos.tokens_linha) "femur tibia"
  = [(10, 10, 120, 32)].
Proof. reflexivity. Qed.

(** A phrase of blanks only raises inside the scan and the image fails. *)
Example exemplo_so_brancos :
  fst (fst (Destacar.detectar_e_destacar_palavras
              (Exemplos.arquivo "prancha.png" (Exemplos.imagem_preta 200 100)
                 "Femur tibia," Exemplos.tokens_linha)
              Exemplos.saida [" "] true true))
  = (false, 0%nat, false).
Proof. reflexivity. Qed.

(** The covering script keeps a token of confidence 20 that the
    highlighting script drops. *)
Example exemplo_limiares :
  map (Espec.descartado 0) Exemplos.tokens_duvidosos = [false; false]
  /\ map (Espec.descartado 30) Exemplos.tokens_duvidosos = [false; true].
Proof. split; reflexivity. Qed.

(** The three metric tiers on the label "12" of a region 100 px wide and
    40 px high with its corner at the origin: centre (50, 20), glyph size
    20. *)
Example exemplo_rotulos :
  Espec.rotulo (Some Exemplos.fonte_fixa) 12 (0, 0, 100, 40)
  = Pillow.text (40, 13) "12" Pillow.azul (Some Exemplos.fonte_fixa)
  /\ Espec.rotulo (Some Exemplos.fonte_bbox) 12 (0, 0, 100, 40)
     = Pillow.text (41, 14) "12" Pillow.azul (Some Exemplos.fonte_bbox)
  /\ Espec.rotulo (Some Exemplos.fonte_muda) 12 (0, 0, 100, 40)
     = Pillow.text (38, 10) "12" Pillow.azul (Some Exemplos.fonte_muda)
  /\ Espec.rotulo None 12 (0, 0, 100, 40)
     = Pillow.text (45, 10) "12" Pillow.azul None.
Proof. repeat split. Qed.
(* ------------------------------------------------------------------ *)
(** * Further properties *)

(** ** The covering script *)

Lemma cobrir_blocos_tokens (tokens : list Espec.Token) :
  let mantidos := filter (fun t => negb (Espec.descartado 0 t)) tokens in
  for_each (Apagar.cobrir_bloco (Espec.dados_de tokens))
    (seq 0 (List.length (Dados.text (Espec.dados_de tokens)))) ([], 0%nat)
  = Ret (map (fun t => Espec.cobertura (Espec.retangulo_do_token t)) mantidos,
         List.length mantidos).
Proof.
  intros mantidos.
  replace (List.length (Dados.text (Espec.dados_de tokens)))
    with (List.length tokens) by (simpl; rewrite length_map; reflexivity).
  rewrite (for_each_indices _
             (fun st t => if Espec.descartado 0 t then st
                          else (fst st ++ [Espec.cobertura (Espec.retangulo_do_token t)],
                                S (snd st)))).
  2:{ intros done t rest st E. rewrite E. apply cobrir_bloco_token. }
  f_equal. unfold mantidos.
  assert (G : forall ts d n,
             fold_left
               (fun st t => if Espec.descartado 0 t then st
                            else (fst st ++ [Espec.cobertura (Espec.retangulo_do_token t)],
                                  S (snd st))) ts (d, n)
             = (d ++ map (fun t => Espec.cobertura (Espec.retangulo_do_token t))
                       (filter (fun t => negb (Espec.descartado 0 t)) ts),
                (n + List.length (filter (fun t => negb (Espec.descartado 0 t)) ts))%nat)).
  { induction ts as [| t ts IH]; intros d n; simpl.
    - rewrite app_nil_r, Nat.add_0_r. reflexivity.
    - destruct (Espec.descartado 0 t); simpl; rewrite IH; [reflexivity |].
      rewrite <- app_assoc. simpl. f_equal. lia. }
  rewrite G. reflexivity.
Qed.

Lemma existsb_de_map {A B : Type} (f : B -> bool) (g : A -> B) (l : list A) :
  existsb f (map g l) = existsb (fun x => f (g x)) l.
Proof.
  induction l as [| x l IH]; simpl; [reflexivity | rewrite IH; reflexivity].
Qed.

(** The image after a run of white fills. *)
Lemma revelar_coberturas (tinta : option Pillow.Fonte -> string -> Z -> Z -> bool)
    (rs : list Espec.Regiao) :
  forall (img : Pillow.Imagem) (px py : Z),
    Pillow.getpixel (Pillow.revelar tinta img (map Espec.cobertura rs)) px py
    = if Pillow.na_imagem img px py && existsb (fun r => Pillow.na_caixa r px py) rs
      then Pillow.branco else Pillow.getpixel img px py.
Proof.
  induction rs as [| r rs IH]; intros img px py.
  - simpl. rewrite andb_false_r. reflexivity.
  - change (Pillow.revelar tinta img (map Espec.cobertura (r :: rs)))
      with (Pillow.revelar tinta (Pillow.pintar tinta img (Espec.cobertura r))
              (map Espec.cobertura rs)).
    rewrite IH.
    change (Pillow.na_imagem (Pillow.pintar tinta img (Espec.cobertura r)) px py)
      with (Pillow.na_imagem img px py).
    simpl.
    destruct (Pillow.na_imagem img px py); simpl; [| reflexivity].
    destruct (Pillow.na_caixa r px py); simpl; [| reflexivity].
    destruct (existsb (fun r0 => Pillow.na_caixa r0 px py) rs); reflexivity.
Qed.

(** X1: when the image opens, the OCR output is index-aligned and the save
    succeeds, the covering script returns [(True, n)] with [n] the number of
    tokens of positive confidence and non-blank text, and hands to
    [imagem.save], with quality 95, the opened image with one white fill per
    such token, in token order: in that buffer every pixel of the image in
    the rectangle of such a token is white and every other pixel has the
    colour it had when the image was opened. *)
Theorem erase_whitens_the_kept_boxes :
  forall (arq : Arquivo) (pasta : Pasta) (img : Pillow.Imagem)
         (tokens : list Espec.Token)
         (tinta : option Pillow.Fonte -> string -> Z -> Z -> bool),
    Image_open arq = Ret img ->
    image_to_data arq = Ret (Espec.dados_de tokens) ->
    save_ok arq (caminho pasta) = true ->
    let mantidos := filter (fun t => negb (Espec.descartado 0 t)) tokens in
    let buffer :=
      {| Pillow.base := img;
         Pillow.chamadas :=
           map (fun t => Espec.cobertura (Espec.retangulo_do_token t)) mantidos |} in
    Apagar.detectar_e_cobrir_texto arq pasta
    = ((true, List.length mantidos),
       escrever pasta (name arq)
         {| Pillow.figura := buffer; Pillow.quality := 95 |},
       [])
    /\ forall px py,
         Pillow.getpixel
           (Pillow.revelar tinta (Pillow.base buffer) (Pillow.chamadas buffer)) px py
         = if Pillow.na_imagem img px py
              && existsb (fun t => Pillow.na_caixa (Espec.retangulo_do_token t) px py)
                   mantidos
           then Pillow.branco else Pillow.getpixel img px py.
Proof.
  intros arq pasta img tokens tinta Ho Hd Hs mantidos buffer. split.
  - unfold Apagar.detectar_e_cobrir_texto, Apagar.corpo.
    rewrite Ho, Hd. cbn [bind].
    rewrite (cobrir_blocos_tokens tokens). cbn [bind].
    unfold save. rewrite Hs. cbn [bind]. reflexivity.
  - intros px py. unfold buffer. cbn [Pillow.base Pillow.chamadas].
    rewrite <- (map_map Espec.retangulo_do_token Espec.cobertura).
    rewrite revelar_coberturas.
    rewrite existsb_de_map. reflexivity.
Qed.

Lemma erase_whitens_the_kept_boxes_witness :
  exists buffer,
    Apagar.detectar_e_cobrir_texto
      (Exemplos.arquivo "prancha.png" (Exemplos.imagem_preta 200 100)
         "Femur tibia" Exemplos.tokens_duvidosos) Exemplos.saida
    = ((true, 2%nat),
       escrever Exemplos.saida "prancha.png"
         {| Pillow.figura := buffer; Pillow.quality := 95 |},
       [])
    /\ Pillow.getpixel
         (Pillow.revelar Exemplos.sem_tinta (Pillow.base buffer)
            (Pillow.chamadas buffer))
         100 20 = Pillow.branco
    /\ Pillow.getpixel
         (Pillow.revelar Exemplos.sem_tinta (Pillow.base buffer)
            (Pillow.chamadas buffer))
         65 20 = Exemplos.preto.
Proof.
  destruct (erase_whitens_the_kept_boxes
              (Exemplos.arquivo "prancha.png" (Exemplos.imagem_preta 200 100)
                 "Femur tibia" Exemplos.tokens_duvidosos)
              Exemplos.saida (Exemplos.imagem_preta 200 100)
              Exemplos.tokens_duvidosos
              Exemplos.sem_tinta eq_refl eq_refl eq_refl) as [E H].
  eexists. split; [exact E |]. split; rewrite H; reflexivity.
Defined.

(** The tuple of a call depends on the folder through its path only. *)
Lemma cobrir_tupla_do_caminho (arq : Arquivo) (p1 p2 : Pasta) :
  caminho p1 = caminho p2 ->
  fst (fst (Apagar.detectar_e_cobrir_texto arq p1))
  = fst (fst (Apagar.detectar_e_cobrir_texto arq p2)).
Proof.
  intros Hc. unfold Apagar.detectar_e_cobrir_texto, Apagar.corpo.
  destruct (Image_open arq); cbn [bind]; [| reflexivity].
  destruct (image_to_data arq); cbn [bind]; [| reflexivity].
  destruct (for_each _ _ _) as [[d n] | e]; cbn [bind]; [| reflexivity].
  unfold save. rewrite Hc. destruct (save_ok arq (caminho p2)); reflexivity.
Qed.

Lemma cobrir_caminho (arq : Arquivo) (pasta : Pasta) :
  caminho (snd (fst (Apagar.detectar_e_cobrir_texto arq pasta))) = caminho pasta.
Proof.
  unfold Apagar.detectar_e_cobrir_texto.
  destruct (Apagar.corpo arq pasta) as [[n p] | e] eqn:E; [| reflexivity].
  unfold Apagar.corpo in E.
  destruct (Image_open arq); cbn [bind] in E; [| discriminate].
  destruct (image_to_data arq); cbn [bind] in E; [| discriminate].
  destruct (for_each _ _ _) as [[d k] | e]; cbn [bind] in E; [| discriminate].
  unfold save in E. destruct (save_ok arq (caminho pasta)); cbn [bind] in E;
    [| discriminate].
  inversion E; subst. reflexivity.
Qed.

Lemma cobrir_falha_sem_blocos (arq : Arquivo) (pasta : Pasta) :
  fst (fst (fst (Apagar.detectar_e_cobrir_texto arq pasta))) = false ->
  snd (fst (fst (Apagar.detectar_e_cobrir_texto arq pasta))) = 0%nat.
Proof.
  unfold Apagar.detectar_e_cobrir_texto.
  destruct (Apagar.corpo arq pasta) as [[n p] | e]; simpl; [discriminate | reflexivity].
Qed.

(** X2: the batch driver of the covering script visits every image: each
    one is counted once, as processed or as failed, and the total of covered
    blocks is the sum of the counts the images return one by one on the
    destination folder (a failed image adds none). *)
Theorem erase_batch_totals :
  forall (imagens : list Arquivo) (inicio : ApagarLote.Lote),
    let fim := ApagarLote.processar_imagens imagens inicio in
    let pasta := ApagarLote.pasta_destino inicio in
    (ApagarLote.imagens_processadas fim + ApagarLote.imagens_com_erro fim
     = ApagarLote.imagens_processadas inicio + ApagarLote.imagens_com_erro inicio
       + List.length imagens)%nat
    /\ ApagarLote.total_blocos_texto fim
       = (ApagarLote.total_blocos_texto inicio
          + list_sum (map (fun arq =>
                             snd (fst (fst (Apagar.detectar_e_cobrir_texto arq pasta))))
                        imagens))%nat
    /\ ApagarLote.imagens_com_erro fim
       = (ApagarLote.imagens_com_erro inicio
          + List.length
              (filter (fun arq =>
                         negb (fst (fst (fst (Apagar.detectar_e_cobrir_texto arq pasta)))))
                 imagens))%nat.
Proof.
  intros imagens inicio fim pasta. unfold fim, ApagarLote.processar_imagens.
  assert (Hp : caminho pasta = caminho (ApagarLote.pasta_destino inicio))
    by reflexivity.
  clearbody pasta. clear fim. revert inicio Hp.
  induction imagens as [| arq imagens IH]; intros inicio Hp; simpl.
  - repeat split; lia.
  - pose proof (cobrir_tupla_do_caminho arq pasta (ApagarLote.pasta_destino inicio) Hp)
      as Ht.
    pose proof (cobrir_falha_sem_blocos arq (ApagarLote.pasta_destino inicio)) as Hz.
    pose proof (cobrir_caminho arq (ApagarLote.pasta_destino inicio)) as Hc.
    destruct (IH (ApagarLote.processar_imagem inicio arq)) as (H1 & H2 & H3).
    { unfold ApagarLote.processar_imagem.
      destruct (Apagar.detectar_e_cobrir_texto arq (ApagarLote.pasta_destino inicio))
        as [[[ok n] p] l].
      simpl in Hc. destruct ok; simpl; congruence. }
    rewrite H1, H2, H3. clear IH H1 H2 H3.
    unfold ApagarLote.processar_imagem. rewrite Ht.
    destruct (Apagar.detectar_e_cobrir_texto arq (ApagarLote.pasta_destino inicio))
      as [[[ok n] p] l].
    simpl in Hz. simpl.
    destruct ok; simpl.
    + repeat split; lia.
    + rewrite (Hz eq_refl). repeat split; lia.
Qed.

(** ** Key phrases *)

Lemma for_each_levanta {A St : Type} (body : St -> A -> Exc St) (xs : list A)
    (x : A) :
  In x xs ->
  (forall st, exists e, body st x = Raise e) ->
  forall st, exists e, for_each body xs st = Raise e.
Proof.
  intros Hin Hx. induction xs as [| y xs IH]; [contradiction |].
  intros st. simpl. destruct Hin as [E | Hin].
  - subst y. destruct (Hx st) as [e He]. rewrite He. exists e. reflexivity.
  - destruct (body st y) as [st1 | e]; simpl.
    + apply IH. exact Hin.
    + exists e. reflexivity.
Qed.

Lemma destacar_chave_so_brancos (o n : bool) (coords : list Coord.t)
    (palavra_chave : string) :
  Espec2.so_brancos palavra_chave ->
  forall st, exists e,
    Destacar.destacar_chave o n coords st palavra_chave = Raise e.
Proof.
  intros [Hc Hs] st. unfold Destacar.destacar_chave. rewrite Hc, Hs.
  replace (List.length coords + 1 - List.length (@nil string))%nat
    with (S (List.length coords)) by (simpl; lia).
  cbn [seq for_each]. unfold Destacar.destacar_frase at 1.
  cbn [Destacar.sequencia_encontrada List.length].
  destruct (Destacar.abranger coords 0 0) as [xy | e] eqn:E.
  - exfalso. exact (abranger_sem_palavras coords 0 xy E).
  - exists e. reflexivity.
Qed.

Lemma chave_com_palavras_ou_so_brancos (palavra_chave : string) :
  Espec.chave_com_palavras palavra_chave \/ Espec2.so_brancos palavra_chave.
Proof.
  unfold Espec.chave_com_palavras, Espec2.so_brancos.
  destruct (PyStr.contem " " palavra_chave).
  - destruct (PyStr.split palavra_chave) as [| p ps].
    + right. split; reflexivity.
    + left. intros _. discriminate.
  - left. intros H. discriminate H.
Qed.

Lemma varrer_retorna_chaves (o n : bool) (coords : list Coord.t)
    (chaves : list string) (st : Destacar.Estado) :
  Destacar.varrer o n coords chaves = Ret st ->
  Forall Espec.chave_com_palavras chaves.
Proof.
  intros H. apply Forall_forall. intros p Hp.
  destruct (chave_com_palavras_ou_so_brancos p) as [Hc | Hb]; [exact Hc |].
  destruct (for_each_levanta (Destacar.destacar_chave o n coords) chaves p Hp
              (destacar_chave_so_brancos o n coords p Hb) Destacar.estado_inicial)
    as [e He].
  unfold Destacar.varrer in H. rewrite He in H. discriminate.
Qed.

(** When the scan returns: no key phrase is blanks only and every region
    can be drawn. *)
Lemma varrer_retorna_sse (o n : bool) (coords : list Coord.t)
    (chaves : list string) :
  (exists st, Destacar.varrer o n coords chaves = Ret st)
  <-> Forall Espec.chave_com_palavras chaves
      /\ Forall (fun xy => Espec.desenhavel o xy = true)
           (flat_map (Espec.regioes_da_chave coords) chaves).
Proof.
  split.
  - intros [st H]. split.
    + exact (varrer_retorna_chaves o n coords chaves st H).
    + exact (varrer_desenhavel o n coords chaves st H).
  - intros [H1 H2]. apply varrer_termina; assumption.
Qed.

Lemma desenhavel_spec (o : bool) (x_min y_min x_max y_max : Z) :
  Espec.desenhavel o (x_min, y_min, x_max, y_max) = true
  <-> x_min - 2 <= x_max + 2 /\ y_min - 2 <= y_max + 2
      /\ (o = true -> x_min <= x_max /\ y_min <= y_max).
Proof.
  unfold Espec.desenhavel, Espec.ordenado.
  destruct o; cbn [negb orb]; rewrite ?andb_true_iff, !Z.leb_le.
  - split.
    + intros [[H1 H2] [H3 H4]]. repeat split; assumption.
    + intros (H1 & H2 & H3). destruct (H3 eq_refl) as [H4 H5].
      repeat split; assumption.
  - split.
    + intros [_ [H3 H4]]. split; [exact H3 | split; [exact H4 |]].
      intros H. discriminate H.
    + intros (H1 & H2 & _). repeat split; assumption.
Qed.

(** What can be covered can be outlined alone. *)
Lemma desenhavel_sem_cobrir (o : bool) (xy : Espec.Regiao) :
  Espec.desenhavel true xy = true -> Espec.desenhavel o xy = true.
Proof.
  destruct xy as [[[a b] c] d]. rewrite !desenhavel_spec.
  intros (H1 & H2 & H3). specialize (H3 eq_refl). repeat split; tauto.
Qed.

Lemma bem_formada_desenhavel (o : bool) (xy : Espec.Regiao) :
  Espec2.bem_formada xy -> Espec.desenhavel o xy = true.
Proof.
  destruct xy as [[[a b] c] d]. unfold Espec2.bem_formada.
  rewrite desenhavel_spec. intros [H1 H2]. repeat split; lia.
Qed.

(** A scan that returns with the cover flag returns without it. *)
Lemma varrer_sem_cobrir (n n' o' : bool) (coords : list Coord.t)
    (chaves : list string) (st : Destacar.Estado) :
  Destacar.varrer true n coords chaves = Ret st ->
  exists st', Destacar.varrer o' n' coords chaves = Ret st'.
Proof.
  intros H. apply varrer_termina.
  - exact (varrer_retorna_chaves true n coords chaves st H).
  - pose proof (varrer_desenhavel true n coords chaves st H) as Hd.
    eapply Forall_impl; [| exact Hd]. intros xy. apply desenhavel_sem_cobrir.
Qed.

(** Two scans that return counted the same regions. *)
Lemma varrer_mesma_contagem (o n o' n' : bool) (coords : list Coord.t)
    (chaves : list string) (st st' : Destacar.Estado) :
  Destacar.varrer o n coords chaves = Ret st ->
  Destacar.varrer o' n' coords chaves = Ret st' ->
  Destacar.palavras_encontradas st = Destacar.palavras_encontradas st'.
Proof.
  intros H H'.
  destruct (varrer_emitiu o n coords chaves st H) as (_ & _ & C).
  destruct (varrer_emitiu o' n' coords chaves st' H') as (_ & _ & C').
  rewrite C, C'. reflexivity.
Qed.
(** ** The flags and the result *)

(** X3: two calls on the same image with the same key phrases that both
    succeed return the same tuple, whatever their flags and folders; and
    when a call with the cover flag succeeds, the call without it in the
    same folder succeeds with the same tuple. *)
Theorem successful_calls_agree :
  forall (arq : Arquivo) (chaves : list string),
    (forall (p1 p2 : Pasta) (o1 n1 o2 n2 : bool),
        let r1 := Espec2.tupla
                    (Destacar.detectar_e_destacar_palavras arq p1 chaves o1 n1) in
        let r2 := Espec2.tupla
                    (Destacar.detectar_e_destacar_palavras arq p2 chaves o2 n2) in
        fst (fst r1) = true -> fst (fst r2) = true -> r1 = r2)
    /\ (forall (pasta : Pasta) (n n' : bool),
          let coberta := Espec2.tupla
                           (Destacar.detectar_e_destacar_palavras arq pasta chaves
                              true n) in
          fst (fst coberta) = true ->
          Espec2.tupla
            (Destacar.detectar_e_destacar_palavras arq pasta chaves false n')
          = coberta).
Proof.
  intros arq chaves. split.
  - intros p1 p2 o1 n1 o2 n2. cbv zeta.
    unfold Espec2.tupla, Destacar.detectar_e_destacar_palavras, Destacar.corpo.
    destruct (Image_open arq) as [img | e]; cbn [bind fst]; [| discriminate].
    destruct (image_to_string arq) as [texto | e]; cbn [bind fst]; [| discriminate].
    destruct (image_to_data arq) as [dados | e]; cbn [bind fst]; [| discriminate].
    unfold save.
    destruct (Destacar.texto_encontrado (map PyStr.lower chaves) (PyStr.lower texto));
      cbn [negb].
    + destruct (Destacar.juntar_coordenadas dados) as [tc | e]; cbn [bind fst];
        [| discriminate].
      destruct (Destacar.varrer o1 n1 (snd tc) (map PyStr.lower chaves))
        as [s1 | e1] eqn:E1; cbn [bind fst]; [| discriminate].
      destruct (Destacar.varrer o2 n2 (snd tc) (map PyStr.lower chaves))
        as [s2 | e2] eqn:E2; cbn [bind fst]; [| discriminate].
      rewrite (varrer_mesma_contagem _ _ _ _ _ _ _ _ E1 E2).
      destruct (save_ok arq (caminho p1)); cbn [bind fst]; [| discriminate].
      destruct (save_ok arq (caminho p2)); cbn [bind fst]; [| discriminate].
      reflexivity.
    + destruct (save_ok arq (caminho p1)); cbn [bind fst]; [| discriminate].
      destruct (save_ok arq (caminho p2)); cbn [bind fst]; [| discriminate].
      reflexivity.
  - intros pasta n n'. cbv zeta.
    unfold Espec2.tupla, Destacar.detectar_e_destacar_palavras, Destacar.corpo.
    destruct (Image_open arq) as [img | e]; cbn [bind fst]; [| discriminate].
    destruct (image_to_string arq) as [texto | e]; cbn [bind fst]; [| discriminate].
    destruct (image_to_data arq) as [dados | e]; cbn [bind fst]; [| discriminate].
    unfold save.
    destruct (Destacar.texto_encontrado (map PyStr.lower chaves) (PyStr.lower texto));
      cbn [negb].
    + destruct (Destacar.juntar_coordenadas dados) as [tc | e]; cbn [bind fst];
        [| discriminate].
      destruct (Destacar.varrer true n (snd tc) (map PyStr.lower chaves))
        as [s1 | e1] eqn:E1; cbn [bind fst]; [| discriminate].
      destruct (varrer_sem_cobrir n n' false _ _ s1 E1) as [s2 E2].
      rewrite E2. cbn [bind fst].
      rewrite (varrer_mesma_contagem _ _ _ _ _ _ _ _ E2 E1).
      destruct (save_ok arq (caminho pasta)); cbn [bind fst]; intros _; reflexivity.
    + intros _. reflexivity.
Qed.

Lemma successful_calls_agree_witness :
  let arq := Exemplos.arquivo "prancha.png" (Exemplos.imagem_preta 200 100)
               "Femur tibia," Exemplos.tokens_linha in
  Espec2.tupla
    (Destacar.detectar_e_destacar_palavras arq Exemplos.saida
       ["femur tibia"; "tibia"] false false)
  = (true, 2%nat, true).
Proof.
  intros arq.
  destruct (successful_calls_agree arq ["femur tibia"; "tibia"]) as [_ H].
  rewrite (H Exemplos.saida true false); reflexivity.
Defined.

Lemma contornos_dos_tracos (o : bool) (regs : list Espec.Regiao) :
  filter Espec2.eh_contorno (flat_map (Espec.tracos o) regs)
  = map Espec.contorno regs.
Proof.
  induction regs as [| xy regs IH]; simpl; [reflexivity |].
  rewrite filter_app, IH. destruct xy as [[[a b] c] d].
  destruct o; reflexivity.
Qed.

Lemma rotulos_sem_contorno (fonte : option Pillow.Fonte)
    (l : list (nat * Espec.Regiao)) :
  filter Espec2.eh_contorno
    (map (fun p => Espec.rotulo fonte (fst p) (snd p)) l) = [].
Proof.
  induction l as [| p l IH]; simpl; [reflexivity |].
  unfold Espec.rotulo at 1. destruct fonte; simpl; exact IH.
Qed.

Lemma contornos_do_desenho (o n : bool) (fonte : option Pillow.Fonte)
    (coords : list Coord.t) (chaves : list string) (st : Destacar.Estado) :
  Destacar.varrer o n coords chaves = Ret st ->
  filter Espec2.eh_contorno (Destacar.numerar_destaques n fonte st)
  = map Espec.contorno (flat_map (Espec.regioes_da_chave coords) chaves).
Proof.
  intros H. rewrite (desenho_final o n fonte coords chaves st H).
  rewrite filter_app, contornos_dos_tracos.
  destruct (o && n); [rewrite rotulos_sem_contorno |]; apply app_nil_r.
Qed.

(** X4: two scans of the same boxes and key phrases that both return,
    under whatever flags, leave the same outlines in the same order, one per
    emitted region; and a scan that returns with the cover flag returns
    without it: when the exam sheet of the double mode is drawn, the answer
    key is drawn too and marks the same places. *)
Theorem outlines_ignore_flags :
  forall (o n o' n' : bool) (fonte fonte' : option Pillow.Fonte)
         (coords : list Coord.t) (chaves : list string)
         (st st' : Destacar.Estado),
    Destacar.varrer o n coords chaves = Ret st ->
    Destacar.varrer o' n' coords chaves = Ret st' ->
    filter Espec2.eh_contorno (Destacar.numerar_destaques n' fonte' st')
    = filter Espec2.eh_contorno (Destacar.numerar_destaques n fonte st)
    /\ filter Espec2.eh_contorno (Destacar.numerar_destaques n fonte st)
       = map Espec.contorno (flat_map (Espec.regioes_da_chave coords) chaves)
    /\ List.length
         (filter Espec2.eh_contorno (Destacar.numerar_destaques n fonte st))
       = Destacar.palavras_encontradas st
    /\ (o = true ->
        forall numerar,
        exists gabarito, Destacar.varrer false numerar coords chaves = Ret gabarito).
Proof.
  intros o n o' n' fonte fonte' coords chaves st st' H H'.
  rewrite (contornos_do_desenho o' n' fonte' coords chaves st' H').
  rewrite (contornos_do_desenho o n fonte coords chaves st H).
  split; [reflexivity | split; [reflexivity | split]].
  - rewrite length_map.
    destruct (varrer_emitiu o n coords chaves st H) as (_ & _ & Hc).
    simpl in Hc. symmetry. exact Hc.
  - intros -> numerar. exact (varrer_sem_cobrir n numerar false coords chaves st H).
Qed.

Lemma outlines_ignore_flags_witness :
  exists st st',
    Destacar.varrer false false (Espec.coords_de Exemplos.tokens_linha)
      ["femur tibia"; "tibia"] = Ret st
    /\ Destacar.varrer true true (Espec.coords_de Exemplos.tokens_linha)
         ["femur tibia"; "tibia"] = Ret st'
    /\ filter Espec2.eh_contorno
         (Destacar.numerar_destaques true (Some Exemplos.fonte_fixa) st')
       = filter Espec2.eh_contorno (Destacar.numerar_destaques false None st).
Proof.
  destruct (varredura_da_linha false false) as [st E].
  destruct (varredura_da_linha true true) as [st' E'].
  destruct (outlines_ignore_flags false false true true None
              (Some Exemplos.fonte_fixa) _ _ st st' E E') as [H _].
  exists st, st'. split; [exact E |]. split; [exact E' | exact H].
Defined.

(** The image after a run of outlines. *)
Lemma revelar_contornos (tinta : option Pillow.Fonte -> string -> Z -> Z -> bool)
    (rs : list Espec.Regiao) :
  forall (img : Pillow.Imagem) (px py : Z),
    Pillow.getpixel (Pillow.revelar tinta img (map Espec.contorno rs)) px py
    = if Pillow.na_imagem img px py
         && existsb (fun r => Pillow.na_borda (Espec2.alargada r) 3 px py) rs
      then Pillow.vermelho else Pillow.getpixel img px py.
Proof.
  induction rs as [| r rs IH]; intros img px py.
  - simpl. rewrite andb_false_r. reflexivity.
  - destruct r as [[[a b] c] d].
    change (Pillow.revelar tinta img (map Espec.contorno ((a, b, c, d) :: rs)))
      with (Pillow.revelar tinta
              (Pillow.pintar tinta img (Espec.contorno (a, b, c, d)))
              (map Espec.contorno rs)).
    rewrite IH.
    change (Pillow.na_imagem
              (Pillow.pintar tinta img (Espec.contorno (a, b, c, d))) px py)
      with (Pillow.na_imagem img px py).
    change (Pillow.getpixel
              (Pillow.pintar tinta img (Espec.contorno (a, b, c, d))) px py)
      with (if Pillow.na_imagem img px py
               && Pillow.na_borda (a - 2, b - 2, c + 2, d + 2) 3 px py
            then Pillow.vermelho else Pillow.getpixel img px py).
    cbn [existsb Espec2.alargada].
    destruct (Pillow.na_imagem img px py);
      destruct (Pillow.na_borda (a - 2, b - 2, c + 2, d + 2) 3 px py);
      destruct (existsb _ rs); reflexivity.
Qed.

Lemma tracos_sem_cobrir (regs : list Espec.Regiao) :
  flat_map (Espec.tracos false) regs = map Espec.contorno regs.
Proof.
  induction regs as [| r rs IH]; simpl; [reflexivity |].
  rewrite IH. reflexivity.
Qed.

(** X5: a call without the cover flag, on an image that opens, with both
    OCR calls answering, a key phrase in the full text, no key phrase of
    blanks only, every region with its corners in order, and the save
    succeeding, hands to [imagem.save] a buffer that differs from the opened
    image on the outline bands only: a pixel of the image on the 3 px band
    of some region's box, taken 2 px outward, is red, and every other pixel
    has the colour it had when the image was opened; nothing is whitened and
    no label is drawn. *)
Theorem outline_only_changes_bands :
  forall (arq : Arquivo) (pasta : Pasta) (chaves : list string) (n : bool)
         (img : Pillow.Imagem) (texto : string) (tokens : list Espec.Token)
         (tinta : option Pillow.Fonte -> string -> Z -> Z -> bool),
    Image_open arq = Ret img ->
    image_to_string arq = Ret texto ->
    image_to_data arq = Ret (Espec.dados_de tokens) ->
    save_ok arq (caminho pasta) = true ->
    Destacar.texto_encontrado (map PyStr.lower chaves) (PyStr.lower texto) = true ->
    Forall Espec.chave_com_palavras (map PyStr.lower chaves) ->
    let regs :=
      flat_map (Espec.regioes_da_chave (Espec.coords_de tokens))
        (map PyStr.lower chaves) in
    Forall Espec2.bem_formada regs ->
    let buffer :=
      {| Pillow.base := img; Pillow.chamadas := map Espec.contorno regs |} in
    Destacar.detectar_e_destacar_palavras arq pasta chaves false n
    = ((true, List.length regs, true),
       escrever pasta (name arq)
         {| Pillow.figura := buffer; Pillow.quality := 95 |},
       [])
    /\ forall px py,
         Pillow.getpixel
           (Pillow.revelar tinta (Pillow.base buffer) (Pillow.chamadas buffer)) px py
         = if Pillow.na_imagem img px py
              && existsb (fun r => Pillow.na_borda (Espec2.alargada r) 3 px py) regs
           then Pillow.vermelho else Pillow.getpixel img px py.
Proof.
  intros arq pasta chaves n img texto tokens tinta Ho Hs Hd Hsave Hg Hch regs Hb
         buffer.
  split.
  - destruct (varrer_termina false n (Espec.coords_de tokens)
                (map PyStr.lower chaves) Hch) as [st Hst].
    { eapply Forall_impl; [| exact Hb]. intros xy. apply bem_formada_desenhavel. }
    rewrite (detectar_apos_portao arq pasta chaves false n img texto tokens st
               Ho Hs Hd Hsave Hg Hst).
    rewrite (desenho_final false n (carregar_fonte arq) _ _ st Hst).
    fold regs. cbn [andb]. rewrite app_nil_r.
    destruct (varrer_emitiu false n _ _ st Hst) as (_ & _ & Hc).
    fold regs in Hc. simpl in Hc. rewrite Hc.
    unfold buffer. rewrite tracos_sem_cobrir. reflexivity.
  - intros px py. unfold buffer. cbn [Pillow.base Pillow.chamadas].
    apply revelar_contornos.
Qed.

Lemma outline_only_changes_bands_witness :
  let arq := Exemplos.arquivo "prancha.png" (Exemplos.imagem_preta 200 100)
               "Femur tibia," Exemplos.tokens_linha in
  let buffer :=
    {| Pillow.base := Exemplos.imagem_preta 200 100;
       Pillow.chamadas := [Espec.contorno (70, 12, 120, 32)] |} in
  Destacar.detectar_e_destacar_palavras arq Exemplos.saida ["tibia"] false false
  = ((true, 1%nat, true),
     escrever Exemplos.saida "prancha.png"
       {| Pillow.figura := buffer; Pillow.quality := 95 |},
     [])
  /\ Pillow.getpixel
       (Pillow.revelar Exemplos.sem_tinta (Pillow.base buffer)
          (Pillow.chamadas buffer)) 69 20 = Pillow.vermelho
  /\ Pillow.getpixel
       (Pillow.revelar Exemplos.sem_tinta (Pillow.base buffer)
          (Pillow.chamadas buffer)) 100 20 = Exemplos.preto.
Proof.
  intros arq buffer.
  destruct (outline_only_changes_bands arq Exemplos.saida ["tibia"] false
              (Exemplos.imagem_preta 200 100) "Femur tibia," Exemplos.tokens_linha
              Exemplos.sem_tinta eq_refl eq_refl eq_refl eq_refl eq_refl)
    as [E H].
  - repeat constructor; intros Hc; discriminate Hc.
  - repeat constructor; simpl; lia.
  - split; [exact E |]. split; [exact (H 69 20) | exact (H 100 20)].
Defined.

(** ** Outcomes of one call *)

(** X6: a call ends in one of three ways.  It fails: [(False, 0, False)],
    the destination folder as it was and one error record.  Or no key phrase
    is in the full text: [(True, 0, False)] and the opened image saved with
    nothing drawn on it.  Or [(True, k, True)] with the image saved.  So a
    failed call never reports occurrences, and occurrences are never
    reported without the found flag. *)
Theorem call_has_three_outcomes :
  forall (arq : Arquivo) (pasta : Pasta) (chaves : list string) (o n : bool),
    let r := Destacar.detectar_e_destacar_palavras arq pasta chaves o n in
    (exists e, r = ((false, 0%nat, false), pasta, [ErroAoProcessar (name arq) e]))
    \/ (exists img,
           Image_open arq = Ret img
           /\ r = ((true, 0%nat, false),
                   escrever pasta (name arq)
                     {| Pillow.figura :=
                          {| Pillow.base := img; Pillow.chamadas := [] |};
                        Pillow.quality := 95 |},
                   []))
    \/ (exists k fig,
           r = ((true, k, true),
                escrever pasta (name arq)
                  {| Pillow.figura := fig; Pillow.quality := 95 |},
                [])).
Proof.
  intros arq pasta chaves o n r. unfold r, Destacar.detectar_e_destacar_palavras.
  destruct (corpo_casos arq pasta chaves o n)
    as [[e H] | [(img & t & Hi & _ & _ & H) | (t & k & fig & _ & _ & H)]];
    rewrite H.
  - left. exists e. reflexivity.
  - right. left. exists img. split; [exact Hi | reflexivity].
  - right. right. exists k, fig. reflexivity.
Qed.

(** X7: a key phrase that has a blank and no word (blanks only) makes the
    call fail once the gate is passed: the scan raises on it, the call
    returns [(False, 0, False)], logs the error and saves nothing, whatever
    the other key phrases and the boxes are. *)
Theorem blank_key_phrase_fails_the_image :
  forall (arq : Arquivo) (pasta : Pasta) (chaves : list string) (o n : bool)
         (img : Pillow.Imagem) (texto : string) (dados : Dados.t)
         (chave : string),
    Image_open arq = Ret img ->
    image_to_string arq = Ret texto ->
    image_to_data arq = Ret dados ->
    Destacar.texto_encontrado (map PyStr.lower chaves) (PyStr.lower texto) = true ->
    In chave chaves ->
    Espec2.so_brancos (PyStr.lower chave) ->
    exists e,
      Destacar.detectar_e_destacar_palavras arq pasta chaves o n
      = ((false, 0%nat, false), pasta, [ErroAoProcessar (name arq) e]).
Proof.
  intros arq pasta chaves o n img texto dados chave Ho Hs Hd Hg Hin Hb.
  unfold Destacar.detectar_e_destacar_palavras, Destacar.corpo.
  rewrite Ho, Hs, Hd. cbn [bind]. rewrite Hg. cbn [negb].
  destruct (Destacar.juntar_coordenadas dados) as [tc | e]; cbn [bind].
  - destruct (for_each_levanta (Destacar.destacar_chave o n (snd tc))
                (map PyStr.lower chaves) (PyStr.lower chave)
                (in_map PyStr.lower chaves chave Hin)
                (destacar_chave_so_brancos o n (snd tc) (PyStr.lower chave) Hb)
                Destacar.estado_inicial) as [e He].
    unfold Destacar.varrer. rewrite He. cbn [bind]. exists e. reflexivity.
  - exists e. reflexivity.
Qed.

Lemma blank_key_phrase_fails_the_image_witness :
  exists e,
    Destacar.detectar_e_destacar_palavras
      (Exemplos.arquivo "prancha.png" (Exemplos.imagem_preta 200 100)
         "Femur tibia" Exemplos.tokens_linha)
      Exemplos.saida ["tibia"; " "] true true
    = ((false, 0%nat, false), Exemplos.saida, [ErroAoProcessar "prancha.png" e]).
Proof.
  apply (blank_key_phrase_fails_the_image
           (Exemplos.arquivo "prancha.png" (Exemplos.imagem_preta 200 100)
              "Femur tibia" Exemplos.tokens_linha)
           Exemplos.saida ["tibia"; " "] true true (Exemplos.imagem_preta 200 100)
           "Femur tibia" (Espec.dados_de Exemplos.tokens_linha) " ").
  - reflexivity.
  - reflexivity.
  - reflexivity.
  - reflexivity.
  - right. left. reflexivity.
  - split; reflexivity.
Defined.

Lemma lower_char_idempotente (c : ascii) :
  PyStr.lower_char (PyStr.lower_char c) = PyStr.lower_char c.
Proof.
  destruct c as [[] [] [] [] [] [] [] []]; reflexivity.
Qed.

Lemma lower_idempotente (s : string) : PyStr.lower (PyStr.lower s) = PyStr.lower s.
Proof.
  induction s as [| c s IH]; simpl; [reflexivity |].
  rewrite lower_char_idempotente, IH. reflexivity.
Qed.

(** X8: key phrases are taken without regard to case: lower-casing every
    key phrase before the call changes neither the tuple, nor the saved
    image, nor the log. *)
Theorem key_phrases_ignore_case :
  forall (arq : Arquivo) (pasta : Pasta) (chaves : list string) (o n : bool),
    Destacar.detectar_e_destacar_palavras arq pasta (map PyStr.lower chaves) o n
    = Destacar.detectar_e_destacar_palavras arq pasta chaves o n.
Proof.
  intros arq pasta chaves o n.
  unfold Destacar.detectar_e_destacar_palavras, Destacar.corpo.
  rewrite map_map.
  rewrite (map_ext (fun x => PyStr.lower (PyStr.lower x)) PyStr.lower
             lower_idempotente).
  reflexivity.
Qed.
(** ** The highlighting driver *)

Lemma exists_unlink (pasta : Pasta) (nome : string) :
  exists_ (unlink pasta nome) nome = false.
Proof.
  unfold exists_, unlink. cbn [arquivos].
  induction (arquivos pasta) as [| [k v] l IH]; simpl.
  - reflexivity.
  - destruct (String.eqb k nome) eqn:E; simpl; [exact IH |].
    rewrite E. exact IH.
Qed.

Lemma exists_unlink_se_existe (pasta : Pasta) (nome : string) :
  exists_ (Destacar.unlink_se_existe pasta nome) nome = false.
Proof.
  unfold Destacar.unlink_se_existe.
  destruct (exists_ pasta nome) eqn:E; [apply exists_unlink | exact E].
Qed.

Lemma caminho_unlink_se_existe (pasta : Pasta) (nome : string) :
  caminho (Destacar.unlink_se_existe pasta nome) = caminho pasta.
Proof.
  unfold Destacar.unlink_se_existe. destruct (exists_ pasta nome); reflexivity.
Qed.

(** What a call leaves in its folder, by the found flag it returns. *)
Lemma detectar_pasta (arq : Arquivo) (pasta : Pasta) (chaves : list string)
    (o n : bool) :
  let r := Destacar.detectar_e_destacar_palavras arq pasta chaves o n in
  (snd (Espec2.tupla r) = true -> exists_ (snd (fst r)) (name arq) = true)
  /\ (fst (fst (Espec2.tupla r)) = false ->
      snd (fst (Espec2.tupla r)) = 0%nat /\ snd (Espec2.tupla r) = false
      /\ snd (fst r) = pasta)
  /\ (fst (fst (Espec2.tupla r)) = true -> exists_ (snd (fst r)) (name arq) = true)
  /\ caminho (snd (fst r)) = caminho pasta.
Proof.
  intros r. unfold r, Destacar.detectar_e_destacar_palavras, Espec2.tupla.
  destruct (corpo_casos arq pasta chaves o n)
    as [[e H] | [(img & t & _ & _ & _ & H) | (t & k & fig & _ & _ & H)]];
    rewrite H; cbn [fst snd].
  - repeat split; try discriminate; auto.
  - rewrite exists_escrever. repeat split; try discriminate; auto.
  - rewrite exists_escrever. repeat split; try discriminate; auto.
Qed.

(** X9: under the delete option, after an image is processed in the normal
    mode its file is in the destination folder exactly when a key phrase was
    found in it: an image without key phrase, or one that failed, leaves no
    file of its name behind.  In the double mode this holds of the answer
    key folder; the exam folder holds no file of that name when no key
    phrase was found, and holds one when both calls succeeded and a key
    phrase was found. *)
Theorem delete_option_keeps_exactly_the_matches :
  forall (chaves : list string) (opcoes : Destacar.Opcoes)
         (lote : Destacar.Lote) (arq : Arquivo),
    Destacar.deletar_sem_destaque opcoes = true ->
    let passo := Destacar.chamar chaves opcoes lote arq in
    let encontrou := Destacar.encontrou_palavras passo in
    let lote' := Destacar.processar_imagem chaves opcoes lote arq in
    if Destacar.modo_duplo opcoes
    then exists_ (Destacar.pasta_gabarito lote') (name arq) = encontrou
         /\ (encontrou = false ->
             exists_ (Destacar.pasta_prova lote') (name arq) = false)
         /\ (Destacar.sucesso passo = true ->
             exists_ (Destacar.pasta_prova lote') (name arq) = encontrou)
    else exists_ (Destacar.pasta_destino lote') (name arq) = encontrou.
Proof.
  intros chaves opcoes lote arq Hdel passo encontrou lote'.
  unfold encontrou, passo, lote', Destacar.processar_imagem. cbv zeta.
  cbn [Destacar.pasta_gabarito Destacar.pasta_prova Destacar.pasta_destino].
  unfold Destacar.chamar. rewrite Hdel.
  destruct (Destacar.modo_duplo opcoes).
  - destruct (detectar_pasta arq (Destacar.pasta_gabarito lote) chaves false false)
      as (G1 & _ & _ & _).
    destruct (detectar_pasta arq (Destacar.pasta_prova lote) chaves true
                (Destacar.numerar_palavras opcoes)) as (_ & _ & P1 & _).
    destruct (Destacar.detectar_e_destacar_palavras arq (Destacar.pasta_gabarito lote)
                chaves false false) as [[[[sg kg] fg] pg] lg].
    destruct (Destacar.detectar_e_destacar_palavras arq (Destacar.pasta_prova lote)
                chaves true (Destacar.numerar_palavras opcoes))
      as [[[[sp kp] fp] pp] lp].
    unfold Espec2.tupla in *. cbn [fst snd] in G1, P1.
    cbn [Destacar.gabarito Destacar.prova Destacar.encontrou_palavras
         Destacar.sucesso andb].
    destruct fg; cbn [negb].
    + split; [apply G1; reflexivity |]. split; [discriminate |].
      intros Hs. apply andb_prop in Hs. destruct Hs as [_ Hs].
      apply P1. exact Hs.
    + split; [apply exists_unlink_se_existe |].
      split; intros _; apply exists_unlink_se_existe.
  - destruct (detectar_pasta arq (Destacar.pasta_destino lote) chaves
                (Destacar.ocultar_palavras opcoes)
                (Destacar.ocultar_palavras opcoes && Destacar.numerar_palavras opcoes))
      as (D1 & _ & _ & _).
    destruct (Destacar.detectar_e_destacar_palavras arq (Destacar.pasta_destino lote)
                chaves (Destacar.ocultar_palavras opcoes)
                (Destacar.ocultar_palavras opcoes && Destacar.numerar_palavras opcoes))
      as [[[[sd kd] fd] pd] ld].
    unfold Espec2.tupla in *. cbn [fst snd] in D1.
    cbn [Destacar.destino Destacar.encontrou_palavras].
    destruct fd; cbn [negb andb].
    + apply D1. reflexivity.
    + destruct (exists_ pd (name arq)) eqn:E; [apply exists_unlink | exact E].
Qed.

Lemma delete_option_keeps_exactly_the_matches_witness :
  let sem := Exemplos.arquivo "sem.png" (Exemplos.imagem_preta 200 100)
               "Femur" Exemplos.tokens_linha in
  let com := Exemplos.arquivo "com.png" (Exemplos.imagem_preta 200 100)
               "Femur tibia" Exemplos.tokens_linha in
  let lote1 := Destacar.processar_imagem ["tibia"] Exemplos.opcoes_deletar
                 Exemplos.lote_vazio sem in
  let lote2 := Destacar.processar_imagem ["tibia"] Exemplos.opcoes_deletar lote1 com in
  exists_ (Destacar.pasta_destino lote1) "sem.png" = false
  /\ exists_ (Destacar.pasta_destino lote2) "com.png" = true.
Proof.
  intros sem com lote1 lote2. split.
  - exact (delete_option_keeps_exactly_the_matches ["tibia"] Exemplos.opcoes_deletar
             Exemplos.lote_vazio sem eq_refl).
  - exact (delete_option_keeps_exactly_the_matches ["tibia"] Exemplos.opcoes_deletar
             lote1 com eq_refl).
Defined.

(** The tuple of a call depends on the folder through its path only. *)
Lemma tupla_do_caminho (arq : Arquivo) (p1 p2 : Pasta) (chaves : list string)
    (o n : bool) :
  caminho p1 = caminho p2 ->
  Espec2.tupla (Destacar.detectar_e_destacar_palavras arq p1 chaves o n)
  = Espec2.tupla (Destacar.detectar_e_destacar_palavras arq p2 chaves o n).
Proof.
  intros Hc.
  unfold Espec2.tupla, Destacar.detectar_e_destacar_palavras, Destacar.corpo.
  destruct (Image_open arq) as [img | e]; cbn [bind]; [| reflexivity].
  destruct (image_to_string arq) as [texto | e]; cbn [bind]; [| reflexivity].
  destruct (image_to_data arq) as [dados | e]; cbn [bind]; [| reflexivity].
  unfold save. rewrite Hc.
  destruct (Destacar.texto_encontrado (map PyStr.lower chaves) (PyStr.lower texto));
    cbn [negb].
  - destruct (Destacar.juntar_coordenadas dados) as [tc | e]; cbn [bind];
      [| reflexivity].
    destruct (Destacar.varrer o n (snd tc) (map PyStr.lower chaves)) as [st | e];
      cbn [bind]; [| reflexivity].
    destruct (save_ok arq (caminho p2)); reflexivity.
  - destruct (save_ok arq (caminho p2)); reflexivity.
Qed.

(** What the driver records for an image depends on the state of the batch
    through the paths of its folders only. *)
Lemma chamar_dos_caminhos (chaves : list string) (opcoes : Destacar.Opcoes)
    (l1 l2 : Destacar.Lote) (arq : Arquivo) :
  Espec2.mesmos_caminhos l1 l2 ->
  let p1 := Destacar.chamar chaves opcoes l1 arq in
  let p2 := Destacar.chamar chaves opcoes l2 arq in
  Destacar.sucesso p1 = Destacar.sucesso p2
  /\ Destacar.palavras_destacadas p1 = Destacar.palavras_destacadas p2
  /\ Destacar.encontrou_palavras p1 = Destacar.encontrou_palavras p2.
Proof.
  intros (Hd & Hg & Hp). cbv zeta. unfold Destacar.chamar.
  destruct (Destacar.modo_duplo opcoes).
  - pose proof (tupla_do_caminho arq _ _ chaves false false Hg) as Tg.
    pose proof (tupla_do_caminho arq _ _ chaves true
                  (Destacar.numerar_palavras opcoes) Hp) as Tp.
    destruct (Destacar.detectar_e_destacar_palavras arq (Destacar.pasta_gabarito l1)
                chaves false false) as [[[[sg1 kg1] fg1] pg1] lg1].
    destruct (Destacar.detectar_e_destacar_palavras arq (Destacar.pasta_gabarito l2)
                chaves false false) as [[[[sg2 kg2] fg2] pg2] lg2].
    destruct (Destacar.detectar_e_destacar_palavras arq (Destacar.pasta_prova l1)
                chaves true (Destacar.numerar_palavras opcoes))
      as [[[[sp1 kp1] fp1] pp1] lp1].
    destruct (Destacar.detectar_e_destacar_palavras arq (Destacar.pasta_prova l2)
                chaves true (Destacar.numerar_palavras opcoes))
      as [[[[sp2 kp2] fp2] pp2] lp2].
    unfold Espec2.tupla in Tg, Tp. cbn [fst] in Tg, Tp.
    inversion Tg; inversion Tp; subst. repeat split.
  - pose proof (tupla_do_caminho arq _ _ chaves (Destacar.ocultar_palavras opcoes)
                  (Destacar.ocultar_palavras opcoes && Destacar.numerar_palavras opcoes)
                  Hd) as Td.
    destruct (Destacar.detectar_e_destacar_palavras arq (Destacar.pasta_destino l1)
                chaves (Destacar.ocultar_palavras opcoes)
                (Destacar.ocultar_palavras opcoes && Destacar.numerar_palavras opcoes))
      as [[[[sd1 kd1] fd1] pd1] ld1].
    destruct (Destacar.detectar_e_destacar_palavras arq (Destacar.pasta_destino l2)
                chaves (Destacar.ocultar_palavras opcoes)
                (Destacar.ocultar_palavras opcoes && Destacar.numerar_palavras opcoes))
      as [[[[sd2 kd2] fd2] pd2] ld2].
    unfold Espec2.tupla in Td. cbn [fst] in Td.
    inversion Td; subst. repeat split.
Qed.

(** Processing an image leaves the three folders where they are. *)
Lemma processar_imagem_caminhos (chaves : list string) (opcoes : Destacar.Opcoes)
    (lote : Destacar.Lote) (arq : Arquivo) :
  Espec2.mesmos_caminhos lote (Destacar.processar_imagem chaves opcoes lote arq).
Proof.
  unfold Espec2.mesmos_caminhos, Destacar.processar_imagem. cbv zeta.
  cbn [Destacar.pasta_gabarito Destacar.pasta_prova Destacar.pasta_destino].
  unfold Destacar.chamar.
  destruct (Destacar.modo_duplo opcoes).
  - destruct (detectar_pasta arq (Destacar.pasta_gabarito lote) chaves false false)
      as (_ & _ & _ & G).
    destruct (detectar_pasta arq (Destacar.pasta_prova lote) chaves true
                (Destacar.numerar_palavras opcoes)) as (_ & _ & _ & P).
    destruct (Destacar.detectar_e_destacar_palavras arq (Destacar.pasta_gabarito lote)
                chaves false false) as [[[[sg kg] fg] pg] lg].
    destruct (Destacar.detectar_e_destacar_palavras arq (Destacar.pasta_prova lote)
                chaves true (Destacar.numerar_palavras opcoes))
      as [[[[sp kp] fp] pp] lp].
    cbn [fst snd] in G, P.
    cbn [Destacar.destino Destacar.gabarito Destacar.prova].
    destruct (Destacar.deletar_sem_destaque opcoes && negb fg);
      rewrite ?caminho_unlink_se_existe; repeat split; congruence.
  - destruct (detectar_pasta arq (Destacar.pasta_destino lote) chaves
                (Destacar.ocultar_palavras opcoes)
                (Destacar.ocultar_palavras opcoes && Destacar.numerar_palavras opcoes))
      as (_ & _ & _ & D).
    destruct (Destacar.detectar_e_destacar_palavras arq (Destacar.pasta_destino lote)
                chaves (Destacar.ocultar_palavras opcoes)
                (Destacar.ocultar_palavras opcoes && Destacar.numerar_palavras opcoes))
      as [[[[sd kd] fd] pd] ld].
    cbn [fst snd] in D.
    cbn [Destacar.destino Destacar.gabarito Destacar.prova].
    destruct (negb fd && Destacar.deletar_sem_destaque opcoes && exists_ pd (name arq));
      repeat split; try reflexivity; cbn [caminho unlink]; congruence.
Qed.

(** X10: the driver's totals are sums over the images of what the driver
    records for each image on the folders as they stood at the start (the
    tuple of the call, or in the double mode the answer key's count and
    found flag with the success of both calls): the images do not influence
    one another.  The occurrences add up over the images recorded as
    successful, the processed images are those, the failed ones the others,
    and the images without key phrase are the successful ones whose found
    flag is off. *)
Theorem highlight_batch_totals :
  forall (imagens : list Arquivo) (chaves : list string)
         (opcoes : Destacar.Opcoes) (inicio : Destacar.Lote),
    chaves <> [] ->
    let passo arq := Destacar.chamar chaves opcoes inicio arq in
    let fim := Destacar.processar_imagens imagens chaves opcoes inicio in
    Destacar.total_palavras_destacadas fim
    = (Destacar.total_palavras_destacadas inicio
       + list_sum (map (fun arq =>
                          if Destacar.sucesso (passo arq)
                          then Destacar.palavras_destacadas (passo arq)
                          else 0%nat) imagens))%nat
    /\ Destacar.imagens_processadas fim
       = (Destacar.imagens_processadas inicio
          + List.length (filter (fun arq => Destacar.sucesso (passo arq)) imagens))%nat
    /\ Destacar.imagens_com_erro fim
       = (Destacar.imagens_com_erro inicio
          + List.length
              (filter (fun arq => negb (Destacar.sucesso (passo arq))) imagens))%nat
    /\ Destacar.imagens_sem_palavras fim
       = (Destacar.imagens_sem_palavras inicio
          + List.length
              (filter (fun arq => Destacar.sucesso (passo arq)
                                  && negb (Destacar.encontrou_palavras (passo arq)))
                 imagens))%nat.
Proof.
  intros imagens chaves opcoes inicio Hch passo fim.
  unfold fim. rewrite processar_imagens_laco by exact Hch. clear fim.
  assert (G : forall lote,
             Espec2.mesmos_caminhos inicio lote ->
             let fim := fold_left (Destacar.processar_imagem chaves opcoes)
                          imagens lote in
             Destacar.total_palavras_destacadas fim
             = (Destacar.total_palavras_destacadas lote
                + list_sum (map (fun arq =>
                                   if Destacar.sucesso (passo arq)
                                   then Destacar.palavras_destacadas (passo arq)
                                   else 0%nat) imagens))%nat
             /\ Destacar.imagens_processadas fim
                = (Destacar.imagens_processadas lote
                   + List.length
                       (filter (fun arq => Destacar.sucesso (passo arq)) imagens))%nat
             /\ Destacar.imagens_com_erro fim
                = (Destacar.imagens_com_erro lote
                   + List.length
                       (filter (fun arq => negb (Destacar.sucesso (passo arq)))
                          imagens))%nat
             /\ Destacar.imagens_sem_palavras fim
                = (Destacar.imagens_sem_palavras lote
                   + List.length
                       (filter (fun arq =>
                                  Destacar.sucesso (passo arq)
                                  && negb (Destacar.encontrou_palavras (passo arq)))
                          imagens))%nat).
  { induction imagens as [| arq imagens IH]; intros lote Hm; cbv zeta.
    - simpl. repeat split; lia.
    - cbn [fold_left map filter list_sum].
      destruct (IH (Destacar.processar_imagem chaves opcoes lote arq))
        as (H1 & H2 & H3 & H4).
      { destruct Hm as (A & B & C).
        destruct (processar_imagem_caminhos chaves opcoes lote arq) as (A' & B' & C').
        repeat split; congruence. }
      rewrite H1, H2, H3, H4. clear IH H1 H2 H3 H4.
      destruct (chamar_dos_caminhos chaves opcoes inicio lote arq Hm)
        as (Es & Ep & Ee).
      fold (passo arq) in Es, Ep, Ee.
      unfold Destacar.processar_imagem. cbv zeta.
      cbn [Destacar.total_palavras_destacadas Destacar.imagens_processadas
           Destacar.imagens_sem_palavras Destacar.imagens_com_erro].
      rewrite <- Es, <- Ep, <- Ee.
      destruct (Destacar.sucesso (passo arq)); cbn [negb andb];
        [destruct (Destacar.encontrou_palavras (passo arq)); cbn [negb] |];
        unfold list_sum; cbn [List.length fold_right]; repeat split; lia. }
  apply G. repeat split.
Qed.

Lemma highlight_batch_totals_witness :
  let boa := Exemplos.arquivo "prancha.png" (Exemplos.imagem_preta 200 100)
               "Femur tibia" Exemplos.tokens_linha in
  let fim := Destacar.processar_imagens
               [boa; Exemplos.arquivo_corrompido "ruim.png"; boa]
               ["femur"; "tibia"] Exemplos.opcoes_deletar Exemplos.lote_vazio in
  Destacar.total_palavras_destacadas fim = 4%nat
  /\ Destacar.imagens_processadas fim = 2%nat
  /\ Destacar.imagens_com_erro fim = 1%nat.
Proof.
  intros boa fim.
  assert (Hch : ["femur"; "tibia"] <> []) by discriminate.
  destruct (highlight_batch_totals
              [boa; Exemplos.arquivo_corrompido "ruim.png"; boa]
              ["femur"; "tibia"] Exemplos.opcoes_deletar
              Exemplos.lote_vazio Hch) as (H1 & H2 & H3 & _).
  split; [exact H1 | split; [exact H2 | exact H3]].
Defined.

(** ** The prompts *)

Lemma isspace_lower_char (c : ascii) :
  PyStr.isspace (PyStr.lower_char c) = PyStr.isspace c.
Proof.
  destruct c as [[] [] [] [] [] [] [] []]; reflexivity.
Qed.

Lemma lstrip_primeiro (s : string) (c : ascii) (r : string) :
  PyStr.lstrip s = String c r -> PyStr.isspace c = false.
Proof.
  induction s as [| d s IH]; simpl; [discriminate |].
  destruct (PyStr.isspace d) eqn:E; [exact IH |].
  intros H. inversion H; subst. exact E.
Qed.

Lemma rstrip_primeiro (c : ascii) (r : string) :
  PyStr.isspace c = false -> exists r', PyStr.rstrip (String c r) = String c r'.
Proof.
  intros H. simpl. destruct (PyStr.rstrip r).
  - rewrite H. eexists. reflexivity.
  - eexists. reflexivity.
Qed.

Lemma strip_primeiro (s : string) :
  PyStr.truthy (PyStr.strip s) = true ->
  exists c r, PyStr.strip s = String c r /\ PyStr.isspace c = false.
Proof.
  unfold PyStr.strip. intros H.
  destruct (PyStr.lstrip s) as [| c r] eqn:E; [discriminate H |].
  pose proof (lstrip_primeiro s c r E) as Hc.
  destruct (rstrip_primeiro c r Hc) as [r' Hr].
  exists c, r'. split; [exact Hr | exact Hc].
Qed.

Lemma split_aux_nao_vazio (s cur : string) :
  PyStr.truthy cur = true -> PyStr.split_aux cur s <> [].
Proof.
  revert cur. induction s as [| c s IH]; intros cur H; simpl.
  - unfold PyStr.fecha. rewrite H. discriminate.
  - destruct (PyStr.isspace c).
    + unfold PyStr.fecha. rewrite H. discriminate.
    + apply IH. destruct cur; reflexivity.
Qed.

Lemma split_nao_vazio (c : ascii) (r : string) :
  PyStr.isspace c = false -> PyStr.split (String c r) <> [].
Proof.
  intros H. unfold PyStr.split. simpl. rewrite H.
  apply split_aux_nao_vazio. reflexivity.
Qed.

Lemma chave_digitada_tem_palavras (linha : string) :
  PyStr.truthy (PyStr.strip linha) = true ->
  PyStr.split (PyStr.lower (PyStr.strip linha)) <> [].
Proof.
  intros H. destruct (strip_primeiro linha H) as [c [r [E Hc]]].
  rewrite E. simpl. apply split_nao_vazio.
  rewrite isspace_lower_char. exact Hc.
Qed.

Lemma ler_palavras_spec (entrada : list string) :
  forall acc keys resto,
    Prompt.ler_palavras entrada acc = Some (keys, resto) ->
    exists linhas vazia,
      entrada = linhas ++ vazia :: resto
      /\ keys = acc ++ map PyStr.strip linhas
      /\ PyStr.strip vazia = EmptyString
      /\ Forall (fun l => PyStr.truthy (PyStr.strip l) = true) linhas.
Proof.
  induction entrada as [| l entrada IH]; intros acc keys resto H; simpl in H.
  - discriminate.
  - destruct (PyStr.truthy (PyStr.strip l)) eqn:E; simpl in H.
    + destruct (IH _ _ _ H) as [linhas [vazia (H1 & H2 & H3 & H4)]].
      exists (l :: linhas), vazia. repeat split.
      * simpl. rewrite H1. reflexivity.
      * rewrite H2, <- app_assoc. reflexivity.
      * exact H3.
      * constructor; assumption.
    + inversion H; subst. exists [], l. repeat split.
      * rewrite app_nil_r. reflexivity.
      * destruct (PyStr.strip l); [reflexivity | discriminate].
      * constructor.
Qed.

(** X11: the key phrase prompt returns the typed lines up to the first
    blank one, each trimmed; none of them is empty, and none, lower-cased,
    is a phrase of blanks only: each one that has a blank splits into at
    least one word, so the failure of a blanks-only key phrase cannot come
    from a phrase typed at the prompt. *)
Theorem prompted_key_phrases_are_sound :
  forall (entrada keys resto : list string),
    Prompt.solicitar_palavras_chave entrada = Some (keys, resto) ->
    (exists linhas vazia,
        entrada = linhas ++ vazia :: resto
        /\ keys = map PyStr.strip linhas
        /\ PyStr.strip vazia = EmptyString
        /\ Forall (fun l => PyStr.strip l <> EmptyString) linhas)
    /\ ~ In EmptyString keys
    /\ Forall Espec.chave_com_palavras (map PyStr.lower keys)
    /\ (forall chave, In chave keys -> ~ Espec2.so_brancos (PyStr.lower chave)).
Proof.
  intros entrada keys resto H.
  destruct (ler_palavras_spec entrada [] keys resto H)
    as [linhas [vazia (H1 & H2 & H3 & H4)]].
  simpl in H2.
  assert (Hs : forall chave, In chave keys ->
                             PyStr.split (PyStr.lower chave) <> []).
  { intros chave Hin. rewrite H2 in Hin. apply in_map_iff in Hin.
    destruct Hin as [l [<- Hl]]. rewrite Forall_forall in H4.
    apply chave_digitada_tem_palavras. apply H4. exact Hl. }
  split; [| split; [| split]].
  - exists linhas, vazia. repeat split; try assumption.
    eapply Forall_impl; [| exact H4]. intros l Hl E. cbv beta in Hl.
    rewrite E in Hl. discriminate Hl.
  - rewrite H2. intros Hin. apply in_map_iff in Hin.
    destruct Hin as [l [El Hl]]. rewrite Forall_forall in H4.
    specialize (H4 l Hl). rewrite El in H4. discriminate.
  - apply Forall_forall. intros p Hp. apply in_map_iff in Hp.
    destruct Hp as [chave [<- Hin]]. intros _. apply Hs. exact Hin.
  - intros chave Hin [_ Hb]. exact (Hs chave Hin Hb).
Qed.

Lemma prompted_key_phrases_are_sound_witness :
  Prompt.solicitar_palavras_chave ["  Sutura lacrimal "; "osso"; "  "; "s"]
  = Some (["Sutura lacrimal"; "osso"], ["s"])
  /\ ~ In EmptyString ["Sutura lacrimal"; "osso"].
Proof.
  assert (H : Prompt.solicitar_palavras_chave
                ["  Sutura lacrimal "; "osso"; "  "; "s"]
              = Some (["Sutura lacrimal"; "osso"], ["s"])) by reflexivity.
  split; [exact H |].
  destruct (prompted_key_phrases_are_sound _ _ _ H) as (_ & Hn & _).
  exact Hn.
Defined.

(** X12: the options prompt reads two lines, and a third one exactly when
    the second answer, trimmed and lower-cased, is "s" or "t".  The delete
    option is on exactly when the first answer is "s"; the double mode
    exactly when the second is "t"; the cover flag exactly when the second
    is "s"; numbering exactly when a third line is read and it is "s".  So
    numbering is on only if covering or the double mode is on, and the
    double mode leaves the cover flag off.  With three lines typed the
    prompt always returns. *)
Theorem prompted_options_follow_the_answers :
  forall (entrada : list string),
    (forall (opcoes : Destacar.Opcoes) (resto : list string),
        Prompt.obter_opcoes_usuario entrada = Some (opcoes, resto) ->
        (exists l1 l2 cauda,
            entrada = l1 :: l2 :: cauda
            /\ let r1 := PyStr.lower (PyStr.strip l1) in
               let r2 := PyStr.lower (PyStr.strip l2) in
               Destacar.deletar_sem_destaque opcoes = String.eqb r1 "s"
               /\ Destacar.modo_duplo opcoes = String.eqb r2 "t"
               /\ Destacar.ocultar_palavras opcoes = String.eqb r2 "s"
               /\ if String.eqb r2 "s" || String.eqb r2 "t"
                  then exists l3,
                         cauda = l3 :: resto
                         /\ Destacar.numerar_palavras opcoes
                            = String.eqb (PyStr.lower (PyStr.strip l3)) "s"
                  else cauda = resto
                       /\ Destacar.numerar_palavras opcoes = false)
        /\ (Destacar.numerar_palavras opcoes = true ->
            Destacar.ocultar_palavras opcoes = true
            \/ Destacar.modo_duplo opcoes = true)
        /\ (Destacar.modo_duplo opcoes = true ->
            Destacar.ocultar_palavras opcoes = false))
    /\ ((3 <= List.length entrada)%nat ->
        exists opcoes resto,
          Prompt.obter_opcoes_usuario entrada = Some (opcoes, resto)).
Proof.
  intros entrada. split.
  - intros opcoes resto H. unfold Prompt.obter_opcoes_usuario in H.
    destruct entrada as [| l1 [| l2 cauda]]; simpl in H; try discriminate.
    destruct (String.eqb (PyStr.lower (PyStr.strip l2)) "s") eqn:Es;
      destruct (String.eqb (PyStr.lower (PyStr.strip l2)) "t") eqn:Et;
      simpl in H.
    + apply String.eqb_eq in Es. apply String.eqb_eq in Et. congruence.
    + destruct cauda as [| l3 cauda]; simpl in H; [discriminate |].
      inversion H; subst; simpl.
      split; [| split; [auto | discriminate]].
      exists l1, l2, (l3 :: resto). rewrite Es, Et. simpl.
      repeat split. exists l3. split; reflexivity.
    + destruct cauda as [| l3 cauda]; simpl in H; [discriminate |].
      inversion H; subst; simpl.
      split; [| split; [auto | reflexivity]].
      exists l1, l2, (l3 :: resto). rewrite Es, Et. simpl.
      repeat split. exists l3. split; reflexivity.
    + inversion H; subst; simpl.
      split; [| split; discriminate].
      exists l1, l2, resto. rewrite Es, Et. simpl. repeat split.
  - intros Hlen. unfold Prompt.obter_opcoes_usuario.
    destruct entrada as [| l1 [| l2 [| l3 cauda]]]; simpl in Hlen; try lia.
    simpl.
    destruct (String.eqb (PyStr.lower (PyStr.strip l2)) "s"
              || String.eqb (PyStr.lower (PyStr.strip l2)) "t");
      eexists; eexists; reflexivity.
Qed.

Lemma prompted_options_follow_the_answers_witness :
  exists opcoes,
    Prompt.obter_opcoes_usuario [" S"; "t"; "s"; "sobra"] = Some (opcoes, ["sobra"])
    /\ Destacar.modo_duplo opcoes = true
    /\ Destacar.ocultar_palavras opcoes = false.
Proof.
  eexists. split; [reflexivity |].
  split; [reflexivity |].
  destruct (prompted_options_follow_the_answers [" S"; "t"; "s"; "sobra"])
    as [H _].
  destruct (H _ ["sobra"] eq_refl) as (_ & _ & Hd).
  apply Hd. reflexivity.
Defined.

(** ** The crop around a contour *)

Lemma limite_dentro (n v : Z) : 0 <= v <= n -> ExtrairPrint.limite n v = v.
Proof.
  intros H. unfold ExtrairPrint.limite.
  destruct (Z.ltb_spec v 0) as [Hn | _]; [lia |].
  rewrite Z.min_r by lia. apply Z.max_r. lia.
Qed.

Lemma fatia_dentro (n inicio fim : Z) :
  0 <= inicio -> inicio <= fim -> fim <= n ->
  ExtrairPrint.fatia n inicio fim = fim - inicio.
Proof.
  intros H1 H2 H3. unfold ExtrairPrint.fatia.
  rewrite !limite_dentro by lia. apply Z.max_r. lia.
Qed.

Lemma margem_em_um_eixo (n v t m : Z) :
  0 <= v -> 0 < t -> v + t <= n -> 0 < m ->
  let c := Z.max 0 (v - m) in
  let tc := Z.min (n - c) (t + 2 * m) in
  0 <= c /\ 0 < tc /\ c + tc <= n /\ c <= v /\ v + t <= c + tc
  /\ Z.min n (v + t + m) <= c + tc.
Proof.
  intros Hv Ht Hvt Hm c tc. unfold tc, c.
  destruct (Z.max_spec 0 (v - m)) as [[_ E] | [_ E]]; rewrite E;
    destruct (Z.min_spec (n - (v - m)) (t + 2 * m)) as [[_ F] | [_ F]];
    destruct (Z.min_spec (n - 0) (t + 2 * m)) as [[_ G] | [_ G]];
    destruct (Z.min_spec n (v + t + m)) as [[_ K] | [_ K]];
    rewrite ?F, ?G, ?K; repeat split; lia.
Qed.

(** X13: for a bounding rectangle of positive size inside the page image,
    the crop with margins has positive size, lies inside the image, contains
    the rectangle, reaches at least 300 px to each side and 100 px above and
    below wherever the image allows, and the slice taken is not empty. *)
Theorem crop_with_margin_is_inside_and_covers :
  forall shape0 shape1 x y w h : Z,
    0 <= x -> 0 < w -> x + w <= shape1 ->
    0 <= y -> 0 < h -> y + h <= shape0 ->
    forall xc yc wc hc,
      ExtrairPrint.com_margem shape0 shape1 x y w h = (xc, yc, wc, hc) ->
      (0 <= xc /\ 0 < wc /\ xc + wc <= shape1)
      /\ (0 <= yc /\ 0 < hc /\ yc + hc <= shape0)
      /\ (xc <= x /\ x + w <= xc + wc /\ yc <= y /\ y + h <= yc + hc)
      /\ (xc = Z.max 0 (x - 300) /\ Z.min shape1 (x + w + 300) <= xc + wc)
      /\ (yc = Z.max 0 (y - 100) /\ Z.min shape0 (y + h + 100) <= yc + hc)
      /\ ExtrairPrint.recorte_size shape0 shape1 (xc, yc, wc, hc) = hc * wc * 3
      /\ 0 < ExtrairPrint.recorte_size shape0 shape1 (xc, yc, wc, hc).
Proof.
  intros shape0 shape1 x y w h Hx Hw Hxw Hy Hh Hyh xc yc wc hc E.
  pose proof (f_equal (fun t => fst (fst (fst t))) E) as Exc.
  pose proof (f_equal (fun t => snd (fst (fst t))) E) as Eyc.
  pose proof (f_equal (fun t => snd (fst t)) E) as Ewc.
  pose proof (f_equal (fun t => snd t) E) as Ehc.
  change (Z.max 0 (x - ExtrairPrint.margem_horizontal) = xc) in Exc.
  change (Z.max 0 (y - ExtrairPrint.margem_vertical) = yc) in Eyc.
  change (Z.min (shape1 - Z.max 0 (x - ExtrairPrint.margem_horizontal))
            (w + 2 * ExtrairPrint.margem_horizontal) = wc) in Ewc.
  change (Z.min (shape0 - Z.max 0 (y - ExtrairPrint.margem_vertical))
            (h + 2 * ExtrairPrint.margem_vertical) = hc) in Ehc.
  assert (H300 : 0 < ExtrairPrint.margem_horizontal) by reflexivity.
  assert (H100 : 0 < ExtrairPrint.margem_vertical) by reflexivity.
  pose proof (margem_em_um_eixo shape1 x w ExtrairPrint.margem_horizontal
                Hx Hw Hxw H300) as Hh1.
  pose proof (margem_em_um_eixo shape0 y h ExtrairPrint.margem_vertical
                Hy Hh Hyh H100) as Hv1.
  cbv zeta in Hh1, Hv1. rewrite Exc in Ewc. rewrite Eyc in Ehc.
  rewrite Exc, Ewc in Hh1. rewrite Eyc, Ehc in Hv1.
  destruct Hh1 as (A1 & A2 & A3 & A4 & A5 & A6).
  destruct Hv1 as (B1 & B2 & B3 & B4 & B5 & B6).
  assert (Hs : ExtrairPrint.recorte_size shape0 shape1 (xc, yc, wc, hc)
               = hc * wc * 3).
  { unfold ExtrairPrint.recorte_size.
    rewrite (fatia_dentro shape0 yc (yc + hc)) by lia.
    rewrite (fatia_dentro shape1 xc (xc + wc)) by lia.
    replace (yc + hc - yc) with hc by lia.
    replace (xc + wc - xc) with wc by lia.
    reflexivity. }
  split; [auto |]. split; [auto |]. split; [auto |].
  split; [split; [symmetry; exact Exc | exact A6] |].
  split; [split; [symmetry; exact Eyc | exact B6] |].
  split; [exact Hs |].
  rewrite Hs. apply Z.mul_pos_pos; [apply Z.mul_pos_pos; assumption | reflexivity].
Qed.

Lemma crop_with_margin_is_inside_and_covers_witness :
  ExtrairPrint.com_margem 3300 2550 100 3000 400 250 = (0, 2900, 1000, 400)
  /\ ExtrairPrint.recorte_size 3300 2550 (0, 2900, 1000, 400) = 400 * 1000 * 3.
Proof.
  assert (E : ExtrairPrint.com_margem 3300 2550 100 3000 400 250
              = (0, 2900, 1000, 400)) by reflexivity.
  split; [exact E |].
  assert (H1 : 0 <= 100) by lia. assert (H2 : 0 < 400) by lia.
  assert (H3 : 100 + 400 <= 2550) by lia. assert (H4 : 0 <= 3000) by lia.
  assert (H5 : 0 < 250) by lia. assert (H6 : 3000 + 250 <= 3300) by lia.
  destruct (crop_with_margin_is_inside_and_covers 3300 2550 100 3000 400 250
              H1 H2 H3 H4 H5 H6 0 2900 1000 400 E)
    as (_ & _ & _ & _ & _ & H & _).
  exact H.
Defined.

(** ** Embedded images of a PDF *)

Lemma paginas_concat (paginas : list (list ExtrairCodigo.Embutida))
    (st : ExtrairCodigo.Estado) :
  fold_left (fun st image_list => fold_left ExtrairCodigo.extrair_imagem image_list st)
    paginas st
  = fold_left ExtrairCodigo.extrair_imagem (List.concat paginas) st.
Proof.
  revert st. induction paginas as [| p paginas IH]; intros st; simpl.
  - reflexivity.
  - rewrite IH, fold_left_app. reflexivity.
Qed.

Lemma extrair_imagens_invariante (imgs : list ExtrairCodigo.Embutida) :
  forall st,
    ExtrairCodigo.escritos st
    = map ExtrairCodigo.output_filename
        (seq 1 (List.length (ExtrairCodigo.escritos st))) ->
    (ExtrairCodigo.excecao st = None ->
     ExtrairCodigo.img_count st = List.length (ExtrairCodigo.escritos st)) ->
    let fim := fold_left ExtrairCodigo.extrair_imagem imgs st in
    ExtrairCodigo.escritos fim
    = map ExtrairCodigo.output_filename
        (seq 1 (List.length (ExtrairCodigo.escritos fim)))
    /\ (ExtrairCodigo.excecao fim = None ->
        ExtrairCodigo.excecao st = None
        /\ ExtrairCodigo.img_count fim = List.length (ExtrairCodigo.escritos fim)
        /\ List.length (ExtrairCodigo.escritos fim)
           = (List.length (ExtrairCodigo.escritos st) + List.length imgs)%nat)
    /\ (List.length (ExtrairCodigo.escritos fim)
        <= List.length (ExtrairCodigo.escritos st) + List.length imgs)%nat
    /\ exists novos,
         ExtrairCodigo.escritos fim = ExtrairCodigo.escritos st ++ novos.
Proof.
  induction imgs as [| img imgs IH]; intros st H1 H2; simpl.
  - repeat split; auto; try lia. exists []. rewrite app_nil_r. reflexivity.
  - assert (Hstep :
      let st1 := ExtrairCodigo.extrair_imagem st img in
      ExtrairCodigo.escritos st1
      = map ExtrairCodigo.output_filename
          (seq 1 (List.length (ExtrairCodigo.escritos st1)))
      /\ (ExtrairCodigo.excecao st1 = None ->
          ExtrairCodigo.excecao st = None
          /\ ExtrairCodigo.img_count st1 = List.length (ExtrairCodigo.escritos st1)
          /\ List.length (ExtrairCodigo.escritos st1)
             = S (List.length (ExtrairCodigo.escritos st)))
      /\ (List.length (ExtrairCodigo.escritos st1)
          <= S (List.length (ExtrairCodigo.escritos st)))%nat
      /\ exists novos,
           ExtrairCodigo.escritos st1 = ExtrairCodigo.escritos st ++ novos).
    { unfold ExtrairCodigo.extrair_imagem.
      destruct (ExtrairCodigo.excecao st) as [e |] eqn:Ee.
      - rewrite Ee. repeat split; auto; try discriminate.
        exists []. rewrite app_nil_r. reflexivity.
      - specialize (H2 eq_refl).
        destruct (ExtrairCodigo.extrair img); simpl.
        2:{ repeat split; auto; try discriminate.
            exists []. rewrite app_nil_r. reflexivity. }
        destruct (ExtrairCodigo.abrir img); simpl.
        2:{ repeat split; auto; try discriminate.
            exists []. rewrite app_nil_r. reflexivity. }
        destruct (ExtrairCodigo.salvar img); simpl.
        2:{ repeat split; auto; try discriminate.
            exists []. rewrite app_nil_r. reflexivity. }
        rewrite length_app. simpl. rewrite Nat.add_1_r.
        repeat split; auto.
        + rewrite seq_S, map_app, <- H1. simpl. rewrite H2. reflexivity.
        + eexists. reflexivity. }
    cbv zeta in Hstep. destruct Hstep as (S1 & S2 & S3 & [n1 S4]).
    destruct (IH (ExtrairCodigo.extrair_imagem st img) S1
                (fun H => proj1 (proj2 (S2 H)))) as (I1 & I2 & I3 & [n2 I4]).
    repeat split.
    + exact I1.
    + destruct (I2 H) as (A & _ & _). destruct (S2 A) as (B & _ & _). exact B.
    + destruct (I2 H) as (_ & A & _). exact A.
    + destruct (I2 H) as (A & _ & C). destruct (S2 A) as (_ & _ & D). lia.
    + lia.
    + exists (n1 ++ n2). rewrite I4, S4, app_assoc. reflexivity.
Qed.

(** X14: the files the extraction writes are [1.png], [2.png], ... in this
    order and without a gap, numbered through the whole document and not
    page by page.  When no call raises there is one file per embedded image;
    when one raises, no more than that. *)
Theorem extracted_images_are_numbered_in_sequence :
  forall paginas : list (list ExtrairCodigo.Embutida),
    let fim := ExtrairCodigo.extract_images_from_pdf paginas in
    let total := List.length (List.concat paginas) in
    ExtrairCodigo.escritos fim
    = map (fun k => (PyStr.str k ++ ".png")%string)
        (seq 1 (List.length (ExtrairCodigo.escritos fim)))
    /\ (List.length (ExtrairCodigo.escritos fim) <= total)%nat
    /\ (ExtrairCodigo.excecao fim = None ->
        List.length (ExtrairCodigo.escritos fim) = total
        /\ ExtrairCodigo.img_count fim = total).
Proof.
  intros paginas fim total. unfold fim, ExtrairCodigo.extract_images_from_pdf.
  rewrite paginas_concat.
  destruct (extrair_imagens_invariante (List.concat paginas)
              {| ExtrairCodigo.img_count := 0; ExtrairCodigo.escritos := [];
                 ExtrairCodigo.excecao := None |} eq_refl (fun _ => eq_refl))
    as (H1 & H2 & H3 & _).
  cbv zeta in H1, H2, H3. simpl in H2, H3.
  split; [exact H1 | split; [exact H3 |]].
  intros Hn. destruct (H2 Hn) as (_ & A & B). unfold total. split; congruence.
Qed.

Lemma extracted_images_are_numbered_in_sequence_witness :
  let boa := {| ExtrairCodigo.extrair := Ret tt; ExtrairCodigo.abrir := Ret tt;
                ExtrairCodigo.salvar := Ret tt |} in
  let fim := ExtrairCodigo.extract_images_from_pdf [[boa; boa]; []; [boa]] in
  ExtrairCodigo.excecao fim = None
  /\ ExtrairCodigo.escritos fim = ["1.png"; "2.png"; "3.png"].
Proof.
  intros boa fim.
  assert (Hn : ExtrairCodigo.excecao fim = None) by reflexivity.
  split; [exact Hn |].
  destruct (extracted_images_are_numbered_in_sequence [[boa; boa]; []; [boa]])
    as (H1 & _ & H3).
  destruct (H3 Hn) as [Hl _]. fold fim in H1, Hl.
  rewrite H1, Hl. reflexivity.
Defined.

(** ** When the scan returns *)

(** X15: the box-level scan returns exactly when no key phrase is made of
    blanks only and both [rectangle] calls accept every region the key
    phrases have in the boxes: the outline box, 2 px outward, has its
    corners in order, and so has the region itself when the cover flag is
    set.  Nothing else makes the scan raise. *)
Theorem scan_returns_exactly_when_drawable :
  forall (o n : bool) (coords : list Coord.t) (chaves : list string),
    (exists st, Destacar.varrer o n coords chaves = Ret st)
    <-> (forall chave, In chave chaves ->
           PyStr.contem " " chave = true -> PyStr.split chave <> [])
        /\ (forall x_min y_min x_max y_max,
              In (x_min, y_min, x_max, y_max)
                 (flat_map (Espec.regioes_da_chave coords) chaves) ->
              x_min - 2 <= x_max + 2 /\ y_min - 2 <= y_max + 2
              /\ (o = true -> x_min <= x_max /\ y_min <= y_max)).
Proof.
  intros o n coords chaves. rewrite varrer_retorna_sse.
  rewrite !Forall_forall. unfold Espec.chave_com_palavras. split.
  - intros [H1 H2]. split; [exact H1 |].
    intros x_min y_min x_max y_max Hin. apply desenhavel_spec. apply H2. exact Hin.
  - intros [H1 H2]. split; [exact H1 |].
    intros [[[x_min y_min] x_max] y_max] Hin. apply desenhavel_spec.
    apply H2. exact Hin.
Qed.

Lemma scan_returns_exactly_when_drawable_witness :
  (exists st,
      Destacar.varrer true true (Espec.coords_de Exemplos.tokens_linha)
        ["femur tibia"; "tibia"] = Ret st)
  /\ ~ (exists st,
          Destacar.varrer true true (Espec.coords_de Exemplos.tokens_quebra)
            ["femur tibia"] = Ret st).
Proof.
  split.
  - apply (proj2 (scan_returns_exactly_when_drawable true true
                    (Espec.coords_de Exemplos.tokens_linha)
                    ["femur tibia"; "tibia"])).
    split.
    + intros chave [E | [E | []]] _; subst chave; vm_compute; discriminate.
    + intros x_min y_min x_max y_max Hin. vm_compute in Hin.
      destruct Hin as [E | [E | []]]; inversion E; subst;
        repeat split; intros; lia.
  - intros H.
    apply (proj1 (scan_returns_exactly_when_drawable true true
                    (Espec.coords_de Exemplos.tokens_quebra) ["femur tibia"])) in H.
    destruct H as [_ H].
    destruct (H 500 10 60 60) as (_ & _ & Hc).
    + vm_compute. left. reflexivity.
    + destruct (Hc eq_refl) as [Hx _]. lia.
Defined.

(** X16: scanning a list of key phrases is scanning its parts one after the
    other: the drawing calls and the numbering entries of [c1 ++ c2] are
    those of [c1] followed by those of [c2], and the occurrences add up.
    Nothing is merged, so a key phrase listed twice is drawn and counted
    twice. *)
Theorem scan_of_key_lists_composes :
  forall (o n : bool) (coords : list Coord.t) (c1 c2 : list string)
         (st : Destacar.Estado),
    Destacar.varrer o n coords (c1 ++ c2) = Ret st ->
    exists st1 st2,
      Destacar.varrer o n coords c1 = Ret st1
      /\ Destacar.varrer o n coords c2 = Ret st2
      /\ Destacar.desenho st = Destacar.desenho st1 ++ Destacar.desenho st2
      /\ Destacar.destaques st = Destacar.destaques st1 ++ Destacar.destaques st2
      /\ Destacar.palavras_encontradas st
         = (Destacar.palavras_encontradas st1 + Destacar.palavras_encontradas st2)%nat.
Proof.
  intros o n coords c1 c2 st H.
  destruct (proj1 (varrer_retorna_sse o n coords (c1 ++ c2)) (ex_intro _ st H))
    as [Hf Hd].
  apply Forall_app in Hf. destruct Hf as [Hf1 Hf2].
  rewrite flat_map_app in Hd. apply Forall_app in Hd. destruct Hd as [Hd1 Hd2].
  destruct (varrer_termina o n coords c1 Hf1 Hd1) as [st1 E1].
  destruct (varrer_termina o n coords c2 Hf2 Hd2) as [st2 E2].
  exists st1, st2. split; [exact E1 | split; [exact E2 |]].
  destruct (varrer_emitiu o n coords (c1 ++ c2) st H) as (A & B & C).
  destruct (varrer_emitiu o n coords c1 st1 E1) as (A1 & B1 & C1).
  destruct (varrer_emitiu o n coords c2 st2 E2) as (A2 & B2 & C2).
  simpl in *. rewrite flat_map_app in A, B, C.
  rewrite A, A1, A2, B, B1, B2, C, C1, C2.
  rewrite flat_map_app, length_app.
  repeat split.
  all: try (destruct (o && n); [rewrite map_app |]; reflexivity).
Qed.

Lemma scan_of_key_lists_composes_witness :
  exists st st1,
    Destacar.varrer true true (Espec.coords_de Exemplos.tokens_linha)
      (["tibia"] ++ ["tibia"]) = Ret st
    /\ Destacar.varrer true true (Espec.coords_de Exemplos.tokens_linha) ["tibia"]
       = Ret st1
    /\ Destacar.palavras_encontradas st
       = (Destacar.palavras_encontradas st1 + Destacar.palavras_encontradas st1)%nat.
Proof.
  destruct (varrer_termina true true (Espec.coords_de Exemplos.tokens_linha)
              (["tibia"] ++ ["tibia"])) as [st E].
  { repeat constructor; intros H; discriminate H. }
  { vm_compute. repeat constructor. }
  destruct (scan_of_key_lists_composes true true _ ["tibia"] ["tibia"] st E)
    as [st1 [st2 (E1 & E2 & _ & _ & H)]].
  exists st, st1. split; [exact E | split; [exact E1 |]].
  rewrite E1 in E2. inversion E2; subst. exact H.
Defined.

(** ** Substring matching *)

Lemma append_assoc_str (a b c : string) :
  ((a ++ b) ++ c)%string = (a ++ b ++ c)%string.
Proof.
  induction a as [| x a IH]; simpl; [reflexivity | rewrite IH; reflexivity].
Qed.

Lemma contem_trans (a b s : string) :
  PyStr.contem a b = true -> PyStr.contem b s = true -> PyStr.contem a s = true.
Proof.
  rewrite !contem_spec. intros [x [y Hb]] [u [v Hs]].
  exists (u ++ x)%string, (y ++ v)%string.
  rewrite Hs, Hb, !append_assoc_str. reflexivity.
Qed.

Lemma filter_mais_fraco {A : Type} (f g : A -> bool) (l : list A) :
  (forall x, f x = true -> g x = true) ->
  (List.length (filter f l) <= List.length (filter g l))%nat
  /\ forall x, In x (filter f l) -> In x (filter g l).
Proof.
  intros H. split.
  - induction l as [| x l IH]; simpl; [lia |].
    destruct (f x) eqn:Ef.
    + rewrite (H x Ef). simpl. lia.
    + destruct (g x); simpl; lia.
  - intros x Hx. apply filter_In in Hx. destruct Hx as [Hin Hf].
    apply filter_In. split; [exact Hin | apply H; exact Hf].
Qed.

(** X17: matching is by substring, so a one-word key phrase that occurs
    inside another one-word key phrase finds every region the longer one
    finds, and at least as many occurrences. *)
Theorem shorter_key_matches_more :
  forall (coords : list Coord.t) (curta longa : string),
    PyStr.contem " " curta = false ->
    PyStr.contem " " longa = false ->
    PyStr.contem curta longa = true ->
    (forall xy, In xy (Espec.regioes_da_chave coords longa) ->
                In xy (Espec.regioes_da_chave coords curta))
    /\ (List.length (Espec.regioes_da_chave coords longa)
        <= List.length (Espec.regioes_da_chave coords curta))%nat
    /\ forall o n st, exists s1 s2,
         Destacar.destacar_chave o n coords st longa = Ret s1
         /\ Destacar.destacar_chave o n coords st curta = Ret s2
         /\ (Destacar.palavras_encontradas s1 <= Destacar.palavras_encontradas s2)%nat.
Proof.
  intros coords curta longa Hc Hl Hsub.
  unfold Espec.regioes_da_chave. rewrite Hc, Hl.
  destruct (filter_mais_fraco
              (fun c => PyStr.contem longa (PyStr.lower (Coord.texto c)))
              (fun c => PyStr.contem curta (PyStr.lower (Coord.texto c)))
              coords) as [Hlen Hin].
  { intros c H. exact (contem_trans _ _ _ Hsub H). }
  split; [| split].
  - intros xy Hxy. apply in_map_iff in Hxy. destruct Hxy as [c [E Hcx]].
    apply in_map_iff. exists c. split; [exact E | apply Hin; exact Hcx].
  - rewrite !length_map. exact Hlen.
  - intros o n st.
    destruct (destacar_chave_palavra_termina o n coords st longa Hl) as [s1 E1].
    destruct (destacar_chave_palavra_termina o n coords st curta Hc) as [s2 E2].
    exists s1, s2. split; [exact E1 | split; [exact E2 |]].
    destruct (destacar_chave_emitiu o n coords st s1 longa E1) as (_ & _ & C1).
    destruct (destacar_chave_emitiu o n coords st s2 curta E2) as (_ & _ & C2).
    unfold Espec.regioes_da_chave in C1, C2. rewrite Hl in C1. rewrite Hc in C2.
    rewrite C1, C2, !length_map. lia.
Qed.

Lemma shorter_key_matches_more_witness :
  (List.length (Espec.regioes_da_chave (Espec.coords_de Exemplos.tokens_linha) "tibia")
   <= List.length (Espec.regioes_da_chave (Espec.coords_de Exemplos.tokens_linha) "i"))%nat.
Proof.
  destruct (shorter_key_matches_more (Espec.coords_de Exemplos.tokens_linha)
              "i" "tibia" eq_refl eq_refl eq_refl) as (_ & H & _).
  exact H.
Defined.

(** ** Multi-word key phrases *)

(** X18: for a multi-word key phrase (one with a blank, split into [k >= 1]
    words) the windows that are due a region are those starting at an index
    [i] where the boxes [i .. i+k-1] exist and word [j] of the phrase is a
    substring of the lower-cased text of box [i+j]: one per index, in
    increasing order, none past [len - k]; the rectangle computed for a
    window runs from the first box's left edge to the last box's right edge,
    its top is the least top and its bottom the greatest bottom of the [k]
    boxes.  The scan of the phrase returns exactly when both [rectangle]
    calls accept each of these rectangles, and then it has emitted them
    all, in order. *)
Theorem multi_word_regions_when_drawable :
  forall (ocultar numerar : bool) (coords : list Coord.t)
         (palavra_chave : string) (st : Destacar.Estado),
    PyStr.contem " " palavra_chave = true ->
    PyStr.split palavra_chave <> [] ->
    let frase := PyStr.split palavra_chave in
    let k := List.length frase in
    let emitidas := Espec.emitidas_frase coords frase in
    ((exists st',
         Destacar.destacar_chave ocultar numerar coords st palavra_chave = Ret st')
     <-> Forall (fun xy => Espec.desenhavel ocultar xy = true) (map snd emitidas))
    /\ (forall st',
          Destacar.destacar_chave ocultar numerar coords st palavra_chave = Ret st' ->
          Espec.emitiu ocultar numerar st st' (map snd emitidas))
    /\ StronglySorted lt (map fst emitidas)
    /\ (forall i, In i (map fst emitidas) <-> Espec.janela_casa coords frase i)
    /\ (forall i, (List.length coords < i + k)%nat -> ~ In i (map fst emitidas))
    /\ (forall i x_min y_min x_max y_max,
          In (i, (x_min, y_min, x_max, y_max)) emitidas ->
          exists primeira ultima,
            nth_error coords i = Some primeira
            /\ nth_error coords (i + k - 1) = Some ultima
            /\ x_min = Coord.x primeira
            /\ x_max = Coord.x ultima + Coord.largura ultima
            /\ In y_min (map Coord.y (Espec.janela coords i k))
            /\ Forall (fun c => y_min <= Coord.y c) (Espec.janela coords i k)
            /\ In y_max (map (fun c => Coord.y c + Coord.altura c)
                           (Espec.janela coords i k))
            /\ Forall (fun c => Coord.y c + Coord.altura c <= y_max)
                 (Espec.janela coords i k)).
Proof.
  intros ocultar numerar coords palavra_chave st Hsp Hne frase k emitidas.
  assert (Hk : (0 < k)%nat).
  { unfold k, frase. destruct (PyStr.split palavra_chave); [congruence | simpl; lia]. }
  assert (Hin : forall i, In i (map fst emitidas) <->
                          exists xy, In (i, xy) emitidas).
  { intros i. rewrite in_map_iff. split.
    - intros [[i' xy] [E H]]. simpl in E. subst i'. exists xy. exact H.
    - intros [xy H]. exists (i, xy). split; [reflexivity | exact H]. }
  assert (Hr : Espec.regioes_da_chave coords palavra_chave = map snd emitidas).
  { unfold Espec.regioes_da_chave. rewrite Hsp. reflexivity. }
  split; [| split; [| split; [| split; [| split]]]].
  - rewrite <- Hr. split.
    + intros [st' E].
      exact (destacar_chave_desenhavel ocultar numerar coords st st' palavra_chave E).
    + intros Hd. apply destacar_chave_termina; [| exact Hd].
      intros _. exact Hne.
  - intros st' E. rewrite <- Hr. apply destacar_chave_emitiu. exact E.
  - apply emitidas_frase_ordenadas.
  - intros i. rewrite Hin. split.
    + intros [xy H]. apply in_emitidas_frase in H. destruct H as (_ & Es & _).
      apply sequencia_encontrada_janela. exact Es.
    + intros Hj.
      pose proof (janela_casa_dentro coords frase i Hne Hj) as Hle.
      destruct (abranger_spec coords i k Hk Hle) as (p & u & a & b & E & _).
      eexists. apply in_emitidas_frase. repeat split.
      * fold k. lia.
      * apply sequencia_encontrada_janela. exact Hj.
      * exact E.
  - intros i Hgt Hi. apply Hin in Hi. destruct Hi as [xy H].
    apply in_emitidas_frase in H. destruct H as (Hlt & _). fold k in Hlt. lia.
  - intros i x_min y_min x_max y_max H.
    apply in_emitidas_frase in H. destruct H as (Hlt & _ & Ea). fold k in Hlt, Ea.
    destruct (abranger_spec coords i k Hk) as (p & u & a & b & E & R); [lia |].
    rewrite E in Ea. inversion Ea; subst.
    exists p, u. destruct R as (R1 & R2 & R3 & R4 & R5 & R6).
    repeat split; assumption.
Qed.

Lemma multi_word_regions_when_drawable_witness :
  PyStr.contem " " "femur tibia" = true
  /\ PyStr.split "femur tibia" <> []
  /\ exists st',
       Destacar.destacar_chave true true (Espec.coords_de Exemplos.tokens_linha)
         Destacar.estado_inicial "femur tibia" = Ret st'
       /\ Destacar.palavras_encontradas st' = 1%nat.
Proof.
  assert (H1 : PyStr.contem " " "femur tibia" = true) by reflexivity.
  assert (H2 : PyStr.split "femur tibia" <> []) by (vm_compute; discriminate).
  split; [exact H1 | split; [exact H2 |]].
  destruct (multi_word_regions_when_drawable true true
              (Espec.coords_de Exemplos.tokens_linha)
              "femur tibia" Destacar.estado_inicial H1 H2) as (Hs & He & _).
  destruct (proj2 Hs) as [st' E].
  { vm_compute. repeat constructor. }
  exists st'. split; [exact E |].
  destruct (He st' E) as [_ [_ C]]. rewrite C. reflexivity.
Defined.

(** ** Region bounds *)

(** X19: no bound is clamped.  When every box lies inside the image, each
    region a key phrase's scan has emitted has its four bounds inside the
    image and its top no lower than its bottom; its left bound is no
    greater than its right one for a single-word phrase and under the cover
    flag, and exceeds it by 4 px at most otherwise. *)
Theorem region_bounds_within_image :
  forall (ocultar numerar : bool) (w h : Z) (coords : list Coord.t)
         (palavra_chave : string) (st st' : Destacar.Estado),
    Forall (Espec.caixa_na_imagem w h) coords ->
    Destacar.destacar_chave ocultar numerar coords st palavra_chave = Ret st' ->
    exists regs,
      Espec.emitiu ocultar numerar st st' regs
      /\ forall x_min y_min x_max y_max,
           In (x_min, y_min, x_max, y_max) regs ->
           0 <= x_min <= w /\ 0 <= x_max <= w
           /\ 0 <= y_min /\ y_min <= y_max /\ y_max <= h
           /\ (PyStr.contem " " palavra_chave = false -> x_min <= x_max)
           /\ (ocultar = true -> x_min <= x_max)
           /\ x_min - 4 <= x_max.
Proof.
  intros ocultar numerar w h coords palavra_chave st st' Hcx Hrun.
  exists (Espec.regioes_da_chave coords palavra_chave).
  split; [apply destacar_chave_emitiu; exact Hrun |].
  pose proof (destacar_chave_desenhavel ocultar numerar coords st st'
                palavra_chave Hrun) as Hd.
  rewrite Forall_forall in Hd.
  rewrite Forall_forall in Hcx. unfold Espec.caixa_na_imagem in Hcx.
  intros x_min y_min x_max y_max Hin.
  pose proof (proj1 (desenhavel_spec _ _ _ _ _) (Hd _ Hin)) as (D1 & D2 & D3).
  unfold Espec.regioes_da_chave in Hin.
  destruct (PyStr.contem " " palavra_chave) eqn:Hsp.
  - apply in_map_iff in Hin. destruct Hin as [[i xy] [E Hin]]. simpl in E. subst xy.
    apply in_emitidas_frase in Hin. destruct Hin as (Hlt & _ & Ea).
    destruct (List.length (PyStr.split palavra_chave)) as [| k] eqn:Ek.
    { exfalso. exact (abranger_sem_palavras _ _ _ Ea). }
    destruct (abranger_spec coords i (S k)) as (p & u & a & b & E & R); [lia | lia |].
    rewrite E in Ea. inversion Ea; subst.
    destruct R as (R1 & R2 & R3 & R4 & R5 & R6).
    apply nth_error_In in R1, R2.
    apply in_map_iff in R3. destruct R3 as [c3 [E3 I3]].
    apply in_map_iff in R5. destruct R5 as [c5 [E5 I5]].
    rewrite Forall_forall in R4, R6.
    pose proof (R4 c5 I5) as L1.
    apply in_janela in I3, I5.
    pose proof (Hcx _ R1). pose proof (Hcx _ R2).
    pose proof (Hcx _ I3). pose proof (Hcx _ I5).
    repeat split; try lia;
      intros Ho; first [discriminate Ho | apply D3; exact Ho].
  - apply in_map_iff in Hin. destruct Hin as [c [E Hin]].
    apply filter_In in Hin. destruct Hin as [Hin _].
    unfold Espec.retangulo in E. inversion E; subst.
    pose proof (Hcx _ Hin). repeat split; lia.
Qed.

Lemma region_bounds_within_image_witness :
  let coords := Espec.coords_de Exemplos.tokens_linha in
  Forall (Espec.caixa_na_imagem 200 100) coords
  /\ exists st' regs,
       Destacar.destacar_chave true true coords Destacar.estado_inicial "tibia" = Ret st'
       /\ Espec.emitiu true true Destacar.estado_inicial st' regs
       /\ forall x_min y_min x_max y_max,
            In (x_min, y_min, x_max, y_max) regs -> 0 <= x_min <= 200.
Proof.
  assert (H1 : Forall (Espec.caixa_na_imagem 200 100)
                 (Espec.coords_de Exemplos.tokens_linha)).
  { repeat constructor; vm_compute; discriminate. }
  split; [exact H1 |].
  destruct (destacar_chave_palavra_termina true true
              (Espec.coords_de Exemplos.tokens_linha) Destacar.estado_inicial
              "tibia" eq_refl) as [st' H2].
  destruct (region_bounds_within_image true true 200 100 _ "tibia" _ _ H1 H2)
    as [regs [He Hb]].
  exists st', regs. split; [exact H2 |]. split; [exact He |].
  intros x_min y_min x_max y_max Hin.
  destruct (Hb _ _ _ _ Hin) as [Hx _]. exact Hx.
Defined.
